(** * x3dh-demo: a shallow embedding of the X3DH key agreement demo

    The development follows the Go sources:
    - [internal/x3dh] (types, [GenKeyPair], [DH], [KDF], [encode32],
      [decode32]),
    - [cmd/alice] (the initiator), [cmd/bob] (the responder),
    - [cmd/server] (the mailbox on top of Redis lists),
    - [chat.go] (the chat client that talks to the same server).

    Go values are modelled as follows: a [byte] is [Byte.byte], a [[]byte]
    or [[32]byte] is a [list byte] (the fixed length is a side condition),
    a Go [string] is a [string] of 8-bit characters, a [(value, error)]
    result is a pair whose second component is an [option], and a process
    that may call [log.Fatal] or [panic] ends in an [outcome].  The
    packages the sources import ([encoding/hex], [crypto/sha256],
    [crypto/ecdh], [golang.org/x/crypto/chacha20poly1305]) are modelled
    from their published algorithms; each one is checked on the test
    vectors of its standard. *)

From Stdlib Require Import ZArith List String Ascii Lia Bool.
From Stdlib.Strings Require Import Byte.
From stdpp Require Import gmap strings.
From Bignums Require Import BigZ.
Import ListNotations.

Local Open Scope string_scope.
Local Open Scope Z_scope.

(* ===================================================================== *)
(** * Bytes *)
(* ===================================================================== *)

(** The numeric value of a byte, and the conversion [byte(z)] that keeps
    the low eight bits. *)
Definition b2z (b : byte) : Z := Z.of_N (Byte.to_N b).

Definition z2b (z : Z) : byte :=
  match Byte.of_N (Z.to_N (z mod 256)) with
  | Some b => b
  | None => x00
  end.

Definition byte_xor (a b : byte) : byte := z2b (Z.lxor (b2z a) (b2z b)).

Definition byte_eqb (a b : byte) : bool := b2z a =? b2z b.

Fixpoint bytes_eqb (xs ys : list byte) : bool :=
  match xs, ys with
  | [], [] => true
  | x :: xs', y :: ys' => byte_eqb x y && bytes_eqb xs' ys'
  | _, _ => false
  end.

(** [var out [n]byte]: the zero array. *)
Definition zeros (n : nat) : list byte := repeat x00 n.

(** [copy(out[:], src)] into a fresh zero array of [n] bytes: the first
    [min n (len src)] bytes are overwritten, the rest stay zero. *)
Definition copy_into (n : nat) (src : list byte) : list byte :=
  firstn n src ++ zeros (n - length src).

(** [[]byte(s)] and [string(b)]. *)
Definition bytes_of_string (s : string) : list byte := list_byte_of_string s.
Definition string_of_bytes (l : list byte) : string := string_of_list_byte l.

(** Little-endian and big-endian encodings of a number on [n] bytes. *)
Fixpoint le_bytes (n : nat) (z : Z) : list byte :=
  match n with
  | O => []
  | S n' => z2b z :: le_bytes n' (Z.shiftr z 8)
  end.

Fixpoint le_value (l : list byte) : Z :=
  match l with
  | [] => 0
  | b :: rest => b2z b + 256 * le_value rest
  end.

Definition be_bytes (n : nat) (z : Z) : list byte := rev (le_bytes n z).
Definition be_value (l : list byte) : Z := le_value (rev l).

(** Cut a byte string into chunks of [n] bytes; the last chunk may be
    shorter.  [fuel] bounds the number of chunks. *)
Fixpoint chunks_fuel (fuel n : nat) (l : list byte) : list (list byte) :=
  match fuel with
  | O => []
  | S fuel' =>
      match l with
      | [] => []
      | _ => firstn n l :: chunks_fuel fuel' n (skipn n l)
      end
  end.

Definition chunks (n : nat) (l : list byte) : list (list byte) :=
  chunks_fuel (length l) n l.

(* ===================================================================== *)
(** * Errors and outcomes *)
(* ===================================================================== *)

(** A Go [error] value.  Each constructor stands for one message of the
    sources or of the packages they call. *)
Inductive error : Type :=
| ErrHexInvalidByte (c : ascii)
    (* encoding/hex: invalid byte: %#U *)
| ErrHexLength
    (* encoding/hex: odd length hex string *)
| ErrDecodeHex (cause : error)
    (* failed to decode hex string: %v *)
| ErrExpected32 (got : nat)
    (* expected 32 bytes, got %d *)
| ErrInvalidPublicKeyFormat (cause : error)
    (* invalid public key format: %v *)
| ErrPrivNil
    (* private key is nil *)
| ErrUnexpectedEOF
    (* unexpected EOF *)
| ErrEcdhPrivateKeySize
    (* crypto/ecdh: invalid private key size *)
| ErrEcdhPublicKey
    (* crypto/ecdh: invalid public key *)
| ErrEcdhLowOrder
    (* crypto/ecdh: bad X25519 remote ECDH input: low order point *)
| ErrGenKeyPair (cause : error)
    (* failed to generate X25519 key pair: %v *)
| ErrNewPublicKey (cause : error)
    (* failed to create public key from bytes: %v *)
| ErrSharedSecret (cause : error)
    (* failed to compute DH shared secret: %v *)
| ErrBadKeyLength
    (* chacha20poly1305: bad key length *)
| ErrOpen
    (* chacha20poly1305: message authentication failed *)
| ErrRedisNil
    (* redis: nil *)
| ErrRedisWrongType
    (* WRONGTYPE Operation against a key holding the wrong kind of value *)
| ErrJSON
    (* an error of encoding/json *)
| ErrReadFile
    (* an error of os.ReadFile other than a missing file *)
| ErrTransport
    (* an error of net/http: the request did not complete *).

(* ===================================================================== *)
(** * encoding/hex *)
(* ===================================================================== *)

Module hex.

Definition hextable : string := "0123456789abcdef".

(** [hextable[i]] *)
Definition hexdigit (i : Z) : ascii :=
  match String.get (Z.to_nat i) hextable with
  | Some c => c
  | None => "0"%char
  end.

(** [reverseHexTable[c]]: the value of a hexadecimal digit of either
    case, [0xff] for every other byte. *)
Definition reverseHexTable (c : ascii) : Z :=
  let n := Z.of_N (N_of_ascii c) in
  if (48 <=? n) && (n <=? 57) then n - 48
  else if (97 <=? n) && (n <=? 102) then n - 87
  else if (65 <=? n) && (n <=? 70) then n - 55
  else 255.

(** [hex.EncodeToString]: two lower-case digits per byte, high nibble
    first. *)
Fixpoint EncodeToString (src : list byte) : string :=
  match src with
  | [] => ""
  | v :: rest =>
      String (hexdigit (Z.shiftr (b2z v) 4))
        (String (hexdigit (Z.land (b2z v) 15)) (EncodeToString rest))
  end.

(** [hex.DecodeString]: the bytes decoded before the first problem,
    and the problem if there is one.  A bad digit is reported where it
    occurs; an odd length is reported after all pairs were decoded. *)
Fixpoint DecodeString (s : string) : list byte * option error :=
  match s with
  | "" => ([], None)
  | String p "" =>
      if 15 <? reverseHexTable p
      then ([], Some (ErrHexInvalidByte p))
      else ([], Some ErrHexLength)
  | String p (String q rest) =>
      let a := reverseHexTable p in
      let b := reverseHexTable q in
      if 15 <? a then ([], Some (ErrHexInvalidByte p))
      else if 15 <? b then ([], Some (ErrHexInvalidByte q))
      else
        let '(out, err) := DecodeString rest in
        (z2b (Z.lor (Z.shiftl a 4) b) :: out, err)
  end.

End hex.

(* ===================================================================== *)
(** * crypto/sha256 *)
(* ===================================================================== *)

(** The hash of FIPS 180-4, written after the generic block function of
    the Go package: 32-bit words are numbers reduced modulo [2^32]. *)
Module sha256.

Definition Size : nat := 32.
Definition chunk : nat := 64.

Definition u32 (z : Z) : Z := z mod 2 ^ 32.
Definition add32 (a b : Z) : Z := u32 (a + b).
Definition not32 (a : Z) : Z := Z.lxor a 0xffff_ffff.

(** [bits.RotateLeft32(x, -n)] *)
Definition rotr (n x : Z) : Z :=
  Z.lor (Z.shiftr x n) (u32 (Z.shiftl x (32 - n))).

Definition _K : list Z :=
  [ 0x428a_2f98; 0x7137_4491; 0xb5c0_fbcf; 0xe9b5_dba5;
    0x3956_c25b; 0x59f1_11f1; 0x923f_82a4; 0xab1c_5ed5;
    0xd807_aa98; 0x1283_5b01; 0x2431_85be; 0x550c_7dc3;
    0x72be_5d74; 0x80de_b1fe; 0x9bdc_06a7; 0xc19b_f174;
    0xe49b_69c1; 0xefbe_4786; 0x0fc1_9dc6; 0x240c_a1cc;
    0x2de9_2c6f; 0x4a74_84aa; 0x5cb0_a9dc; 0x76f9_88da;
    0x983e_5152; 0xa831_c66d; 0xb003_27c8; 0xbf59_7fc7;
    0xc6e0_0bf3; 0xd5a7_9147; 0x06ca_6351; 0x1429_2967;
    0x27b7_0a85; 0x2e1b_2138; 0x4d2c_6dfc; 0x5338_0d13;
    0x650a_7354; 0x766a_0abb; 0x81c2_c92e; 0x9272_2c85;
    0xa2bf_e8a1; 0xa81a_664b; 0xc24b_8b70; 0xc76c_51a3;
    0xd192_e819; 0xd699_0624; 0xf40e_3585; 0x106a_a070;
    0x19a4_c116; 0x1e37_6c08; 0x2748_774c; 0x34b0_bcb5;
    0x391c_0cb3; 0x4ed8_aa4a; 0x5b9c_ca4f; 0x682e_6ff3;
    0x748f_82ee; 0x78a5_636f; 0x84c8_7814; 0x8cc7_0208;
    0x90be_fffa; 0xa450_6ceb; 0xbef9_a3f7; 0xc671_78f2 ].

Definition init : list Z :=
  [ 0x6a09_e667; 0xbb67_ae85; 0x3c6e_f372; 0xa54f_f53a;
    0x510e_527f; 0x9b05_688c; 0x1f83_d9ab; 0x5be0_cd19 ].

(** The message schedule.  [ws] holds the words computed so far, the
    latest first, so that [w[i-k]] is its element [k-1]. *)
Definition next_w (ws : list Z) : Z :=
  let v1 := nth 1 ws 0 in
  let t1 := Z.lxor (Z.lxor (rotr 17 v1) (rotr 19 v1)) (Z.shiftr v1 10) in
  let v2 := nth 14 ws 0 in
  let t2 := Z.lxor (Z.lxor (rotr 7 v2) (rotr 18 v2)) (Z.shiftr v2 3) in
  add32 (add32 (add32 t1 (nth 6 ws 0)) t2) (nth 15 ws 0).

Fixpoint extend (n : nat) (ws : list Z) : list Z :=
  match n with
  | O => ws
  | S n' => extend n' (next_w ws :: ws)
  end.

Definition schedule (p : list byte) : list Z :=
  rev (extend 48 (rev (map be_value (chunks 4 p)))).

(** One round on the working variables [a .. h]. *)
Definition round (st : list Z) (kw : Z * Z) : list Z :=
  match st with
  | [a; b; c; d; e; f; g; h] =>
      let t1 :=
        add32 (add32 (add32 (add32 h
          (Z.lxor (Z.lxor (rotr 6 e) (rotr 11 e)) (rotr 25 e)))
          (Z.lxor (Z.land e f) (Z.land (not32 e) g)))
          (fst kw)) (snd kw) in
      let t2 :=
        add32 (Z.lxor (Z.lxor (rotr 2 a) (rotr 13 a)) (rotr 22 a))
              (Z.lxor (Z.lxor (Z.land a b) (Z.land a c)) (Z.land b c)) in
      [add32 t1 t2; a; b; c; add32 d t1; e; f; g]
  | _ => st
  end.

(** [blockGeneric] on one chunk of 64 bytes. *)
Definition block (h : list Z) (p : list byte) : list Z :=
  let st := fold_left round (combine _K (schedule p)) h in
  map (fun xy => add32 (fst xy) (snd xy)) (combine h st).

(** The padding of [checkSum]: a byte [0x80], zeros up to 56 modulo 64,
    and the length in bits on eight bytes, big-endian. *)
Definition padding (len : nat) : list byte :=
  let r := (len mod 64)%nat in
  let k := if (r <? 56)%nat then (55 - r)%nat else (119 - r)%nat in
  x80 :: zeros k ++ be_bytes 8 (8 * Z.of_nat len).

(** [sha256.Sum256] *)
Definition Sum256 (data : list byte) : list byte :=
  let h := fold_left block (chunks 64 (data ++ padding (length data))) init in
  concat (map (be_bytes 4) h).

(** The streaming interface: [New], [Write] and [Sum(nil)].  The state
    of a digest is the sequence of bytes written so far. *)
Definition digest : Type := list byte.
Definition New : digest := [].
Definition Write (d : digest) (p : list byte) : digest := (d ++ p)%list.
Definition Sum (d : digest) : list byte := Sum256 d.

End sha256.

(* ===================================================================== *)
(** * crypto/ecdh, the curve X25519 *)
(* ===================================================================== *)

(** The scalar multiplication of RFC 7748 as [crypto/ecdh] computes it: a
    Montgomery ladder over the field of integers modulo [2^255 - 19].  A
    field element is kept as its representative in [[0, p)]. *)
Module ecdh.

Definition p : Z := 2 ^ 255 - 19.

Definition fadd (a b : Z) : Z := (a + b) mod p.
Definition fsub (a b : Z) : Z := (a - b) mod p.
Definition fmul (a b : Z) : Z := (a * b) mod p.
Definition fsquare (a : Z) : Z := (a * a) mod p.

Fixpoint fpow (a : Z) (e : positive) : Z :=
  match e with
  | xH => a mod p
  | xO e' => fsquare (fpow a e')
  | xI e' => fmul a (fsquare (fpow a e'))
  end.

(** [field.Element.Invert]: [z^(p-2)]; the inverse of zero is zero. *)
Definition finvert (z : Z) : Z := fpow z (Z.to_pos (p - 2)).

(** [field.Element.SetBytes]: little-endian, the top bit is ignored and
    values from [p] to [2^255 - 1] are accepted. *)
Definition SetBytes (x : list byte) : Z := (le_value x mod 2 ^ 255) mod p.

(** [field.Element.Bytes]: the canonical 32 bytes, little-endian. *)
Definition Bytes (v : Z) : list byte := le_bytes 32 (v mod p).

(** [e[0] &= 248; e[31] &= 127; e[31] |= 64] on a copy of the scalar. *)
Definition clamp (scalar : list byte) : list byte :=
  let e := copy_into 32 scalar in
  let e := alter (fun b => z2b (Z.land (b2z b) 248)) 0%nat e in
  let e := alter (fun b => z2b (Z.land (b2z b) 127)) 31%nat e in
  alter (fun b => z2b (Z.lor (b2z b) 64)) 31%nat e.

(** [(e[pos/8] >> (pos&7)) & 1] *)
Definition scalar_bit (e : list byte) (pos : nat) : Z :=
  Z.land (Z.shiftr (b2z (nth (pos / 8) e x00)) (Z.land (Z.of_nat pos) 7)) 1.

(** The ladder state: [x2], [z2], [x3], [z3] and the pending [swap]. *)
Record ladder_state : Type :=
  { x2 : Z; z2 : Z; x3 : Z; z3 : Z; swap : Z }.

(** [x2.Swap(&x3, swap); z2.Swap(&z3, swap)] *)
Definition cswap (c : Z) (s : ladder_state) : ladder_state :=
  if c =? 1
  then {| x2 := x3 s; z2 := z3 s; x3 := x2 s; z3 := z2 s; swap := swap s |}
  else s.

(** The body of the loop at bit position [pos]. *)
Definition ladder_step (e : list byte) (x1 : Z) (pos : nat)
    (s : ladder_state) : ladder_state :=
  let b := scalar_bit e pos in
  let s := cswap (Z.lxor (swap s) b) s in
  let tmp0 := fsub (x3 s) (z3 s) in
  let tmp1 := fsub (x2 s) (z2 s) in
  let x2' := fadd (x2 s) (z2 s) in
  let z2' := fadd (x3 s) (z3 s) in
  let z3' := fmul tmp0 x2' in
  let z2' := fmul z2' tmp1 in
  let tmp0 := fsquare tmp1 in
  let tmp1 := fsquare x2' in
  let x3' := fadd z3' z2' in
  let z2' := fsub z3' z2' in
  let x2' := fmul tmp1 tmp0 in
  let tmp1 := fsub tmp1 tmp0 in
  let z2' := fsquare z2' in
  let z3' := fmul tmp1 121666 in
  let x3' := fsquare x3' in
  let tmp0 := fadd tmp0 z3' in
  let z3' := fmul x1 z2' in
  let z2' := fmul tmp1 tmp0 in
  {| x2 := x2'; z2 := z2'; x3 := x3'; z3 := z3'; swap := b |}.

(** [for pos := n-1; pos >= 0; pos--] *)
Fixpoint ladder (e : list byte) (x1 : Z) (n : nat)
    (s : ladder_state) : ladder_state :=
  match n with
  | O => s
  | S pos => ladder e x1 pos (ladder_step e x1 pos s)
  end.

(** [x25519ScalarMult(dst, scalar, point)], returning [dst]. *)
Definition x25519ScalarMult (scalar point : list byte) : list byte :=
  let e := clamp scalar in
  let x1 := SetBytes point in
  let s := ladder e x1 255
             {| x2 := 1; z2 := 0; x3 := x1; z3 := 1; swap := 0 |} in
  let s := cswap (swap s) s in
  Bytes (fmul (x2 s) (finvert (z2 s))).

Definition x25519PrivateKeySize : nat := 32.
Definition x25519PublicKeySize : nat := 32.
Definition x25519Basepoint : list byte := x09 :: zeros 31.

(** [*ecdh.PrivateKey] and [*ecdh.PublicKey] of the curve X25519: the
    key bytes.  A nil pointer is [None] at the places that test for it. *)
Record PrivateKey : Type := { privateKey : list byte }.
Record PublicKey : Type := { publicKey : list byte }.

(** [isZero]: the inclusive or of all bytes is zero. *)
Definition isZero (x : list byte) : bool :=
  fold_left (fun acc b => Z.lor acc (b2z b)) x 0 =? 0.

Definition NewPrivateKey (key : list byte)
    : option PrivateKey * option error :=
  if negb (length key =? x25519PrivateKeySize)%nat
  then (None, Some ErrEcdhPrivateKeySize)
  else (Some {| privateKey := key |}, None).

(** [GenerateKey(rand)]: [rand] is what [io.ReadFull] can get from the
    reader; fewer than 32 bytes make it fail. *)
Definition GenerateKey (rand : list byte)
    : option PrivateKey * option error :=
  if (length rand <? x25519PrivateKeySize)%nat
  then (None, Some ErrUnexpectedEOF)
  else NewPrivateKey (firstn x25519PrivateKeySize rand).

Definition NewPublicKey (key : list byte)
    : option PublicKey * option error :=
  if negb (length key =? x25519PublicKeySize)%nat
  then (None, Some ErrEcdhPublicKey)
  else (Some {| publicKey := key |}, None).

(** [priv.PublicKey()] *)
Definition PublicKeyOf (k : PrivateKey) : PublicKey :=
  {| publicKey := x25519ScalarMult (privateKey k) x25519Basepoint |}.

(** [priv.ECDH(remote)] *)
Definition ECDH (k : PrivateKey) (remote : PublicKey)
    : list byte * option error :=
  let out := x25519ScalarMult (privateKey k) (publicKey remote) in
  if isZero out then ([], Some ErrEcdhLowOrder) else (out, None).

End ecdh.

(* ===================================================================== *)
(** * internal/x3dh *)
(* ===================================================================== *)

Module x3dh.

Record Bundle : Type :=
  { IK : string; SPK : string; OTK : string; Ed25519 : string; Sig : string }.

Record InitialMessage : Type :=
  { AliceIK : string; AliceEKa : string; Nonce : string;
    Ciphertext : string; Sender : string }.

(** [GenKeyPair]: the private key, the 32 bytes of the public key and
    the error.  [rand] stands for [rand.Reader]. *)
Definition GenKeyPair (rand : list byte)
    : option ecdh.PrivateKey * list byte * option error :=
  match ecdh.GenerateKey rand with
  | (Some priv, None) =>
      (Some priv, copy_into 32 (ecdh.publicKey (ecdh.PublicKeyOf priv)), None)
  | (_, Some err) => (None, zeros 32, Some (ErrGenKeyPair err))
  | (None, None) => (None, zeros 32, None) (* GenerateKey gives a key or an error *)
  end.

Definition DH (priv : option ecdh.PrivateKey) (pub32 : list byte)
    : list byte * option error :=
  let out := zeros 32 in
  match priv with
  | None => (out, Some ErrPrivNil)
  | Some priv =>
      match ecdh.NewPublicKey pub32 with
      | (Some pub, None) =>
          match ecdh.ECDH priv pub with
          | (shared, None) => (copy_into 32 shared, None)
          | (_, Some err) => (out, Some (ErrSharedSecret err))
          end
      | (_, Some err) => (out, Some (ErrNewPublicKey err))
      | (None, None) => (out, None) (* NewPublicKey gives a key or an error *)
      end
  end.

Definition KDF (parts : list (list byte)) : list byte :=
  let h := fold_left sha256.Write parts sha256.New in
  copy_into 32 (sha256.Sum h).

Definition encode32 (pk : list byte) : string := hex.EncodeToString pk.

Definition decode32 (s : string) : list byte * option error :=
  let out := zeros 32 in
  match hex.DecodeString s with
  | (_, Some err) => (out, Some (ErrDecodeHex err))
  | (raw, None) =>
      if negb (length raw =? 32)%nat
      then (out, Some (ErrExpected32 (length raw)))
      else (copy_into 32 raw, None)
  end.

Definition ValidatePublicKey (hexKey : string) : option error :=
  match decode32 hexKey with
  | (_, Some err) => Some (ErrInvalidPublicKeyFormat err)
  | (_, None) => None
  end.

Definition GetKeyFingerprint (pk : list byte) : string :=
  hex.EncodeToString (firstn 4 pk).

End x3dh.

(* ===================================================================== *)
(** * golang.org/x/crypto/chacha20poly1305 *)
(* ===================================================================== *)

(** What a call can end in: it returns, or the process stops in
    [log.Fatalf(format, err)] (exit status 1), or it panics. *)
Inductive outcome (A : Type) : Type :=
| Return (a : A)
| Fatal (format : string) (err : option error)
| Panic (msg : string) (err : option error).

Arguments Return {A} a.
Arguments Fatal {A} format err.
Arguments Panic {A} msg err.

Fixpoint xor_bytes (src ks : list byte) : list byte :=
  match src, ks with
  | x :: src', k :: ks' => byte_xor x k :: xor_bytes src' ks'
  | _, _ => []
  end.

(** The stream cipher of RFC 8439, section 2.3 and 2.4. *)
Module chacha20.

Definition u32 (z : Z) : Z := z mod 2 ^ 32.

(** [bits.RotateLeft32(x, n)] *)
Definition rotl (x n : Z) : Z :=
  Z.lor (u32 (Z.shiftl x n)) (Z.shiftr x (32 - n)).

Definition get (st : list Z) (i : nat) : Z := nth i st 0.

Definition quarterRound (a b c d : nat) (st : list Z) : list Z :=
  let st := <[a := u32 (get st a + get st b)]> st in
  let st := <[d := rotl (Z.lxor (get st d) (get st a)) 16]> st in
  let st := <[c := u32 (get st c + get st d)]> st in
  let st := <[b := rotl (Z.lxor (get st b) (get st c)) 12]> st in
  let st := <[a := u32 (get st a + get st b)]> st in
  let st := <[d := rotl (Z.lxor (get st d) (get st a)) 8]> st in
  let st := <[c := u32 (get st c + get st d)]> st in
  <[b := rotl (Z.lxor (get st b) (get st c)) 7]> st.

Definition doubleRound (st : list Z) : list Z :=
  let st := quarterRound 0 4 8 12 st in
  let st := quarterRound 1 5 9 13 st in
  let st := quarterRound 2 6 10 14 st in
  let st := quarterRound 3 7 11 15 st in
  let st := quarterRound 0 5 10 15 st in
  let st := quarterRound 1 6 11 12 st in
  let st := quarterRound 2 7 8 13 st in
  quarterRound 3 4 9 14 st.

(** The four words of the text "expand 32-byte k". *)
Definition sigma : list Z :=
  [ 0x6170_7865; 0x3320_646e; 0x7962_2d32; 0x6b20_6574 ].

(** [n] little-endian 32-bit words from the front of [l]. *)
Fixpoint words (n : nat) (l : list byte) : list Z :=
  match n with
  | O => []
  | S n' => le_value (firstn 4 l) :: words n' (skipn 4 l)
  end.

(** The initial state: the constants, the key, the block counter and
    the nonce. *)
Definition initial (key : list byte) (counter : Z) (nonce : list byte)
    : list Z :=
  (sigma ++ words 8 (copy_into 32 key) ++ [u32 counter]
         ++ words 3 (copy_into 12 nonce))%list.

(** One block of 64 bytes of key stream: twenty rounds, the addition of
    the initial state, and the words in little-endian order. *)
Definition block (key : list byte) (counter : Z) (nonce : list byte)
    : list byte :=
  let st0 := initial key counter nonce in
  let st := Nat.iter 10 doubleRound st0 in
  concat (map (fun xy => le_bytes 4 (u32 (fst xy + snd xy))) (combine st st0)).

(** The key stream of [n] blocks from block number [counter] on. *)
Fixpoint keystream (key nonce : list byte) (counter : Z) (n : nat)
    : list byte :=
  match n with
  | O => []
  | S n' => (block key counter nonce
             ++ keystream key nonce (counter + 1) n')%list
  end.

(** [XORKeyStream(dst, src)] of a cipher whose counter is [counter]. *)
Definition XORKeyStream (key nonce : list byte) (counter : Z)
    (src : list byte) : list byte :=
  xor_bytes src (keystream key nonce counter ((length src + 63) / 64)).

End chacha20.

(** The one-time authenticator of RFC 8439, section 2.5. *)
Module poly1305.

Definition TagSize : nat := 16.
Definition P : Z := 2 ^ 130 - 5.

Definition clamp (r : Z) : Z :=
  Z.land r 0x0fff_fffc_0fff_fffc_0fff_fffc_0fff_ffff.

(** The accumulator after one chunk of at most 16 bytes. *)
Definition update (r : Z) (acc : Z) (c : list byte) : Z :=
  ((acc + le_value c + 2 ^ (8 * Z.of_nat (length c))) * r) mod P.

(** [poly1305.Sum]: the tag of [msg] under the 32-byte one-time key. *)
Definition Sum (key msg : list byte) : list byte :=
  let r := clamp (le_value (firstn 16 key)) in
  let s := le_value (firstn 16 (skipn 16 key)) in
  let acc := fold_left (update r) (chunks 16 msg) 0 in
  le_bytes 16 ((acc + s) mod 2 ^ 128).

(** [Verify]: the constant-time comparison of the computed tag with
    the received one. *)
Definition Verify (key msg tag : list byte) : bool :=
  bytes_eqb (Sum key msg) tag.

End poly1305.

Module chacha20poly1305.

Definition KeySize : nat := 32.
Definition NonceSize : nat := 12.
Definition Overhead : nat := 16.

(** An AEAD instance holds its key. *)
Record aead : Type := { key : list byte }.

(** [New(key)] *)
Definition New (k : list byte) : option aead * option error :=
  if negb (length k =? KeySize)%nat
  then (None, Some ErrBadKeyLength)
  else (Some {| key := k |}, None).

(** [writeWithPadding]: the data and zeros up to a multiple of 16. *)
Definition pad16 (data : list byte) : list byte :=
  (data ++ zeros ((16 - length data mod 16) mod 16))%list.

(** What the authenticator is run on: the padded additional data, the
    padded ciphertext, and both lengths on eight bytes, little-endian. *)
Definition macData (additionalData ciphertext : list byte) : list byte :=
  (pad16 additionalData ++ pad16 ciphertext
     ++ le_bytes 8 (Z.of_nat (length additionalData))
     ++ le_bytes 8 (Z.of_nat (length ciphertext)))%list.

(** The one-time key: the first 32 bytes of key stream block 0. *)
Definition polyKey (c : aead) (nonce : list byte) : list byte :=
  chacha20.XORKeyStream (key c) nonce 0 (zeros 32).

Definition sealGeneric (c : aead) (nonce plaintext additionalData : list byte)
    : list byte :=
  let ciphertext := chacha20.XORKeyStream (key c) nonce 1 plaintext in
  let tag := poly1305.Sum (polyKey c nonce) (macData additionalData ciphertext) in
  (ciphertext ++ tag)%list.

Definition openGeneric (c : aead) (nonce ciphertext additionalData : list byte)
    : list byte * option error :=
  let n := (length ciphertext - 16)%nat in
  let tag := skipn n ciphertext in
  let ciphertext := firstn n ciphertext in
  if negb (poly1305.Verify (polyKey c nonce)
             (macData additionalData ciphertext) tag)
  then ([], Some ErrOpen)
  else (chacha20.XORKeyStream (key c) nonce 1 ciphertext, None).

(** [aead.Seal(nil, nonce, plaintext, additionalData)] *)
Definition Seal (c : aead) (nonce plaintext additionalData : list byte)
    : outcome (list byte) :=
  if negb (length nonce =? NonceSize)%nat
  then Panic "chacha20poly1305: bad nonce length passed to Seal" None
  else if 2 ^ 38 - 64 <? Z.of_nat (length plaintext)
  then Panic "chacha20poly1305: plaintext too large" None
  else Return (sealGeneric c nonce plaintext additionalData).

(** [aead.Open(nil, nonce, ciphertext, additionalData)] *)
Definition Open (c : aead) (nonce ciphertext additionalData : list byte)
    : outcome (list byte * option error) :=
  if negb (length nonce =? NonceSize)%nat
  then Panic "chacha20poly1305: bad nonce length passed to Open" None
  else if (length ciphertext <? 16)%nat
  then Return ([], Some ErrOpen)
  else if 2 ^ 38 - 48 <? Z.of_nat (length ciphertext)
  then Panic "chacha20poly1305: ciphertext too large" None
  else Return (openGeneric c nonce ciphertext additionalData).

End chacha20poly1305.

(* ===================================================================== *)
(** * The Redis store and net/http, as the server uses them *)
(* ===================================================================== *)

Module redis.

(** A key holds a string or a list of strings. *)
Inductive value : Type :=
| VString (s : string)
| VList (l : list string).

(** [SET key val] *)
Definition Set_ (k v : string) (db : gmap string value) : gmap string value :=
  <[k := VString v]> db.

(** [GET key] *)
Definition Get (k : string) (db : gmap string value) : string * option error :=
  match db !! k with
  | None => ("", Some ErrRedisNil)
  | Some (VString s) => (s, None)
  | Some (VList _) => ("", Some ErrRedisWrongType)
  end.

(** [RPUSH key data]: append at the tail; a missing key is created. *)
Definition RPush (k data : string) (db : gmap string value)
    : gmap string value * option error :=
  match db !! k with
  | None => (<[k := VList [data]]> db, None)
  | Some (VList l) => (<[k := VList (l ++ [data])]> db, None)
  | Some (VString _) => (db, Some ErrRedisWrongType)
  end.

(** [LPOP key]: remove and return the head; the key goes away with its
    last element; a missing key answers [redis.Nil]. *)
Definition LPop (k : string) (db : gmap string value)
    : string * option error * gmap string value :=
  match db !! k with
  | None => ("", Some ErrRedisNil, db)
  | Some (VList []) => ("", Some ErrRedisNil, delete k db)
  | Some (VList [x]) => (x, None, delete k db)
  | Some (VList (x :: rest)) => (x, None, <[k := VList rest]> db)
  | Some (VString _) => ("", Some ErrRedisWrongType, db)
  end.

(** [LLEN key] *)
Definition LLen (k : string) (db : gmap string value) : Z * option error :=
  match db !! k with
  | None => (0, None)
  | Some (VList l) => (Z.of_nat (length l), None)
  | Some (VString _) => (0, Some ErrRedisWrongType)
  end.

(** [LRANGE key 0 -1] *)
Definition LRange (k : string) (db : gmap string value)
    : list string * option error :=
  match db !! k with
  | None => ([], None)
  | Some (VList l) => (l, None)
  | Some (VString _) => ([], Some ErrRedisWrongType)
  end.

End redis.

Module http.

Definition MethodGet : string := "GET".
Definition MethodPost : string := "POST".
Definition StatusOK : Z := 200.
Definition StatusBadRequest : Z := 400.
Definition StatusNotFound : Z := 404.
Definition StatusMethodNotAllowed : Z := 405.
Definition StatusInternalServerError : Z := 500.

Record Request : Type :=
  { Method : string; Path : string; Body : string }.

(** What a handler wrote: the text of [http.Error], or the value handed
    to [json.NewEncoder(w).Encode], or nothing. *)
Inductive body : Type :=
| Empty
| Text (msg : string) (err : option error)
| JSONBundle (b : x3dh.Bundle)
| JSONMessage (msg : x3dh.InitialMessage) (messages_left : Z)
| JSONHistory (messages : list x3dh.InitialMessage).

Record Response : Type := { StatusCode : Z; Payload : body }.

(** [http.Error(w, msg, code)] *)
Definition Error (msg : string) (err : option error) (code : Z) : Response :=
  {| StatusCode := code; Payload := Text msg err |}.

End http.

(** [strings.TrimPrefix] *)
Definition TrimPrefix (s pre : string) : string :=
  if String.prefix pre s
  then String.substring (String.length pre) (String.length s - String.length pre) s
  else s.

(* ===================================================================== *)
(** * cmd/server *)
(* ===================================================================== *)

Module Server.

Section Handlers.

(** [encoding/json] on the two record types of the protocol. *)
Variable MarshalBundle : x3dh.Bundle -> string.
Variable UnmarshalBundle : string -> option x3dh.Bundle.
Variable MarshalMessage : x3dh.InitialMessage -> string.
Variable UnmarshalMessage : string -> option x3dh.InitialMessage.

(** The counters of [ServerStats] that the handlers change. *)
Record ServerStats : Type :=
  { TotalBundlesRegistered : Z;
    TotalMessagesReceived : Z;
    TotalMessagesDelivered : Z }.

(** The process state: the Redis database behind [rdb] and the
    statistics behind [serverState]. *)
Record state : Type :=
  { rdb : gmap string redis.value; stats : ServerStats }.

Definition with_rdb (db : gmap string redis.value) (st : state) : state :=
  {| rdb := db; stats := stats st |}.

Definition RegisterBundle (userID : string) (bundle : x3dh.Bundle)
    (st : state) : option error * state :=
  let data := MarshalBundle bundle in
  let db := redis.Set_ ("bundle:" ++ userID) data (rdb st) in
  (None,
   {| rdb := db;
      stats :=
        {| TotalBundlesRegistered := TotalBundlesRegistered (stats st) + 1;
           TotalMessagesReceived := TotalMessagesReceived (stats st);
           TotalMessagesDelivered := TotalMessagesDelivered (stats st) |} |}).

Definition GetBundle (userID : string) (st : state)
    : option x3dh.Bundle * bool :=
  match redis.Get ("bundle:" ++ userID) (rdb st) with
  | (_, Some _) => (None, false)
  | (data, None) =>
      match UnmarshalBundle data with
      | None => (None, false)
      | Some bundle => (Some bundle, true)
      end
  end.

Definition StoreMessage (userID : string) (message : x3dh.InitialMessage)
    (st : state) : option error * state :=
  let data := MarshalMessage message in
  match redis.RPush ("messages:" ++ userID) data (rdb st) with
  | (db, Some err) => (Some err, with_rdb db st)
  | (db, None) =>
      (None,
       {| rdb := db;
          stats :=
            {| TotalBundlesRegistered := TotalBundlesRegistered (stats st);
               TotalMessagesReceived := TotalMessagesReceived (stats st) + 1;
               TotalMessagesDelivered := TotalMessagesDelivered (stats st) |} |})
  end.

(** [GetAndDeleteMessage]: the message, the count (always [0]) and
    whether there was one.  The warnings that it logs are left out. *)
Definition GetAndDeleteMessage (userID : string) (st : state)
    : option x3dh.InitialMessage * Z * bool * state :=
  match redis.LPop ("messages:" ++ userID) (rdb st) with
  | (_, Some _, db) => (None, 0, false, with_rdb db st)
  | (data, None, db) =>
      match UnmarshalMessage data with
      | None => (None, 0, false, with_rdb db st)
      | Some msg =>
          (Some msg, 0, true,
           {| rdb := db;
              stats :=
                {| TotalBundlesRegistered := TotalBundlesRegistered (stats st);
                   TotalMessagesReceived := TotalMessagesReceived (stats st);
                   TotalMessagesDelivered :=
                     TotalMessagesDelivered (stats st) + 1 |} |})
      end
  end.

Definition registerHandler (r : http.Request) (st : state)
    : http.Response * state :=
  if negb (String.eqb (http.Method r) http.MethodPost)
  then (http.Error "Invalid request method" None http.StatusMethodNotAllowed, st)
  else
    let user := TrimPrefix (http.Path r) "/register/" in
    if String.eqb user ""
    then (http.Error "User not specified" None http.StatusBadRequest, st)
    else
      match UnmarshalBundle (http.Body r) with
      | None =>
          (http.Error "Failed to decode bundle: " (Some ErrJSON)
             http.StatusBadRequest, st)
      | Some bundle =>
          match RegisterBundle user bundle st with
          | (Some err, st') =>
              (http.Error "Failed to register bundle: " (Some err)
                 http.StatusInternalServerError, st')
          | (None, st') =>
              ({| http.StatusCode := http.StatusOK; http.Payload := http.Empty |},
               st')
          end
      end.

Definition bundleHandler (r : http.Request) (st : state)
    : http.Response * state :=
  if negb (String.eqb (http.Method r) http.MethodGet)
  then (http.Error "Invalid request method" None http.StatusMethodNotAllowed, st)
  else
    let user := TrimPrefix (http.Path r) "/bundle/" in
    if String.eqb user ""
    then (http.Error "User not specified" None http.StatusBadRequest, st)
    else
      match GetBundle user st with
      | (Some bundle, true) =>
          ({| http.StatusCode := http.StatusOK;
              http.Payload := http.JSONBundle bundle |}, st)
      | _ =>
          (http.Error ("Bundle not found for user: " ++ user) None
             http.StatusNotFound, st)
      end.

Definition sendMessageHandler (r : http.Request) (st : state)
    : http.Response * state :=
  if negb (String.eqb (http.Method r) http.MethodPost)
  then (http.Error "Invalid request method" None http.StatusMethodNotAllowed, st)
  else
    let user := TrimPrefix (http.Path r) "/send/" in
    if String.eqb user ""
    then (http.Error "User not specified" None http.StatusBadRequest, st)
    else
      match UnmarshalMessage (http.Body r) with
      | None =>
          (http.Error "Failed to decode message: " (Some ErrJSON)
             http.StatusBadRequest, st)
      | Some msg =>
          let data := MarshalMessage msg in
          match redis.RPush ("messages:" ++ user) data (rdb st) with
          | (db, Some err) =>
              (http.Error "Failed to store message: " (Some err)
                 http.StatusInternalServerError, with_rdb db st)
          | (db, None) =>
              ({| http.StatusCode := http.StatusOK; http.Payload := http.Empty |},
               with_rdb db st)
          end
      end.

Definition getMessageHandler (r : http.Request) (st : state)
    : http.Response * state :=
  if negb (String.eqb (http.Method r) http.MethodGet)
  then (http.Error "Invalid request method" None http.StatusMethodNotAllowed, st)
  else
    let user := TrimPrefix (http.Path r) "/messages/" in
    if String.eqb user ""
    then (http.Error "User not specified" None http.StatusBadRequest, st)
    else
      match redis.LPop ("messages:" ++ user) (rdb st) with
      | (_, Some ErrRedisNil, db) =>
          (http.Error ("No new messages for user: " ++ user) None
             http.StatusNotFound, with_rdb db st)
      | (_, Some err, db) =>
          (http.Error "Failed to fetch message: " (Some err)
             http.StatusInternalServerError, with_rdb db st)
      | (data, None, db) =>
          let left := fst (redis.LLen ("messages:" ++ user) db) in
          match UnmarshalMessage data with
          | None =>
              (http.Error "Failed to decode message: " (Some ErrJSON)
                 http.StatusInternalServerError, with_rdb db st)
          | Some msg =>
              ({| http.StatusCode := http.StatusOK;
                  http.Payload := http.JSONMessage msg left |}, with_rdb db st)
          end
      end.

(** The loop of [historyHandler]: the items that decode, in order. *)
Fixpoint decodeAll (data : list string) : list x3dh.InitialMessage :=
  match data with
  | [] => []
  | item :: rest =>
      match UnmarshalMessage item with
      | Some msg => msg :: decodeAll rest
      | None => decodeAll rest
      end
  end.

Definition historyHandler (r : http.Request) (st : state)
    : http.Response * state :=
  if negb (String.eqb (http.Method r) http.MethodGet)
  then (http.Error "Invalid request method" None http.StatusMethodNotAllowed, st)
  else
    let user := TrimPrefix (http.Path r) "/history/" in
    if String.eqb user ""
    then (http.Error "User not specified" None http.StatusBadRequest, st)
    else
      match redis.LRange ("messages:" ++ user) (rdb st) with
      | (_, Some err) =>
          (http.Error "Failed to fetch messages: " (Some err)
             http.StatusInternalServerError, st)
      | (data, None) =>
          ({| http.StatusCode := http.StatusOK;
              http.Payload := http.JSONHistory (decodeAll data) |}, st)
      end.

End Handlers.

(** The statistics as [GetStats] returns them.  A [time.Time] holds a
    reading of the wall clock and a reading of the monotonic clock; a
    duration is a difference of two monotonic readings.  All of them
    count nanoseconds on 64 bits. *)
Section Monitoring.

Record Time : Type := { wall : Z; mono : Z }.

(** [stats.StartTime], set once by [NewServerState]. *)
Variable StartTime : Time.

Definition maxDuration : Z := 2 ^ 63 - 1.
Definition minDuration : Z := - 2 ^ 63.

(** The value of a 64-bit signed integer after wrap-around. *)
Definition int64 (z : Z) : Z := (z + 2 ^ 63) mod 2 ^ 64 - 2 ^ 63.

(** [time.Since(u)] when the clock reads [t]: the difference of the
    monotonic readings, saturated at the ends of the range. *)
Definition Since (t u : Time) : Z :=
  let d := int64 (mono t - mono u) in
  if (d <? 0) && (mono u <? mono t) then maxDuration
  else if (0 <? d) && (mono t <? mono u) then minDuration
  else d.

(** The fields of [ServerStats], under their JSON names.  The fields
    [Uptime], [ActiveBundles] and [PendingMessages] are kept nowhere
    else: [updateStats] sets them each time before they are read. *)
Record StatsJSON : Type :=
  { total_bundles_registered : Z;
    total_messages_received : Z;
    total_messages_delivered : Z;
    active_bundles : Z;
    pending_messages : Z;
    uptime : Z;
    start_time : Time }.

(** [GetStats]: [updateStats], then a copy of the statistics.  The state
    keeps for each counter the number of times it was raised; the 64-bit
    counter holds that number after wrap-around. *)
Definition GetStats (now : Time) (st : state) : StatsJSON :=
  {| total_bundles_registered := int64 (TotalBundlesRegistered (stats st));
     total_messages_received := int64 (TotalMessagesReceived (stats st));
     total_messages_delivered := int64 (TotalMessagesDelivered (stats st));
     active_bundles := 0;
     pending_messages := 0;
     uptime := Since now StartTime;
     start_time := StartTime |}.

(** What the two monitoring handlers write: the text of [http.Error],
    the statistics, or the health record, whose [uptime] is the duration
    that [Duration.String] prints. *)
Inductive report : Type :=
| Refused (r : http.Response)
| Stats (s : StatsJSON)
| Health (status : string) (timestamp : Time) (uptime : Z).

Definition statsHandler (r : http.Request) (now : Time) (st : state)
    : report :=
  if negb (String.eqb (http.Method r) http.MethodGet)
  then Refused (http.Error "Invalid request method" None
                  http.StatusMethodNotAllowed)
  else Stats (GetStats now st).

(** [healthHandler]: [now] is what [time.Now()] reads for the
    timestamp, [now'] what [GetStats] reads after it. *)
Definition healthHandler (r : http.Request) (now now' : Time) (st : state)
    : report :=
  if negb (String.eqb (http.Method r) http.MethodGet)
  then Refused (http.Error "Invalid request method" None
                  http.StatusMethodNotAllowed)
  else Health "healthy" now (uptime (GetStats now' st)).

End Monitoring.

End Server.

(* ===================================================================== *)
(** * The client programs *)
(* ===================================================================== *)

(** What a client does that can be observed from outside, in order. *)
Inductive event : Type :=
| Log (line : string) (arg : option string)
| CallGenKeyPair
| CallDH (pub32 : list byte)
| CallKDF (parts : list (list byte))
| CallSeal (nonce plaintext : list byte)
| CallOpen (nonce ciphertext : list byte)
| WriteFile (name : string) (keys : list (list byte))
| HttpGet (url : string)
| HttpPostBundle (url : string) (bundle : x3dh.Bundle)
| HttpPostMessage (url : string) (msg : x3dh.InitialMessage).

(** A client program: the events it performed and how it ended. *)
Definition prog (A : Type) : Type := list event * outcome A.

#[global]
Instance prog_ret : MRet prog := fun A a => ([], Return a).

#[global]
Instance prog_bind : MBind prog := fun A B k m =>
  match m with
  | (t, Return a) => let '(t', r) := k a in ((t ++ t')%list, r)
  | (t, Fatal f e) => (t, Fatal f e)
  | (t, Panic f e) => (t, Panic f e)
  end.

Definition emit (e : event) : prog unit := ([e], Return tt).
Definition fatal {A : Type} (format : string) (err : option error) : prog A :=
  ([], Fatal format err).
Definition panic {A : Type} (msg : string) (err : option error) : prog A :=
  ([], Panic msg err).
Definition lift {A : Type} (o : outcome A) : prog A := ([], o).

(** [if err != nil { log.Fatalf(format, err) }] *)
Definition check (format : string) (err : option error) : prog unit :=
  match err with
  | Some e => fatal format (Some e)
  | None => mret tt
  end.

Definition serverURL : string := "http://localhost:8080".

(** [crypto/ed25519].  The signature scheme itself is a parameter; the
    wrappers add what the package checks before it runs the scheme. *)
Module ed25519.

Definition PublicKeySize : nat := 32.
Definition PrivateKeySize : nat := 64.
Definition SeedSize : nat := 32.

Section Scheme.

Variable verify : list byte -> list byte -> list byte -> bool.

(** [ed25519.Verify]: panics on a public key of the wrong length. *)
Definition Verify (publicKey message sig : list byte) : outcome bool :=
  if negb (length publicKey =? PublicKeySize)%nat
  then Panic "ed25519: bad public key length: " None
  else Return (verify publicKey message sig).

End Scheme.

(** [priv.Public()]: the second half of the private key. *)
Definition Public (priv : list byte) : list byte := skipn 32 priv.

End ed25519.

(* ===================================================================== *)
(** * cmd/alice *)
(* ===================================================================== *)

Module Alice.

Definition encode32 (pk : list byte) : string := hex.EncodeToString pk.

(** [decode32]: panics on a string that is not hexadecimal, and copies
    what was decoded into the 32 bytes of the result. *)
Definition decode32 (s : string) : outcome (list byte) :=
  match hex.DecodeString s with
  | (_, Some err) => Panic "" (Some err)
  | (raw, None) => Return (copy_into 32 raw)
  end.

(** What [main] reads from outside after it has its identity key: the
    answer to the bundle request, the random bytes of the ephemeral key
    and of the nonce, the trimmed line of input, and the answer to the
    send request. *)
Record Env : Type :=
  { bundleResponse : http.Response * option error;
    ephemeralRand : list byte;
    input : string;
    nonceRand : list byte;
    sendResponse : http.Response * option error }.

Definition callDH (format : string) (priv : option ecdh.PrivateKey)
    (pub32 : list byte) : prog (list byte) :=
  emit (CallDH pub32);;
  let '(out, err) := x3dh.DH priv pub32 in
  check format err;;
  mret out.

(** Steps 5 and 6 of [main]: decode the public keys of the bundle, the
    four Diffie-Hellman values in their order, and the key derivation. *)
Definition deriveMaster (alicePriv privEKa : option ecdh.PrivateKey)
    (bobBundle : x3dh.Bundle) : prog (list byte) :=
  IKbPub32 ← lift (decode32 (x3dh.IK bobBundle));
  SPKbPub32 ← lift (decode32 (x3dh.SPK bobBundle));
  OTKbPub32 ← lift (decode32 (x3dh.OTK bobBundle));
  DH1 ← callDH "DH1 failed: %v" alicePriv SPKbPub32;
  DH2 ← callDH "DH2 failed: %v" privEKa IKbPub32;
  DH3 ← callDH "DH3 failed: %v" privEKa SPKbPub32;
  DH4 ← callDH "DH4 failed: %v" privEKa OTKbPub32;
  emit (CallKDF [DH1; DH2; DH3; DH4]);;
  let master := x3dh.KDF [DH1; DH2; DH3; DH4] in
  emit (Log "Session key derived " (Some (hex.EncodeToString master)));;
  mret master.

(** Step 7 of [main]: encrypt the message under the session key with a
    fresh nonce. *)
Definition encrypt (master nonceRand plaintext : list byte)
    : prog (list byte * list byte) :=
  match chacha20poly1305.New master with
  | (Some aead, _) =>
      let nonce := copy_into chacha20poly1305.NonceSize nonceRand in
      emit (CallSeal nonce plaintext);;
      ciphertext ← lift (chacha20poly1305.Seal aead nonce plaintext []);
      mret (nonce, ciphertext)
  | (None, _) => panic "invalid memory address or nil pointer dereference" None
  end.

Section Main.

Variable ed25519_verify : list byte -> list byte -> list byte -> bool.

(** [main] from step 2 on; [alicePriv] and [alicePub] are the identity
    key that step 1 loaded or generated. *)
Definition main (alicePriv : option ecdh.PrivateKey) (alicePub : list byte)
    (env : Env) : prog unit :=
  (* 2. Fetch Bob's bundle from the server *)
  emit (HttpGet (serverURL ++ "/bundle/bob"));;
  let '(resp, err) := bundleResponse env in
  check "Failed to fetch Bob's bundle: %v" err;;
  bobBundle ←
    (if negb (http.StatusCode resp =? http.StatusOK)
     then fatal "Server returned an error for bundle request: %s - %s" None
     else
       match http.Payload resp with
       | http.JSONBundle b => mret b
       | _ => fatal "Failed to decode Bob's bundle: %v" (Some ErrJSON)
       end);
  (* 3. Verify the signature on Bob's Signed Pre-key *)
  let edPub := fst (hex.DecodeString (x3dh.Ed25519 bobBundle)) in
  let sig := fst (hex.DecodeString (x3dh.Sig bobBundle)) in
  spkBytes ← lift (decode32 (x3dh.SPK bobBundle));
  ok ← lift (ed25519.Verify ed25519_verify edPub spkBytes sig);
  (if negb ok then fatal "SPK signature verification failed!" None
   else mret tt);;
  (* 4. Generate Alice's ephemeral keys *)
  emit CallGenKeyPair;;
  let '(privEKa, pubEKa, err) := x3dh.GenKeyPair (ephemeralRand env) in
  check "Failed to generate ephemeral key pair: %v" err;;
  (* 5., 6. The shared secret *)
  master ← deriveMaster alicePriv privEKa bobBundle;
  (* 7. Encrypt the message *)
  emit (Log "Enter a message to send to Bob: " None);;
  let plaintext := bytes_of_string (input env) in
  nc ← encrypt master (nonceRand env) plaintext;
  (* 8. Send the initial message to the server for Bob *)
  let initialMessage :=
    {| x3dh.AliceIK := encode32 alicePub;
       x3dh.AliceEKa := encode32 pubEKa;
       x3dh.Nonce := hex.EncodeToString (fst nc);
       x3dh.Ciphertext := hex.EncodeToString (snd nc);
       x3dh.Sender := "alice" |} in
  emit (HttpPostMessage (serverURL ++ "/send/bob") initialMessage);;
  let '(resp, err) := sendResponse env in
  check "Failed to send message to server: %v" err;;
  (if negb (http.StatusCode resp =? http.StatusOK)
   then fatal "Server returned an error during send: %s - %s" None
   else mret tt);;
  emit (Log "Encrypted message was sent" None).

End Main.

(** [AlicePrivateKeys]: the long-term private key, as stored. *)
Record AlicePrivateKeys : Type := { IKaPriv : list byte }.

(** What [os.ReadFile("alice_private_keys.json")] and the decoding of
    its content can give. *)
Inductive keyFile : Type :=
| NotExist
| ReadError
| Contents (keys : option AlicePrivateKeys).

(** What step 1 reads from outside: the key file, the random bytes of
    the identity key, and the result of [os.WriteFile]. *)
Record IdentityEnv : Type :=
  { idKeyFile : keyFile;
    identityRand : list byte;
    writeResult : option error }.

Definition privBytes (k : option ecdh.PrivateKey) : list byte :=
  match k with
  | Some k => ecdh.privateKey k
  | None => []
  end.

(** Step 1 of [main]: load the identity key, or generate and save it. *)
Definition identityKey (env : IdentityEnv)
    : prog (option ecdh.PrivateKey * list byte) :=
  match idKeyFile env with
  | NotExist =>
      emit (Log "Generating Alice's identity key..." None);;
      emit CallGenKeyPair;;
      let '(priv, pub, err) := x3dh.GenKeyPair (identityRand env) in
      check "Failed to generate Alice's key pair: %v" err;;
      emit (WriteFile "alice_private_keys.json" [privBytes priv]);;
      check "Failed to save Alice's private key: %v" (writeResult env);;
      emit (Log "Alice's identity key saved to %s" None);;
      mret (priv, pub)
  | ReadError => fatal "Failed to read %s: %v" (Some ErrReadFile)
  | Contents None =>
      fatal "Failed to unmarshal Alice's private key: %v" (Some ErrJSON)
  | Contents (Some loadedKeys) =>
      let '(priv, err) := ecdh.NewPrivateKey (IKaPriv loadedKeys) in
      check "Failed to load Alice's private key: %v" err;;
      let alicePub :=
        match priv with
        | Some k => copy_into 32 (ecdh.publicKey (ecdh.PublicKeyOf k))
        | None => zeros 32
        end in
      emit (Log "Loaded Alice's identity key." None);;
      mret (priv, alicePub)
  end.

Section Program.

Variable ed25519_verify : list byte -> list byte -> list byte -> bool.

(** [main], all of it. *)
Definition run (ienv : IdentityEnv) (env : Env) : prog unit :=
  identity ← identityKey ienv;
  main ed25519_verify (fst identity) (snd identity) env.

End Program.

End Alice.

(* ===================================================================== *)
(** * cmd/bob *)
(* ===================================================================== *)

Module Bob.

(** [BobPrivateKeys]: the long-term private keys, as stored. *)
Record BobPrivateKeys : Type :=
  { IKbPriv : list byte;
    SPKbPriv : list byte;
    EdPriv : list byte;
    OTKbPriv : list byte }.

Definition encode32 (pk : list byte) : string := hex.EncodeToString pk.

(** [decode32]: as in [cmd/alice]. *)
Definition decode32 (s : string) : outcome (list byte) :=
  match hex.DecodeString s with
  | (_, Some err) => Panic "" (Some err)
  | (raw, None) => Return (copy_into 32 raw)
  end.

(** What [os.ReadFile("bob_private_keys.json")] and the decoding of its
    content can give. *)
Inductive keyFile : Type :=
| NotExist
| ReadError
| Contents (keys : option BobPrivateKeys).

Definition privBytes (k : option ecdh.PrivateKey) : list byte :=
  match k with
  | Some k => ecdh.privateKey k
  | None => []
  end.

Section Register.

Variable ed25519_NewKeyFromSeed : list byte -> list byte.
Variable ed25519_Sign : list byte -> list byte -> list byte.

Record RegisterEnv : Type :=
  { regKeyFile : keyFile;
    ikRand : list byte;
    spkRand : list byte;
    otkRand : list byte;
    seedRand : list byte;
    registerResponse : http.Response * option error }.

Definition genKeyPair (format : string) (rand : list byte)
    : prog (option ecdh.PrivateKey * list byte) :=
  emit CallGenKeyPair;;
  let '(priv, pub, err) := x3dh.GenKeyPair rand in
  check format err;;
  mret (priv, pub).

Definition register (env : RegisterEnv) : prog unit :=
  match regKeyFile env with
  | NotExist =>
      emit (Log "Generating keys..." None);;
      ik ← genKeyPair "Failed to generate IKb key pair: %v" (ikRand env);
      spk ← genKeyPair "Failed to generate SPKb key pair: %v" (spkRand env);
      otk ← genKeyPair "Failed to generate OTKb key pair: %v" (otkRand env);
      (if (length (seedRand env) <? ed25519.SeedSize)%nat
       then fatal "Failed to generate Ed25519 seed: %v" (Some ErrUnexpectedEOF)
       else mret tt);;
      let seed := firstn ed25519.SeedSize (seedRand env) in
      let edPriv := ed25519_NewKeyFromSeed seed in
      let edPub := ed25519.Public edPriv in
      emit (Log "Saving keys..." None);;
      emit (WriteFile "bob_private_keys.json"
              [privBytes (fst ik); privBytes (fst spk); edPriv;
               privBytes (fst otk)]);;
      let sig := ed25519_Sign edPriv (snd spk) in
      let bundle :=
        {| x3dh.IK := encode32 (snd ik);
           x3dh.SPK := encode32 (snd spk);
           x3dh.OTK := encode32 (snd otk);
           x3dh.Ed25519 := hex.EncodeToString edPub;
           x3dh.Sig := hex.EncodeToString sig |} in
      emit (Log "Registering with server..." None);;
      emit (HttpPostBundle (serverURL ++ "/register/bob") bundle);;
      let '(resp, err) := registerResponse env in
      check "Failed to register with server: %v" err;;
      (if negb (http.StatusCode resp =? http.StatusOK)
       then fatal "Server returned an error during registration: %s - %s" None
       else mret tt);;
      emit (Log "Registration successful." None)
  | Contents _ =>
      fatal "Keys already exist. Registration should only happen once. To re-register, delete bob_private_keys.json" None
  | ReadError => panic "" (Some ErrReadFile)
  end.

End Register.

Definition callDH (format : string) (priv : option ecdh.PrivateKey)
    (pub32 : list byte) : prog (list byte) :=
  emit (CallDH pub32);;
  let '(out, err) := x3dh.DH priv pub32 in
  check format err;;
  mret out.

(** Step 4 of [checkMessages]: the session key from the stored private
    keys and the public keys that the message carries. *)
Definition deriveMaster (IKbPriv SPKbPriv OTKbPriv : option ecdh.PrivateKey)
    (msg : x3dh.InitialMessage) : prog (list byte) :=
  IKaPub32 ← lift (decode32 (x3dh.AliceIK msg));
  EKaPub32 ← lift (decode32 (x3dh.AliceEKa msg));
  DH1 ← callDH "DH1 failed: %v" SPKbPriv IKaPub32;
  DH2 ← callDH "DH2 failed: %v" IKbPriv EKaPub32;
  DH3 ← callDH "DH3 failed: %v" SPKbPriv EKaPub32;
  DH4 ← callDH "DH4 failed: %v" OTKbPriv EKaPub32;
  emit (CallKDF [DH1; DH2; DH3; DH4]);;
  let master := x3dh.KDF [DH1; DH2; DH3; DH4] in
  emit (Log "Session key derived " (Some (hex.EncodeToString master)));;
  mret master.

(** Step 5 of [checkMessages]: decrypt the message. *)
Definition decrypt (master : list byte) (msg : x3dh.InitialMessage)
    : prog (list byte) :=
  match chacha20poly1305.New master with
  | (Some aead, _) =>
      let nonce := fst (hex.DecodeString (x3dh.Nonce msg)) in
      let ciphertext := fst (hex.DecodeString (x3dh.Ciphertext msg)) in
      emit (CallOpen nonce ciphertext);;
      r ← lift (chacha20poly1305.Open aead nonce ciphertext []);
      check "DECRYPTION FAILED: %v" (snd r);;
      mret (fst r)
  | (None, _) => panic "invalid memory address or nil pointer dereference" None
  end.

Record CheckEnv : Type :=
  { chkKeyFile : keyFile;
    messagesResponse : http.Response * option error }.

Definition checkMessages (env : CheckEnv) : prog unit :=
  (* 1. Load Bob's private keys *)
  loadedKeys ←
    match chkKeyFile env with
    | NotExist =>
        fatal "Private keys not found. Please run with -action=register first." None
    | ReadError => panic "" (Some ErrReadFile)
    | Contents None => panic "" (Some ErrJSON)
    | Contents (Some keys) => mret keys
    end;
  let IKbPriv := fst (ecdh.NewPrivateKey (IKbPriv loadedKeys)) in
  let SPKbPriv := fst (ecdh.NewPrivateKey (SPKbPriv loadedKeys)) in
  let OTKbPriv := fst (ecdh.NewPrivateKey (OTKbPriv loadedKeys)) in
  (* 2. Poll the server for new messages *)
  emit (HttpGet (serverURL ++ "/messages/bob"));;
  let '(resp, err) := messagesResponse env in
  check "Failed to check for messages: %v" err;;
  if http.StatusCode resp =? http.StatusNotFound
  then emit (Log "No new messages found." None)
  else
    (if negb (http.StatusCode resp =? http.StatusOK)
     then fatal "Server returned an error: %s - %s" None
     else mret tt);;
    (* 3. Decode the message from Alice *)
    respData ←
      match http.Payload resp with
      | http.JSONMessage msg n => mret (msg, n)
      | _ => fatal "Failed to decode message from server: %v" (Some ErrJSON)
      end;
    let msg := fst respData in
    emit (Log "Received an initial message from Alice." None);;
    (* 4. Derive the session key *)
    master ← deriveMaster IKbPriv SPKbPriv OTKbPriv msg;
    (* 5. Decrypt the message *)
    plaintext ← decrypt master msg;
    emit (Log "Decrypted message from Alice:" (Some (string_of_bytes plaintext)));;
    if 0 <? snd respData
    then emit (Log "You still have %d messages left." None)
    else mret tt.

Definition loadEd25519PrivateKey (keyBytes : list byte) : outcome (list byte) :=
  if negb (length keyBytes =? ed25519.PrivateKeySize)%nat
  then Panic "invalid Ed25519 private key size" None
  else Return keyBytes.

Section Program.

Variable ed25519_NewKeyFromSeed : list byte -> list byte.
Variable ed25519_Sign : list byte -> list byte -> list byte.

(** [main]: [action] is the value of the flag, ["check"] when it is not
    given. *)
Definition main (action : string) (renv : RegisterEnv) (cenv : CheckEnv)
    : prog unit :=
  if String.eqb action "register"
  then register ed25519_NewKeyFromSeed ed25519_Sign renv
  else if String.eqb action "check"
  then checkMessages cenv
  else fatal "Invalid action: %s. Use 'register' or 'check'." None.

End Program.

End Bob.

(* ===================================================================== *)
(** * chat.go *)
(* ===================================================================== *)

Module Chat.

(** The message type of the chat client: the fields of
    [x3dh.InitialMessage] under the same JSON names, the sender first. *)
Record InitialMessage : Type :=
  { Sender : string; AliceIK : string; AliceEKa : string; Nonce : string;
    Ciphertext : string }.

(** The button of the login form: the text it shows, or nothing when it
    lets the chat start. *)
Definition startChat (username recipient : string) : option string :=
  if String.eqb username recipient
  then Some "Sender and recipient must be different!"
  else if negb ((String.eqb username "alice" && String.eqb recipient "bob")
                || (String.eqb username "bob" && String.eqb recipient "alice"))
  then Some "Only alice <-> bob chats are allowed!"
  else None.

(** [sendMessage]: the URL and the value whose JSON text is posted.  The
    answer and the error of [http.Post] are dropped. *)
Definition sendMessage (sender recipient msg : string)
    : string * InitialMessage :=
  ("http://localhost:8080/send/" ++ recipient,
   {| Sender := sender; AliceIK := ""; AliceEKa := ""; Nonce := "";
      Ciphertext := msg |}).

(** The errors of [checkMessages]: [io.EOF], or the error of the
    request or of the decoder. *)
Inductive err : Type :=
| io_EOF
| Err (e : error).

(** The URL that [checkMessages] asks for. *)
Definition messagesURL (username : string) : string :=
  "http://localhost:8080/messages/" ++ username.

(** [checkMessages], on the answer to its request: the sender and the
    text.  The only answer of [/messages/] with status 200 is a message
    with its count; any other payload is taken as one that the decoder
    refuses. *)
Definition checkMessages (response : http.Response * option error)
    : string * string * option err :=
  match response with
  | (_, Some e) => ("", "", Some (Err e))
  | (resp, None) =>
      if negb (http.StatusCode resp =? http.StatusOK)
      then ("", "", Some io_EOF)
      else
        match http.Payload resp with
        | http.JSONMessage msg _ =>
            (x3dh.Sender msg, x3dh.Ciphertext msg, None)
        | _ => ("", "", Some (Err ErrJSON))
        end
  end.

Definition newline : string := String (ascii_of_nat 10) "".

(** The input field, when Enter is pressed on [msg]: what is posted and
    the line written to the chat view; nothing on an empty text. *)
Definition onEnter (username recipient msg : string)
    : option (string * InitialMessage * string) :=
  if String.eqb msg "" then None
  else Some (sendMessage username recipient msg,
             username ++ ": " ++ msg ++ newline).

(** One round of the polling loop: the line written to the chat view,
    if there is one. *)
Definition poll (response : http.Response * option error) : option string :=
  match checkMessages response with
  | (sender, msg, None) =>
      if negb (String.eqb msg "") then Some (sender ++ ": " ++ msg ++ newline)
      else None
  | (_, _, Some _) => None
  end.

End Chat.

(* ===================================================================== *)
(** * Running the model *)
(* ===================================================================== *)

(** The ladder of [ecdh] once more, on the machine-word integers of
    Bignums.  It computes the same bytes ([x25519ScalarMult_fast] below)
    and is what the examples on concrete keys evaluate. *)
Module ecdh_fast.

Definition bp : bigZ := BigZ.of_Z ecdh.p.

Definition fadd (a b : bigZ) : bigZ := BigZ.modulo (BigZ.add a b) bp.
Definition fsub (a b : bigZ) : bigZ := BigZ.modulo (BigZ.sub a b) bp.
Definition fmul (a b : bigZ) : bigZ := BigZ.modulo (BigZ.mul a b) bp.
Definition fsquare (a : bigZ) : bigZ := BigZ.modulo (BigZ.mul a a) bp.

Fixpoint fpow (a : bigZ) (e : positive) : bigZ :=
  match e with
  | xH => BigZ.modulo a bp
  | xO e' => fsquare (fpow a e')
  | xI e' => fmul a (fsquare (fpow a e'))
  end.

Definition finvert (z : bigZ) : bigZ := fpow z (Z.to_pos (ecdh.p - 2)).

Record ladder_state : Type :=
  { x2 : bigZ; z2 : bigZ; x3 : bigZ; z3 : bigZ; swap : Z }.

Definition cswap (c : Z) (s : ladder_state) : ladder_state :=
  if c =? 1
  then {| x2 := x3 s; z2 := z3 s; x3 := x2 s; z3 := z2 s; swap := swap s |}
  else s.

Definition ladder_step (e : list byte) (x1 : bigZ) (pos : nat)
    (s : ladder_state) : ladder_state :=
  let b := ecdh.scalar_bit e pos in
  let s := cswap (Z.lxor (swap s) b) s in
  let tmp0 := fsub (x3 s) (z3 s) in
  let tmp1 := fsub (x2 s) (z2 s) in
  let x2' := fadd (x2 s) (z2 s) in
  let z2' := fadd (x3 s) (z3 s) in
  let z3' := fmul tmp0 x2' in
  let z2' := fmul z2' tmp1 in
  let tmp0 := fsquare tmp1 in
  let tmp1 := fsquare x2' in
  let x3' := fadd z3' z2' in
  let z2' := fsub z3' z2' in
  let x2' := fmul tmp1 tmp0 in
  let tmp1 := fsub tmp1 tmp0 in
  let z2' := fsquare z2' in
  let z3' := fmul tmp1 (BigZ.of_Z 121666) in
  let x3' := fsquare x3' in
  let tmp0 := fadd tmp0 z3' in
  let z3' := fmul x1 z2' in
  let z2' := fmul tmp1 tmp0 in
  {| x2 := x2'; z2 := z2'; x3 := x3'; z3 := z3'; swap := b |}.

Fixpoint ladder (e : list byte) (x1 : bigZ) (n : nat)
    (s : ladder_state) : ladder_state :=
  match n with
  | O => s
  | S pos => ladder e x1 pos (ladder_step e x1 pos s)
  end.

Definition x25519ScalarMult (scalar point : list byte) : list byte :=
  let e := ecdh.clamp scalar in
  let x1 := BigZ.of_Z (ecdh.SetBytes point) in
  let s := ladder e x1 255
             {| x2 := BigZ.of_Z 1; z2 := BigZ.of_Z 0;
                x3 := x1; z3 := BigZ.of_Z 1; swap := 0 |} in
  let s := cswap (swap s) s in
  ecdh.Bytes (BigZ.to_Z (fmul (x2 s) (finvert (z2 s)))).

(** The state of the fast ladder, read as a state of the model. *)
Definition to_model (s : ladder_state) : ecdh.ladder_state :=
  {| ecdh.x2 := BigZ.to_Z (x2 s); ecdh.z2 := BigZ.to_Z (z2 s);
     ecdh.x3 := BigZ.to_Z (x3 s); ecdh.z3 := BigZ.to_Z (z3 s);
     ecdh.swap := swap s |}.

End ecdh_fast.

(** [encoding/json] on messages whose strings need no escaping (hex
    digits and names): the layout that [json.Marshal] produces for
    [InitialMessage], and a decoder of exactly that layout. *)
Module plainjson.

Definition quote : string := String (ascii_of_nat 34) "".

Definition field (name value : string) : string :=
  quote ++ name ++ quote ++ ":" ++ quote ++ value ++ quote.

Definition MarshalMessage (m : x3dh.InitialMessage) : string :=
  "{" ++ field "alice_ik" (x3dh.AliceIK m)
      ++ "," ++ field "alice_eka" (x3dh.AliceEKa m)
      ++ "," ++ field "nonce" (x3dh.Nonce m)
      ++ "," ++ field "ciphertext" (x3dh.Ciphertext m)
      ++ "," ++ field "sender" (x3dh.Sender m) ++ "}".

(** [s] without the prefix [lit], if it has it. *)
Definition expect (lit s : string) : option string :=
  if String.prefix lit s
  then Some (String.substring (String.length lit)
               (String.length s - String.length lit) s)
  else None.

(** The characters up to the next quote, and what follows the quote.  A
    backslash is refused. *)
Fixpoint untilQuote (s : string) : option (string * string) :=
  match s with
  | "" => None
  | String c rest =>
      if Ascii.eqb c (ascii_of_nat 34) then Some ("", rest)
      else if Ascii.eqb c (ascii_of_nat 92) then None
      else
        match untilQuote rest with
        | Some (v, after) => Some (String c v, after)
        | None => None
        end
  end.

Definition readField (name s : string) : option (string * string) :=
  s ← expect (quote ++ name ++ quote ++ ":" ++ quote) s;
  untilQuote s.

Definition UnmarshalMessage (s : string) : option x3dh.InitialMessage :=
  s ← expect "{" s;
  '(ik, s) ← readField "alice_ik" s;
  s ← expect "," s;
  '(eka, s) ← readField "alice_eka" s;
  s ← expect "," s;
  '(nonce, s) ← readField "nonce" s;
  s ← expect "," s;
  '(ct, s) ← readField "ciphertext" s;
  s ← expect "," s;
  '(sender, s) ← readField "sender" s;
  if String.eqb s "}"
  then Some {| x3dh.AliceIK := ik; x3dh.AliceEKa := eka; x3dh.Nonce := nonce;
               x3dh.Ciphertext := ct; x3dh.Sender := sender |}
  else None.

(** The members of an object whose names and values are plain strings,
    [s] being what follows the opening brace. *)
Fixpoint members (fuel : nat) (s : string) : option (list (string * string)) :=
  match fuel with
  | O => None
  | S fuel' =>
      s ← expect quote s;
      '(name, s) ← untilQuote s;
      s ← expect (":" ++ quote) s;
      '(value, s) ← untilQuote s;
      if String.eqb s "}" then Some [(name, value)]
      else
        s ← expect "," s;
        rest ← members fuel' s;
        Some ((name, value) :: rest)
  end.

(** The value of the member [name]; the empty string if there is none,
    as for a field that the decoder leaves untouched. *)
Fixpoint member (name : string) (l : list (string * string)) : string :=
  match l with
  | [] => ""
  | (n, v) :: rest => if String.eqb n name then v else member name rest
  end.

Definition object (s : string) : option (list (string * string)) :=
  s ← expect "{" s;
  members (String.length s) s.

(** A decoder that takes the members in any order. *)
Definition DecodeMessage (s : string) : option x3dh.InitialMessage :=
  l ← object s;
  Some {| x3dh.AliceIK := member "alice_ik" l;
          x3dh.AliceEKa := member "alice_eka" l;
          x3dh.Nonce := member "nonce" l;
          x3dh.Ciphertext := member "ciphertext" l;
          x3dh.Sender := member "sender" l |}.

(** The layout of [json.Marshal] for the message type of [chat.go]. *)
Definition MarshalChatMessage (m : Chat.InitialMessage) : string :=
  "{" ++ field "sender" (Chat.Sender m)
      ++ "," ++ field "alice_ik" (Chat.AliceIK m)
      ++ "," ++ field "alice_eka" (Chat.AliceEKa m)
      ++ "," ++ field "nonce" (Chat.Nonce m)
      ++ "," ++ field "ciphertext" (Chat.Ciphertext m) ++ "}".

Definition MarshalBundle (b : x3dh.Bundle) : string :=
  "{" ++ field "ik" (x3dh.IK b)
      ++ "," ++ field "spk" (x3dh.SPK b)
      ++ "," ++ field "otk" (x3dh.OTK b)
      ++ "," ++ field "ed25519" (x3dh.Ed25519 b)
      ++ "," ++ field "sig" (x3dh.Sig b) ++ "}".

Definition UnmarshalBundle (s : string) : option x3dh.Bundle :=
  l ← object s;
  Some {| x3dh.IK := member "ik" l;
          x3dh.SPK := member "spk" l;
          x3dh.OTK := member "otk" l;
          x3dh.Ed25519 := member "ed25519" l;
          x3dh.Sig := member "sig" l |}.

End plainjson.

(* ===================================================================== *)
(** * What the statements are about *)
(* ===================================================================== *)

(** ** Test data *)

Definition unhex (s : string) : list byte := fst (hex.DecodeString s).

(** The arrays of [TestEncodeDecode32] and [TestKDF]. *)
Definition test_key : list byte :=
  [ x01; x02; x03; x04; x05; x06; x07; x08; x09; x0a; x0b; x0c; x0d; x0e;
    x0f; x10; x11; x12; x13; x14; x15; x16; x17; x18; x19; x1a; x1b; x1c;
    x1d; x1e; x1f; x20 ].
Definition test_key2 : list byte :=
  [ x21; x22; x23; x24; x25; x26; x27; x28; x29; x2a; x2b; x2c; x2d; x2e;
    x2f; x30; x31; x32; x33; x34; x35; x36; x37; x38; x39; x3a; x3b; x3c;
    x3d; x3e; x3f; x40 ].

(** The private keys of RFC 7748, sections 6.1 and 5.2. *)
Definition rfc_alice : list byte :=
  unhex "77076d0a7318a57d3c16c17251b26645df4c2f87ebc0992ab177fba51db92c2a".
Definition rfc_bob : list byte :=
  unhex "5dab087e624a8a4b79e17f8b83800ee66f3bb1292618b6fd1c2f8b27ff88e0eb".
Definition rfc_scalar1 : list byte :=
  unhex "a546e36bf0527c9d3b16154b82465edd62144c0ac1fc5a18506a2244ba449ac4".
Definition rfc_scalar2 : list byte :=
  unhex "4b66e9d4d1b4673c5ad22691957d6af5c11b6421e0ea01d42ca4169e7918ba0d".

Definition test_keys : list (list byte) :=
  [rfc_alice; rfc_bob; rfc_scalar1; rfc_scalar2; test_key].

(** ** Diffie-Hellman on X25519 *)

(** The two laws of Diffie-Hellman, on a set [R] of private keys: the
    two orders of multiplying the base point agree, and the result is
    not the point zero.  On all keys they follow from the group law of
    Curve25519, which is not developed here; the statements below take
    them as a hypothesis on [R]. *)
Definition x25519_agrees (R : list byte -> Prop) : Prop :=
  forall a b, R a -> R b ->
    ecdh.x25519ScalarMult a (ecdh.x25519ScalarMult b ecdh.x25519Basepoint) =
    ecdh.x25519ScalarMult b (ecdh.x25519ScalarMult a ecdh.x25519Basepoint) /\
    ecdh.isZero
      (ecdh.x25519ScalarMult a (ecdh.x25519ScalarMult b ecdh.x25519Basepoint))
    = false.

(** The laws, decided on a list of keys by running the ladder on every
    pair. *)
Definition agrees_on (keys : list (list byte)) : bool :=
  let pubs :=
    map (fun k => (k, ecdh_fast.x25519ScalarMult k ecdh.x25519Basepoint)) keys in
  forallb (fun a =>
    forallb (fun b =>
      let ab := ecdh_fast.x25519ScalarMult (fst a) (snd b) in
      let ba := ecdh_fast.x25519ScalarMult (fst b) (snd a) in
      bytes_eqb ab ba && negb (ecdh.isZero ab)) pubs) pubs.

(** A ladder state in which one coordinate of each of the two points is
    zero: what the ladder runs through on the point zero. *)
Definition degenerate (s : ecdh.ladder_state) : Prop :=
  (ecdh.x2 s = 0 \/ ecdh.z2 s = 0) /\ (ecdh.x3 s = 0 \/ ecdh.z3 s = 0).

(** The bundle of a responder whose keys are three of the test keys, and
    a message of an initiator that holds the other two. *)
Definition test_bundle : x3dh.Bundle :=
  {| x3dh.IK := Bob.encode32 (ecdh.x25519ScalarMult rfc_bob ecdh.x25519Basepoint);
     x3dh.SPK := Bob.encode32 (ecdh.x25519ScalarMult rfc_scalar1 ecdh.x25519Basepoint);
     x3dh.OTK := Bob.encode32 (ecdh.x25519ScalarMult rfc_scalar2 ecdh.x25519Basepoint);
     x3dh.Ed25519 := "";
     x3dh.Sig := "" |}.

Definition test_message : x3dh.InitialMessage :=
  {| x3dh.AliceIK := Alice.encode32 (ecdh.x25519ScalarMult rfc_alice ecdh.x25519Basepoint);
     x3dh.AliceEKa := Alice.encode32 (ecdh.x25519ScalarMult test_key ecdh.x25519Basepoint);
     x3dh.Nonce := "";
     x3dh.Ciphertext := "";
     x3dh.Sender := "alice" |}.

(** The same bundle with a one-time prekey of one byte, [09]. *)
Definition short_key_bundle : x3dh.Bundle :=
  {| x3dh.IK := x3dh.IK test_bundle;
     x3dh.SPK := x3dh.SPK test_bundle;
     x3dh.OTK := "09";
     x3dh.Ed25519 := "";
     x3dh.Sig := "" |}.

(** ** Key derivation *)

(** Two different messages with the same SHA-256 digest. *)
Definition sha256_collision (m m' : list byte) : Prop :=
  m <> m' /\ sha256.Sum256 m = sha256.Sum256 m'.

(** ** Authenticated encryption *)

Definition test_aead : chacha20poly1305.aead :=
  {| chacha20poly1305.key := test_key |}.
Definition test_nonce : list byte := zeros 12.
Definition test_plaintext : list byte :=
  bytes_of_string "hello bob, this is alice. hello!".

(** What [Seal] returns on the test data. *)
Definition test_sealed : list byte :=
  unhex "0befbb7a08e2cb56f9671624ffb7de1892afaf9835ad0f690782ee69acd4dcf089b7a297dcaa3bf1b02d75051c6841d0".

(** A ciphertext with another body and the same tag.  With [r] the
    multiplier of the one-time Poly1305 key and [c1], [c2] the two
    16-byte blocks of the sealed body, its blocks are [c1 + 1] and
    [c2 - r]: the polynomial [c1 * r^3 + c2 * r^2 + ...] of Poly1305
    takes the same value on both. *)
Definition test_forged : list byte :=
  unhex "0cefbb7a08e2cb56f9671624ffb7de18e14531897166f15f87b0bc5a446bc0ef89b7a297dcaa3bf1b02d75051c6841d0".
Definition test_forged_plaintext : list byte :=
  unhex "6f656c6c6f20626f622c2074686973201a99be7028a29d53ae123a5684d3733e".

(** A plaintext of [2^38] bytes. *)
Definition large_plaintext : list byte := repeat x00 (Z.to_nat (2 ^ 38)).

(** ** The mailbox *)

(** [POST /send/U] with the JSON text of a message, and
    [GET /messages/U]. *)
Definition sendRequest (U body : string) : http.Request :=
  {| http.Method := "POST"; http.Path := "/send/" ++ U; http.Body := body |}.
Definition messagesRequest (U : string) : http.Request :=
  {| http.Method := "GET"; http.Path := "/messages/" ++ U; http.Body := "" |}.

(** The answers: [200] with nothing, [200] with a message and the
    number of messages left, and [404] for an empty queue. *)
Definition okResponse : http.Response :=
  {| http.StatusCode := http.StatusOK; http.Payload := http.Empty |}.
Definition messageResponse (msg : x3dh.InitialMessage) (left : Z)
    : http.Response :=
  {| http.StatusCode := http.StatusOK;
     http.Payload := http.JSONMessage msg left |}.
Definition emptyResponse (U : string) : http.Response :=
  http.Error ("No new messages for user: " ++ U) None http.StatusNotFound.

(** What is stored in the queue of [U], head first. *)
Definition pending (U : string) (st : Server.state) : list string :=
  match Server.rdb st !! ("messages:" ++ U) with
  | Some (redis.VList l) => l
  | _ => []
  end.

(** The queue of [U] holds [l]: Redis keeps no key for an empty list. *)
Definition queue_is (U : string) (st : Server.state) (l : list string) : Prop :=
  Server.rdb st !! ("messages:" ++ U) =
  match l with [] => None | _ => Some (redis.VList l) end.

(** A server that has just started on an empty database, and an
    envelope for each nonce. *)
Definition freshState : Server.state :=
  {| Server.rdb := ∅;
     Server.stats :=
       {| Server.TotalBundlesRegistered := 0;
          Server.TotalMessagesReceived := 0;
          Server.TotalMessagesDelivered := 0 |} |}.

Definition envelope (n : string) : x3dh.InitialMessage :=
  {| x3dh.AliceIK := "0a"; x3dh.AliceEKa := "0b"; x3dh.Nonce := n;
     x3dh.Ciphertext := "00"; x3dh.Sender := "alice" |}.

(** ** The initiator *)

(** The steps that must not follow a failed verification: key
    generation, Diffie-Hellman, key derivation, encryption and the
    sending of a message. *)
Definition protocol_step (e : event) : bool :=
  match e with
  | CallGenKeyPair | CallDH _ | CallKDF _ | CallSeal _ _
  | HttpPostMessage _ _ => true
  | _ => false
  end.

(** The bundle request was answered with a bundle whose signature
    [ed25519.Verify] accepts. *)
Definition verified (verify : list byte -> list byte -> list byte -> bool)
    (env : Alice.Env) : Prop :=
  exists resp bundle spkBytes,
    Alice.bundleResponse env = (resp, None) /\
    http.StatusCode resp = http.StatusOK /\
    http.Payload resp = http.JSONBundle bundle /\
    Alice.decode32 (x3dh.SPK bundle) = Return spkBytes /\
    ed25519.Verify verify (fst (hex.DecodeString (x3dh.Ed25519 bundle)))
      spkBytes (fst (hex.DecodeString (x3dh.Sig bundle))) = Return true.

(** A signature scheme that accepts nothing, and an environment whose
    bundle carries a verify key and a signature of the right sizes. *)
Definition reject_all (publicKey message sig : list byte) : bool := false.

Definition unsigned_bundle : x3dh.Bundle :=
  {| x3dh.IK := x3dh.encode32 test_key;
     x3dh.SPK := x3dh.encode32 test_key2;
     x3dh.OTK := x3dh.encode32 test_key;
     x3dh.Ed25519 := x3dh.encode32 test_key;
     x3dh.Sig := hex.EncodeToString (test_key ++ test_key2) |}.

Definition unsigned_response : http.Response :=
  {| http.StatusCode := http.StatusOK;
     http.Payload := http.JSONBundle unsigned_bundle |}.

Definition unsigned_env : Alice.Env :=
  {| Alice.bundleResponse := (unsigned_response, None);
     Alice.ephemeralRand := test_key;
     Alice.input := "hello";
     Alice.nonceRand := zeros 12;
     Alice.sendResponse := (okResponse, None) |}.

(** ** Hexadecimal strings and public keys *)

(** A hexadecimal digit of either case, and a string of such digits. *)
Definition hex_digit (c : ascii) : bool :=
  existsb (Ascii.eqb c) (list_ascii_of_string "0123456789abcdefABCDEF").

Definition hex_digits (s : string) : bool :=
  forallb hex_digit (list_ascii_of_string s).

(** [strings.ToLower] on a string of ASCII characters. *)
Definition lower (c : ascii) : ascii :=
  let n := N_of_ascii c in
  if ((65 <=? n) && (n <=? 90))%N then ascii_of_N (n + 32) else c.

Fixpoint ToLower (s : string) : string :=
  match s with
  | "" => ""
  | String c rest => String (lower c) (ToLower rest)
  end.

(** The public key with the top bit of its last byte set. *)
Definition set_top_bit (pub32 : list byte) : list byte :=
  alter (fun b => z2b (Z.lor (b2z b) 128)) 31%nat pub32.

(** The encoding of [2^255 - 19], which [SetBytes] reads as zero. *)
Definition noncanonical_zero : list byte := le_bytes 32 ecdh.p.

(** ** The server as a whole *)

(** [POST /register/U] with the JSON text of a bundle, [GET /bundle/U],
    [GET /history/U] and [GET /stats]. *)
Definition registerRequest (U body : string) : http.Request :=
  {| http.Method := "POST"; http.Path := "/register/" ++ U; http.Body := body |}.
Definition bundleRequest (U : string) : http.Request :=
  {| http.Method := "GET"; http.Path := "/bundle/" ++ U; http.Body := "" |}.
Definition historyRequest (U : string) : http.Request :=
  {| http.Method := "GET"; http.Path := "/history/" ++ U; http.Body := "" |}.
Definition statsRequest : http.Request :=
  {| http.Method := "GET"; http.Path := "/stats"; http.Body := "" |}.

(** More answers: [200] with a bundle, [200] with the messages of a
    queue, [404] for a user without a bundle, [400] for a path without a
    user, and [500] for a message that does not decode. *)
Definition bundleResponse (b : x3dh.Bundle) : http.Response :=
  {| http.StatusCode := http.StatusOK; http.Payload := http.JSONBundle b |}.
Definition historyResponse (l : list x3dh.InitialMessage) : http.Response :=
  {| http.StatusCode := http.StatusOK; http.Payload := http.JSONHistory l |}.
Definition noBundleResponse (U : string) : http.Response :=
  http.Error ("Bundle not found for user: " ++ U) None http.StatusNotFound.
Definition noUserResponse : http.Response :=
  http.Error "User not specified" None http.StatusBadRequest.
Definition undecodableResponse : http.Response :=
  http.Error "Failed to decode message: " (Some ErrJSON)
    http.StatusInternalServerError.

(** The five handlers of the protocol, and a server that answers a
    list of requests, each one given to a handler. *)
Inductive endpoint : Type := Register | Bundle | Send | Messages | History.

Section Routes.

Variable MarshalBundle : x3dh.Bundle -> string.
Variable UnmarshalBundle : string -> option x3dh.Bundle.
Variable MarshalMessage : x3dh.InitialMessage -> string.
Variable UnmarshalMessage : string -> option x3dh.InitialMessage.

Definition handle (e : endpoint) (r : http.Request) (st : Server.state)
    : http.Response * Server.state :=
  match e with
  | Register => Server.registerHandler MarshalBundle UnmarshalBundle r st
  | Bundle => Server.bundleHandler UnmarshalBundle r st
  | Send => Server.sendMessageHandler MarshalMessage UnmarshalMessage r st
  | Messages => Server.getMessageHandler UnmarshalMessage r st
  | History => Server.historyHandler UnmarshalMessage r st
  end.

Fixpoint serve (reqs : list (endpoint * http.Request)) (st : Server.state)
    : list http.Response * Server.state :=
  match reqs with
  | [] => ([], st)
  | (e, r) :: rest =>
      let '(resp, st') := handle e r st in
      let '(resps, st'') := serve rest st' in
      (resp :: resps, st'')
  end.

End Routes.

(** The number of registrations that were answered with [200]. *)
Fixpoint registrations (reqs : list (endpoint * http.Request))
    (resps : list http.Response) : Z :=
  match reqs, resps with
  | (Register, _) :: reqs', resp :: resps' =>
      (if http.StatusCode resp =? http.StatusOK then 1 else 0)
      + registrations reqs' resps'
  | _ :: reqs', _ :: resps' => registrations reqs' resps'
  | _, _ => 0
  end.

(** The reference for the server: a directory with at most one bundle
    and with one queue of messages for each user. *)
Record directory : Type :=
  { bundle_of : string -> option x3dh.Bundle;
    queue_of : string -> list x3dh.InitialMessage }.

Definition nobody : directory :=
  {| bundle_of := fun _ => None; queue_of := fun _ => [] |}.

Definition set_bundle (U : string) (b : x3dh.Bundle) (d : directory)
    : directory :=
  {| bundle_of := fun V => if String.eqb V U then Some b else bundle_of d V;
     queue_of := queue_of d |}.

Definition set_queue (U : string) (q : list x3dh.InitialMessage)
    (d : directory) : directory :=
  {| bundle_of := bundle_of d;
     queue_of := fun V => if String.eqb V U then q else queue_of d V |}.

(** What the clients ask for. *)
Inductive call : Type :=
| Publish (U : string) (b : x3dh.Bundle)
| Fetch (U : string)
| Post (U : string) (m : x3dh.InitialMessage)
| Poll (U : string)
| Review (U : string).

Definition user_of (c : call) : string :=
  match c with
  | Publish U _ | Fetch U | Post U _ | Poll U | Review U => U
  end.

(** The answer of the directory to a call. *)
Definition answer (c : call) (d : directory) : http.Response * directory :=
  if String.eqb (user_of c) "" then (noUserResponse, d)
  else
    match c with
    | Publish U b => (okResponse, set_bundle U b d)
    | Fetch U =>
        match bundle_of d U with
        | Some b => (bundleResponse b, d)
        | None => (noBundleResponse U, d)
        end
    | Post U m => (okResponse, set_queue U (queue_of d U ++ [m]) d)
    | Poll U =>
        match queue_of d U with
        | [] => (emptyResponse U, d)
        | m :: rest =>
            (messageResponse m (Z.of_nat (length rest)), set_queue U rest d)
        end
    | Review U => (historyResponse (queue_of d U), d)
    end.

Fixpoint answers (calls : list call) (d : directory) : list http.Response :=
  match calls with
  | [] => []
  | c :: rest => fst (answer c d) :: answers rest (snd (answer c d))
  end.

Section Requests.

Variable MarshalBundle : x3dh.Bundle -> string.
Variable MarshalMessage : x3dh.InitialMessage -> string.

(** The request that makes a call. *)
Definition request_of (c : call) : endpoint * http.Request :=
  match c with
  | Publish U b => (Register, registerRequest U (MarshalBundle b))
  | Fetch U => (Bundle, bundleRequest U)
  | Post U m => (Send, sendRequest U (MarshalMessage m))
  | Poll U => (Messages, messagesRequest U)
  | Review U => (History, historyRequest U)
  end.

Variable UnmarshalBundle : string -> option x3dh.Bundle.
Variable UnmarshalMessage : string -> option x3dh.InitialMessage.

(** The bundle or the message of a call comes back from its JSON
    text. *)
Definition decodable (c : call) : Prop :=
  match c with
  | Publish _ b => UnmarshalBundle (MarshalBundle b) = Some b
  | Post _ m => UnmarshalMessage (MarshalMessage m) = Some m
  | _ => True
  end.

(** The database holds what the directory holds: under [bundle:U] the
    text of the bundle of [U], under [messages:U] the texts of the queue
    of [U], where Redis keeps no key for an empty list. *)
Definition represents (st : Server.state) (d : directory) : Prop :=
  forall U,
    Server.rdb st !! ("bundle:" ++ U) =
      option_map (fun b => redis.VString (MarshalBundle b)) (bundle_of d U) /\
    queue_is U st (map MarshalMessage (queue_of d U)).

(** What the directory holds comes back from its JSON text. *)
Definition readable (d : directory) : Prop :=
  (forall U b, bundle_of d U = Some b ->
     UnmarshalBundle (MarshalBundle b) = Some b) /\
  (forall U m, In m (queue_of d U) ->
     UnmarshalMessage (MarshalMessage m) = Some m).

End Requests.

(** A bundle and calls of two users, for the examples. *)
Definition sample_bundle : x3dh.Bundle :=
  {| x3dh.IK := "0a"; x3dh.SPK := "0b"; x3dh.OTK := "0c";
     x3dh.Ed25519 := "0d"; x3dh.Sig := "0e" |}.

Definition sample_calls : list call :=
  [ Fetch "bob"; Publish "bob" sample_bundle; Post "bob" (envelope "01");
    Post "alice" (envelope "02"); Fetch "bob"; Post "bob" (envelope "03");
    Review "bob"; Poll "bob"; Poll "alice"; Poll "alice"; Poll "bob";
    Poll ""; Review "bob" ].

(** A database in which the queue of [bob] starts with an item that is
    not the text of a message. *)
Definition damaged_state : Server.state :=
  {| Server.rdb :=
       {[ "messages:bob" :=
            redis.VList ["not a message";
                         plainjson.MarshalMessage (envelope "01")] ]};
     Server.stats := Server.stats freshState |}.

(** ** A session *)

(** The public key of a private key. *)
Definition public (priv : list byte) : list byte :=
  ecdh.x25519ScalarMult priv ecdh.x25519Basepoint.

Section Published.

Variable ed25519_NewKeyFromSeed : list byte -> list byte.
Variable ed25519_Sign : list byte -> list byte -> list byte.

(** The bundle that [register] makes from three private keys and the
    seed of the signing key. *)
Definition published_bundle (ikb spkb otkb seed : list byte) : x3dh.Bundle :=
  let edPriv := ed25519_NewKeyFromSeed seed in
  {| x3dh.IK := Bob.encode32 (public ikb);
     x3dh.SPK := Bob.encode32 (public spkb);
     x3dh.OTK := Bob.encode32 (public otkb);
     x3dh.Ed25519 := hex.EncodeToString (ed25519.Public edPriv);
     x3dh.Sig := hex.EncodeToString (ed25519_Sign edPriv (public spkb)) |}.

(** The private keys as [register] stores them. *)
Definition stored_keys (ikb spkb otkb seed : list byte) : Bob.BobPrivateKeys :=
  {| Bob.IKbPriv := ikb;
     Bob.SPKbPriv := spkb;
     Bob.EdPriv := ed25519_NewKeyFromSeed seed;
     Bob.OTKbPriv := otkb |}.

End Published.

(** The session key, as the initiator computes it from its private keys
    and the public keys of the responder. *)
Definition session_key (ika eka ikb spkb otkb : list byte) : list byte :=
  x3dh.KDF [ ecdh.x25519ScalarMult ika (public spkb);
             ecdh.x25519ScalarMult eka (public ikb);
             ecdh.x25519ScalarMult eka (public spkb);
             ecdh.x25519ScalarMult eka (public otkb) ].

(** The message that the initiator posts: its public keys, the nonce,
    and the text sealed under the session key. *)
Definition first_message (ika eka ikb spkb otkb nonceRand : list byte)
    (text : string) : x3dh.InitialMessage :=
  let nonce := copy_into 12 nonceRand in
  {| x3dh.AliceIK := Alice.encode32 (public ika);
     x3dh.AliceEKa := Alice.encode32 (public eka);
     x3dh.Nonce := hex.EncodeToString nonce;
     x3dh.Ciphertext :=
       hex.EncodeToString
         (chacha20poly1305.sealGeneric
            {| chacha20poly1305.key := session_key ika eka ikb spkb otkb |}
            nonce (bytes_of_string text) []);
     x3dh.Sender := "alice" |}.

(** A string that JSON writes as it is: no quote, no backslash. *)
Definition plain (s : string) : bool :=
  forallb (fun c => negb (Ascii.eqb c (ascii_of_nat 34))
                    && negb (Ascii.eqb c (ascii_of_nat 92)))
    (list_ascii_of_string s).

(** A stand-in for Ed25519 in the examples: the private key is the seed
    twice, and the signature of a message is the message twice. *)
Definition sample_NewKeyFromSeed (seed : list byte) : list byte := seed ++ seed.
Definition sample_Sign (priv message : list byte) : list byte :=
  message ++ message.
Definition sample_verify (publicKey message sig : list byte) : bool :=
  bytes_eqb sig (message ++ message).

(** What the server reads from the JSON text of a chat message: the
    fields under the same names. *)
Definition received (m : Chat.InitialMessage) : x3dh.InitialMessage :=
  {| x3dh.AliceIK := Chat.AliceIK m;
     x3dh.AliceEKa := Chat.AliceEKa m;
     x3dh.Nonce := Chat.Nonce m;
     x3dh.Ciphertext := Chat.Ciphertext m;
     x3dh.Sender := Chat.Sender m |}.

(** The keys, the seed, the nonce and the text of the examples. *)
Definition sample_seed : list byte := test_key2.
Definition sample_text : string := "hello bob".

Definition sample_keys : Bob.BobPrivateKeys :=
  {| Bob.IKbPriv := rfc_bob;
     Bob.SPKbPriv := rfc_scalar1;
     Bob.EdPriv := sample_NewKeyFromSeed sample_seed;
     Bob.OTKbPriv := rfc_scalar2 |}.

(** Keys whose signed prekey was cut to 31 bytes. *)
Definition short_keys : Bob.BobPrivateKeys :=
  {| Bob.IKbPriv := rfc_bob;
     Bob.SPKbPriv := firstn 31 rfc_scalar1;
     Bob.EdPriv := sample_NewKeyFromSeed sample_seed;
     Bob.OTKbPriv := rfc_scalar2 |}.

(** A message sealed under [test_key] with the nonce zero, as far as
    [decrypt] reads it. *)
Definition sealed_message : x3dh.InitialMessage :=
  {| x3dh.AliceIK := ""; x3dh.AliceEKa := "";
     x3dh.Nonce := hex.EncodeToString test_nonce;
     x3dh.Ciphertext := hex.EncodeToString test_sealed;
     x3dh.Sender := "alice" |}.

(** An event that is not the posting of a message. *)
Definition quiet (e : event) : Prop :=
  match e with
  | HttpPostMessage _ _ => False
  | _ => True
  end.

(* ===================================================================== *)
(** * Bytes: basic facts *)
(* ===================================================================== *)

Lemma b2z_range (b : byte) : 0 <= b2z b < 256.
Proof.
  unfold b2z. pose proof (Byte.to_N_bounded b) as H.
  lia.
Qed.

Lemma z2b_b2z (b : byte) : z2b (b2z b) = b.
Proof.
  unfold z2b, b2z.
  rewrite Z.mod_small by (pose proof (Byte.to_N_bounded b); lia).
  rewrite N2Z.id, Byte.of_to_N. reflexivity.
Qed.

Lemma b2z_z2b (z : Z) : b2z (z2b z) = z mod 256.
Proof.
  unfold z2b, b2z.
  assert (Hr : 0 <= z mod 256 < 256) by (apply Z.mod_pos_bound; lia).
  destruct (Byte.of_N (Z.to_N (z mod 256))) as [b|] eqn:E.
  - apply Byte.to_of_N in E. rewrite E. lia.
  - apply Byte.of_N_None_iff in E. lia.
Qed.

Lemma b2z_inj (a b : byte) : b2z a = b2z b -> a = b.
Proof.
  intros H. rewrite <- (z2b_b2z a), <- (z2b_b2z b), H. reflexivity.
Qed.

Lemma byte_eqb_eq (a b : byte) : byte_eqb a b = true <-> a = b.
Proof.
  unfold byte_eqb. rewrite Z.eqb_eq. split.
  - apply b2z_inj.
  - intros ->. reflexivity.
Qed.

Lemma bytes_eqb_eq (xs ys : list byte) : bytes_eqb xs ys = true <-> xs = ys.
Proof.
  revert ys. induction xs as [|x xs IH]; intros [|y ys]; simpl;
    try (split; [discriminate | congruence]).
  - split; reflexivity.
  - rewrite andb_true_iff, byte_eqb_eq, IH. split.
    + intros [-> ->]. reflexivity.
    + intros H. injection H as -> ->. split; reflexivity.
Qed.

Lemma length_zeros (n : nat) : length (zeros n) = n.
Proof. apply repeat_length. Qed.

Lemma length_copy_into (n : nat) (src : list byte) :
  length (copy_into n src) = n.
Proof.
  unfold copy_into. rewrite length_app, length_firstn, length_zeros. lia.
Qed.

Lemma copy_into_exact (n : nat) (src : list byte) :
  length src = n -> copy_into n src = src.
Proof.
  intros H. unfold copy_into.
  rewrite firstn_all2 by lia.
  replace (n - length src)%nat with 0%nat by lia.
  apply app_nil_r.
Qed.

Lemma length_le_bytes (n : nat) (z : Z) : length (le_bytes n z) = n.
Proof.
  revert z. induction n as [|n IH]; intros z; simpl; [reflexivity|].
  rewrite IH. reflexivity.
Qed.

Lemma length_be_bytes (n : nat) (z : Z) : length (be_bytes n z) = n.
Proof. unfold be_bytes. rewrite length_rev. apply length_le_bytes. Qed.

(* ===================================================================== *)
(** * encoding/hex: decoding undoes encoding *)
(* ===================================================================== *)

(** The two digits of a byte are digits, and give the byte back. *)
Lemma hex_digits_of_byte (v : byte) :
  let hi := hex.reverseHexTable (hex.hexdigit (Z.shiftr (b2z v) 4)) in
  let lo := hex.reverseHexTable (hex.hexdigit (Z.land (b2z v) 15)) in
  (15 <? hi) = false /\ (15 <? lo) = false /\
  z2b (Z.lor (Z.shiftl hi 4) lo) = v.
Proof. destruct v; vm_compute; repeat split. Qed.

Lemma DecodeString_EncodeToString (x : list byte) :
  hex.DecodeString (hex.EncodeToString x) = (x, None).
Proof.
  induction x as [|v x IH]; [reflexivity|].
  destruct (hex_digits_of_byte v) as (Hhi & Hlo & Hv).
  cbn [hex.EncodeToString hex.DecodeString].
  rewrite Hhi, Hlo, IH, Hv. reflexivity.
Qed.

Lemma length_EncodeToString (x : list byte) :
  String.length (hex.EncodeToString x) = (2 * length x)%nat.
Proof.
  induction x as [|v x IH]; [reflexivity|].
  cbn [hex.EncodeToString String.length length]. rewrite IH. lia.
Qed.

(** C10.  For every 32-byte value [x], [encode32 x] is a string of 64
    characters, and [decode32] of it succeeds and returns [x]. *)
Theorem decode32_encode32 (x : list byte) :
  length x = 32%nat ->
  String.length (x3dh.encode32 x) = 64%nat /\
  x3dh.decode32 (x3dh.encode32 x) = (x, None).
Proof.
  intros Hlen. unfold x3dh.encode32, x3dh.decode32. split.
  - rewrite length_EncodeToString, Hlen. reflexivity.
  - rewrite DecodeString_EncodeToString, Hlen. cbn [Nat.eqb negb].
    rewrite copy_into_exact by exact Hlen. reflexivity.
Qed.

Lemma decode32_encode32_witness :
  String.length (x3dh.encode32 test_key) = 64%nat /\
  x3dh.decode32 (x3dh.encode32 test_key) = (test_key, None).
Proof. apply (decode32_encode32 test_key). reflexivity. Defined.

(* ===================================================================== *)
(** * crypto/ecdh: the ladder *)
(* ===================================================================== *)

Lemma length_Bytes (v : Z) : length (ecdh.Bytes v) = 32%nat.
Proof. apply length_le_bytes. Qed.

Lemma length_x25519ScalarMult (scalar point : list byte) :
  length (ecdh.x25519ScalarMult scalar point) = 32%nat.
Proof. apply length_Bytes. Qed.

(** ** The fast ladder computes what the model computes *)

Lemma to_Z_bp : BigZ.to_Z ecdh_fast.bp = ecdh.p.
Proof. apply BigZ.spec_of_Z. Qed.

Lemma to_Z_fadd (a b : bigZ) :
  BigZ.to_Z (ecdh_fast.fadd a b) = ecdh.fadd (BigZ.to_Z a) (BigZ.to_Z b).
Proof.
  unfold ecdh_fast.fadd, ecdh.fadd.
  rewrite BigZ.spec_modulo, BigZ.spec_add, to_Z_bp. reflexivity.
Qed.

Lemma to_Z_fsub (a b : bigZ) :
  BigZ.to_Z (ecdh_fast.fsub a b) = ecdh.fsub (BigZ.to_Z a) (BigZ.to_Z b).
Proof.
  unfold ecdh_fast.fsub, ecdh.fsub.
  rewrite BigZ.spec_modulo, BigZ.spec_sub, to_Z_bp. reflexivity.
Qed.

Lemma to_Z_fmul (a b : bigZ) :
  BigZ.to_Z (ecdh_fast.fmul a b) = ecdh.fmul (BigZ.to_Z a) (BigZ.to_Z b).
Proof.
  unfold ecdh_fast.fmul, ecdh.fmul.
  rewrite BigZ.spec_modulo, BigZ.spec_mul, to_Z_bp. reflexivity.
Qed.

Lemma to_Z_fsquare (a : bigZ) :
  BigZ.to_Z (ecdh_fast.fsquare a) = ecdh.fsquare (BigZ.to_Z a).
Proof.
  unfold ecdh_fast.fsquare, ecdh.fsquare.
  rewrite BigZ.spec_modulo, BigZ.spec_mul, to_Z_bp. reflexivity.
Qed.

Lemma to_Z_fpow (a : bigZ) (e : positive) :
  BigZ.to_Z (ecdh_fast.fpow a e) = ecdh.fpow (BigZ.to_Z a) e.
Proof.
  induction e as [e IH|e IH|]; cbn [ecdh_fast.fpow ecdh.fpow].
  - rewrite to_Z_fmul, to_Z_fsquare, IH. reflexivity.
  - rewrite to_Z_fsquare, IH. reflexivity.
  - rewrite BigZ.spec_modulo, to_Z_bp. reflexivity.
Qed.

Lemma to_Z_finvert (z : bigZ) :
  BigZ.to_Z (ecdh_fast.finvert z) = ecdh.finvert (BigZ.to_Z z).
Proof. apply to_Z_fpow. Qed.

Lemma to_model_cswap (c : Z) (s : ecdh_fast.ladder_state) :
  ecdh_fast.to_model (ecdh_fast.cswap c s) =
  ecdh.cswap c (ecdh_fast.to_model s).
Proof.
  unfold ecdh_fast.cswap, ecdh.cswap. destruct (c =? 1); reflexivity.
Qed.

Lemma to_model_ladder_step (e : list byte) (x1 : bigZ) (pos : nat)
    (s : ecdh_fast.ladder_state) :
  ecdh_fast.to_model (ecdh_fast.ladder_step e x1 pos s) =
  ecdh.ladder_step e (BigZ.to_Z x1) pos (ecdh_fast.to_model s).
Proof.
  unfold ecdh_fast.ladder_step, ecdh.ladder_step.
  cbv zeta.
  rewrite <- to_model_cswap.
  set (s' := ecdh_fast.cswap _ s).
  unfold ecdh_fast.to_model at 1.
  cbn [ecdh_fast.x2 ecdh_fast.z2 ecdh_fast.x3 ecdh_fast.z3 ecdh_fast.swap].
  repeat rewrite ?to_Z_fmul, ?to_Z_fsquare, ?to_Z_fadd, ?to_Z_fsub,
    ?BigZ.spec_of_Z.
  destruct s'; reflexivity.
Qed.

Lemma to_model_ladder (e : list byte) (x1 : bigZ) (n : nat)
    (s : ecdh_fast.ladder_state) :
  ecdh_fast.to_model (ecdh_fast.ladder e x1 n s) =
  ecdh.ladder e (BigZ.to_Z x1) n (ecdh_fast.to_model s).
Proof.
  revert s. induction n as [|n IH]; intros s; [reflexivity|].
  cbn [ecdh_fast.ladder ecdh.ladder].
  rewrite IH, to_model_ladder_step. reflexivity.
Qed.

Lemma x25519ScalarMult_fast (scalar point : list byte) :
  ecdh.x25519ScalarMult scalar point =
  ecdh_fast.x25519ScalarMult scalar point.
Proof.
  unfold ecdh.x25519ScalarMult, ecdh_fast.x25519ScalarMult. cbv zeta.
  set (e0 := ecdh.clamp scalar).
  set (x1 := ecdh.SetBytes point).
  set (s0 := ecdh_fast.Build_ladder_state _ _ _ _ _).
  set (sf := ecdh_fast.ladder e0 _ _ s0).
  assert (Hs : ecdh.ladder e0 x1 255
                 {| ecdh.x2 := 1; ecdh.z2 := 0; ecdh.x3 := x1;
                    ecdh.z3 := 1; ecdh.swap := 0 |}
               = ecdh_fast.to_model sf).
  { unfold sf. rewrite to_model_ladder, BigZ.spec_of_Z.
    unfold s0, ecdh_fast.to_model.
    cbn [ecdh_fast.x2 ecdh_fast.z2 ecdh_fast.x3 ecdh_fast.z3 ecdh_fast.swap].
    rewrite !BigZ.spec_of_Z. reflexivity. }
  clearbody sf. rewrite Hs.
  replace (ecdh.swap (ecdh_fast.to_model sf)) with (ecdh_fast.swap sf)
    by reflexivity.
  rewrite <- to_model_cswap.
  rewrite to_Z_fmul, to_Z_finvert. reflexivity.
Qed.

(** ** The point zero *)

Lemma fmul_0_l (a : Z) : ecdh.fmul 0 a = 0.
Proof. unfold ecdh.fmul. rewrite Z.mul_0_l. reflexivity. Qed.

Lemma fmul_0_r (a : Z) : ecdh.fmul a 0 = 0.
Proof. unfold ecdh.fmul. rewrite Z.mul_0_r. reflexivity. Qed.

Lemma fpow_0 (e : positive) : ecdh.fpow 0 e = 0.
Proof.
  induction e as [e IH|e IH|]; cbn [ecdh.fpow].
  - apply fmul_0_l.
  - rewrite IH. reflexivity.
  - reflexivity.
Qed.

(** The difference of the squares of sum and difference vanishes when
    one of the two coordinates is zero. *)
Lemma squares_cancel (x z : Z) :
  x = 0 \/ z = 0 ->
  ecdh.fsub (ecdh.fsquare (ecdh.fadd x z)) (ecdh.fsquare (ecdh.fsub x z)) = 0.
Proof.
  intros H. unfold ecdh.fsub, ecdh.fsquare, ecdh.fadd.
  rewrite <- !Zmult_mod, <- Zminus_mod.
  replace ((x + z) * (x + z) - (x - z) * (x - z)) with (4 * (x * z)) by ring.
  destruct H as [-> | ->]; rewrite ?Z.mul_0_l, ?Z.mul_0_r; reflexivity.
Qed.

Lemma degenerate_cswap (c : Z) (s : ecdh.ladder_state) :
  degenerate s -> degenerate (ecdh.cswap c s).
Proof.
  unfold degenerate, ecdh.cswap. intros [H2 H3].
  destruct (c =? 1); cbn; auto.
Qed.

Lemma ladder_step_zero (e : list byte) (pos : nat) (s : ecdh.ladder_state) :
  degenerate s ->
  ecdh.z2 (ecdh.ladder_step e 0 pos s) = 0 /\
  ecdh.z3 (ecdh.ladder_step e 0 pos s) = 0.
Proof.
  intros Hs. unfold ecdh.ladder_step. cbv zeta.
  set (s' := ecdh.cswap _ s).
  assert (Hs' : degenerate s') by (apply degenerate_cswap; exact Hs).
  destruct Hs' as [H2 _].
  cbn [ecdh.z2 ecdh.z3].
  rewrite (squares_cancel _ _ H2), !fmul_0_l. split; reflexivity.
Qed.

Lemma ladder_zero (e : list byte) (n : nat) (s : ecdh.ladder_state) :
  degenerate s -> (0 < n)%nat ->
  ecdh.z2 (ecdh.ladder e 0 n s) = 0 /\ ecdh.z3 (ecdh.ladder e 0 n s) = 0.
Proof.
  revert s. induction n as [|n IH]; intros s Hs Hn; [lia|].
  cbn [ecdh.ladder].
  destruct (ladder_step_zero e n s Hs) as [Hz2 Hz3].
  destruct n as [|n'].
  - cbn [ecdh.ladder]. split; assumption.
  - apply IH; [|lia]. split; right; assumption.
Qed.

Lemma SetBytes_zeros : ecdh.SetBytes (zeros 32) = 0.
Proof. reflexivity. Qed.

Lemma Bytes_0 : ecdh.Bytes 0 = zeros 32.
Proof. reflexivity. Qed.

(** The scalar multiple of the point zero is zero, whatever the
    scalar. *)
Lemma x25519ScalarMult_zero (scalar : list byte) :
  ecdh.x25519ScalarMult scalar (zeros 32) = zeros 32.
Proof.
  unfold ecdh.x25519ScalarMult. cbv zeta. rewrite SetBytes_zeros.
  set (s0 := ecdh.Build_ladder_state _ _ _ _ _).
  assert (H0 : degenerate s0) by (split; [right|left]; reflexivity).
  destruct (ladder_zero (ecdh.clamp scalar) 255 s0 H0 ltac:(lia)) as [Hz2 Hz3].
  set (sf := ecdh.ladder _ _ _ s0) in *. clearbody sf.
  assert (Hz : ecdh.z2 (ecdh.cswap (ecdh.swap sf) sf) = 0).
  { unfold ecdh.cswap. destruct (ecdh.swap sf =? 1); assumption. }
  rewrite Hz. unfold ecdh.finvert. rewrite fpow_0, fmul_0_r.
  apply Bytes_0.
Qed.

(* ===================================================================== *)
(** * internal/x3dh: GenKeyPair and DH *)
(* ===================================================================== *)

Lemma GenKeyPair_Some (rand : list byte) priv pub :
  x3dh.GenKeyPair rand = (Some priv, pub, None) ->
  (32 <= length rand)%nat /\
  ecdh.privateKey priv = firstn 32 rand /\
  pub = ecdh.x25519ScalarMult (ecdh.privateKey priv) ecdh.x25519Basepoint.
Proof.
  unfold x3dh.GenKeyPair, ecdh.GenerateKey, ecdh.NewPrivateKey,
    ecdh.x25519PrivateKeySize.
  destruct (length rand <? 32)%nat eqn:Hlt; [discriminate|].
  apply Nat.ltb_ge in Hlt.
  rewrite length_firstn, Nat.min_l by exact Hlt.
  cbn [Nat.eqb negb]. intros H. injection H as <- <-.
  cbn [ecdh.privateKey ecdh.PublicKeyOf ecdh.publicKey].
  rewrite copy_into_exact by apply length_x25519ScalarMult.
  auto.
Qed.

Lemma GenKeyPair_ok (rand : list byte) :
  (32 <= length rand)%nat ->
  x3dh.GenKeyPair rand =
  (Some {| ecdh.privateKey := firstn 32 rand |},
   ecdh.x25519ScalarMult (firstn 32 rand) ecdh.x25519Basepoint, None).
Proof.
  intros Hlen.
  unfold x3dh.GenKeyPair, ecdh.GenerateKey, ecdh.NewPrivateKey,
    ecdh.x25519PrivateKeySize.
  apply Nat.ltb_ge in Hlen. rewrite Hlen. apply Nat.ltb_ge in Hlen.
  rewrite length_firstn, Nat.min_l by exact Hlen.
  cbn [Nat.eqb negb ecdh.privateKey ecdh.PublicKeyOf ecdh.publicKey].
  rewrite copy_into_exact by apply length_x25519ScalarMult.
  reflexivity.
Qed.

Lemma GenKeyPair_exact (rand : list byte) :
  length rand = 32%nat ->
  x3dh.GenKeyPair rand =
  (Some {| ecdh.privateKey := rand |},
   ecdh.x25519ScalarMult rand ecdh.x25519Basepoint, None).
Proof.
  intros Hlen. rewrite GenKeyPair_ok by lia.
  rewrite firstn_all2 by lia. reflexivity.
Qed.

(** What [DH] computes on a private key and 32 bytes. *)
Lemma DH_Some (priv : ecdh.PrivateKey) (pub32 : list byte) :
  length pub32 = 32%nat ->
  x3dh.DH (Some priv) pub32 =
  if ecdh.isZero (ecdh.x25519ScalarMult (ecdh.privateKey priv) pub32)
  then (zeros 32, Some (ErrSharedSecret ErrEcdhLowOrder))
  else (ecdh.x25519ScalarMult (ecdh.privateKey priv) pub32, None).
Proof.
  intros Hlen.
  unfold x3dh.DH, ecdh.NewPublicKey, ecdh.ECDH, ecdh.x25519PublicKeySize.
  rewrite Hlen. cbn [Nat.eqb negb ecdh.publicKey].
  destruct (ecdh.isZero _); [reflexivity|].
  rewrite copy_into_exact by apply length_x25519ScalarMult.
  reflexivity.
Qed.

Lemma DH_bad_length (priv : ecdh.PrivateKey) (pub32 : list byte) :
  length pub32 <> 32%nat ->
  x3dh.DH (Some priv) pub32 = (zeros 32, Some (ErrNewPublicKey ErrEcdhPublicKey)).
Proof.
  intros Hlen.
  unfold x3dh.DH, ecdh.NewPublicKey, ecdh.x25519PublicKeySize.
  apply Nat.eqb_neq in Hlen. rewrite Hlen. reflexivity.
Qed.

Lemma DH_error_zero (priv : option ecdh.PrivateKey) (pub32 out : list byte)
    (err : error) :
  x3dh.DH priv pub32 = (out, Some err) -> out = zeros 32.
Proof.
  unfold x3dh.DH.
  destruct priv as [priv|]; [|intros H; injection H as <- _; reflexivity].
  destruct (ecdh.NewPublicKey pub32) as [[pub|] [e|]];
    try (intros H; injection H as <- _; reflexivity); try discriminate.
  destruct (ecdh.ECDH priv pub) as [shared [e|]];
    [intros H; injection H as <- _; reflexivity | discriminate].
Qed.

Lemma NewPublicKey_Some (pub32 : list byte) (pub : ecdh.PublicKey) :
  ecdh.NewPublicKey pub32 = (Some pub, None) ->
  length pub32 = 32%nat /\ pub = {| ecdh.publicKey := pub32 |}.
Proof.
  unfold ecdh.NewPublicKey, ecdh.x25519PublicKeySize.
  destruct (length pub32 =? 32)%nat eqn:E; [|discriminate].
  apply Nat.eqb_eq in E. cbn [negb]. intros H. injection H as <-. auto.
Qed.

Lemma ECDH_eq (priv : ecdh.PrivateKey) (pub : ecdh.PublicKey) :
  ecdh.ECDH priv pub =
  if ecdh.isZero (ecdh.x25519ScalarMult (ecdh.privateKey priv) (ecdh.publicKey pub))
  then ([], Some ErrEcdhLowOrder)
  else (ecdh.x25519ScalarMult (ecdh.privateKey priv) (ecdh.publicKey pub), None).
Proof. reflexivity. Qed.

Lemma ECDH_error (priv : ecdh.PrivateKey) (pub : ecdh.PublicKey) :
  snd (ecdh.ECDH priv pub) <> None ->
  ecdh.isZero (ecdh.x25519ScalarMult (ecdh.privateKey priv) (ecdh.publicKey pub)) = true.
Proof.
  rewrite ECDH_eq.
  destruct (ecdh.isZero _) eqn:E; [reflexivity|].
  intros H. exfalso. apply H. reflexivity.
Qed.

(** C9.  [DH] returns an error and the zero array, not a shared point,
    when the private key is nil, when the peer's public key is the point
    zero, and when the public key is refused by the curve; and whenever
    it returns an error, what it returns besides is the zero array. *)
Theorem DH_rejects_invalid_input :
  (forall pub32, x3dh.DH None pub32 = (zeros 32, Some ErrPrivNil)) /\
  (forall priv,
     x3dh.DH (Some priv) (zeros 32) =
     (zeros 32, Some (ErrSharedSecret ErrEcdhLowOrder))) /\
  (forall priv pub32,
     fst (ecdh.NewPublicKey pub32) = None ->
     x3dh.DH (Some priv) pub32 =
     (zeros 32, Some (ErrNewPublicKey ErrEcdhPublicKey))) /\
  (forall priv pub32 pub,
     ecdh.NewPublicKey pub32 = (Some pub, None) ->
     snd (ecdh.ECDH priv pub) <> None ->
     x3dh.DH (Some priv) pub32 =
     (zeros 32, Some (ErrSharedSecret ErrEcdhLowOrder))) /\
  (forall priv pub32 out err,
     x3dh.DH priv pub32 = (out, Some err) -> out = zeros 32).
Proof.
  split; [reflexivity|]. split; [|split; [|split]].
  - intros priv. rewrite DH_Some by apply length_zeros.
    rewrite x25519ScalarMult_zero. reflexivity.
  - intros priv pub32. unfold ecdh.NewPublicKey, ecdh.x25519PublicKeySize.
    destruct (length pub32 =? 32)%nat eqn:E; [discriminate|].
    intros _. apply DH_bad_length. apply Nat.eqb_neq. exact E.
  - intros priv pub32 pub Hpub Herr.
    apply NewPublicKey_Some in Hpub as [Hlen ->].
    apply ECDH_error in Herr.
    change (ecdh.publicKey {| ecdh.publicKey := pub32 |}) with pub32 in Herr.
    rewrite DH_Some by exact Hlen.
    rewrite Herr. reflexivity.
  - apply DH_error_zero.
Qed.

(* ===================================================================== *)
(** * Diffie-Hellman on generated key pairs *)
(* ===================================================================== *)

Section Agreement.

Variable R : list byte -> Prop.
Hypothesis laws : x25519_agrees R.

Lemma DH_generated (a b : ecdh.PrivateKey) :
  R (ecdh.privateKey a) -> R (ecdh.privateKey b) ->
  x3dh.DH (Some a)
    (ecdh.x25519ScalarMult (ecdh.privateKey b) ecdh.x25519Basepoint) =
  (ecdh.x25519ScalarMult (ecdh.privateKey a)
     (ecdh.x25519ScalarMult (ecdh.privateKey b) ecdh.x25519Basepoint), None).
Proof.
  intros Ha Hb. rewrite DH_Some by apply length_x25519ScalarMult.
  destruct (laws _ _ Ha Hb) as [_ ->]. reflexivity.
Qed.

Lemma DH_generated_pair (randA randB : list byte) a_priv a_pub b_priv b_pub :
  x3dh.GenKeyPair randA = (Some a_priv, a_pub, None) ->
  x3dh.GenKeyPair randB = (Some b_priv, b_pub, None) ->
  R (ecdh.privateKey a_priv) -> R (ecdh.privateKey b_priv) ->
  exists shared,
    x3dh.DH (Some a_priv) b_pub = (shared, None) /\
    x3dh.DH (Some b_priv) a_pub = (shared, None).
Proof.
  intros HA HB Ra Rb.
  apply GenKeyPair_Some in HA as (_ & _ & ->).
  apply GenKeyPair_Some in HB as (_ & _ & ->).
  eexists. split.
  - apply DH_generated; assumption.
  - rewrite DH_generated by assumption.
    destruct (laws _ _ Ra Rb) as [-> _]. reflexivity.
Qed.


End Agreement.

(** The laws hold on the test keys. *)
Lemma agrees_on_sound (keys : list (list byte)) :
  agrees_on keys = true -> x25519_agrees (fun k => In k keys).
Proof.
  unfold agrees_on. cbv zeta. intros H a b Ha Hb.
  rewrite forallb_forall in H.
  specialize (H (a, ecdh_fast.x25519ScalarMult a ecdh.x25519Basepoint)).
  rewrite forallb_forall in H.
  assert (Hin : forall k, In k keys ->
            In (k, ecdh_fast.x25519ScalarMult k ecdh.x25519Basepoint)
               (map (fun k => (k, ecdh_fast.x25519ScalarMult k ecdh.x25519Basepoint)) keys)).
  { intros k Hk. apply in_map_iff. exists k. auto. }
  specialize (H (Hin a Ha) _ (Hin b Hb)).
  cbn [fst snd] in H.
  apply andb_true_iff in H as [Heq Hnz].
  apply bytes_eqb_eq in Heq. apply negb_true_iff in Hnz.
  rewrite !x25519ScalarMult_fast. split; assumption.
Qed.

Lemma test_keys_agree : x25519_agrees (fun k => In k test_keys).
Proof. apply agrees_on_sound. vm_compute. reflexivity. Qed.


(* ===================================================================== *)
(** * Client programs: the laws of the monad *)
(* ===================================================================== *)

Lemma bind_Return {A B : Type} (t : list event) (a : A) (k : A -> prog B) :
  mbind k ((t, Return a) : prog A) = ((t ++ fst (k a))%list, snd (k a)).
Proof. unfold mbind, prog_bind. destruct (k a). reflexivity. Qed.

Lemma bind_Fatal {A B : Type} (t : list event) f e (k : A -> prog B) :
  mbind k ((t, Fatal f e) : prog A) = (t, Fatal f e).
Proof. reflexivity. Qed.

Lemma bind_Panic {A B : Type} (t : list event) f e (k : A -> prog B) :
  mbind k ((t, Panic f e) : prog A) = (t, Panic f e).
Proof. reflexivity. Qed.

Lemma bind_emit {B : Type} (ev : event) (k : unit -> prog B) :
  mbind k (emit ev) = (ev :: fst (k tt), snd (k tt)).
Proof. unfold emit. rewrite bind_Return. reflexivity. Qed.

Lemma bind_lift_Return {A B : Type} (a : A) (k : A -> prog B) :
  mbind k (lift (Return a)) = k a.
Proof. unfold lift. rewrite bind_Return. destruct (k a). reflexivity. Qed.

Lemma bind_mret {A B : Type} (a : A) (k : A -> prog B) :
  mbind k (mret a) = k a.
Proof. apply bind_lift_Return. Qed.

Lemma bind_check_None {B : Type} (f : string) (k : unit -> prog B) :
  mbind k (check f None) = k tt.
Proof. apply bind_lift_Return. Qed.

Lemma Alice_callDH_ok (f : string) priv pub32 out :
  x3dh.DH priv pub32 = (out, None) ->
  Alice.callDH f priv pub32 = ([CallDH pub32], Return out).
Proof.
  intros H. unfold Alice.callDH. rewrite H, bind_emit, bind_check_None.
  reflexivity.
Qed.

Lemma Bob_callDH_ok (f : string) priv pub32 out :
  x3dh.DH priv pub32 = (out, None) ->
  Bob.callDH f priv pub32 = ([CallDH pub32], Return out).
Proof.
  intros H. unfold Bob.callDH. rewrite H, bind_emit, bind_check_None.
  reflexivity.
Qed.

Lemma Alice_decode32_encode32 (x : list byte) :
  length x = 32%nat -> Alice.decode32 (Alice.encode32 x) = Return x.
Proof.
  intros H. unfold Alice.decode32, Alice.encode32.
  rewrite DecodeString_EncodeToString, copy_into_exact by exact H.
  reflexivity.
Qed.

Lemma Bob_decode32_encode32 (x : list byte) :
  length x = 32%nat -> Bob.decode32 (Bob.encode32 x) = Return x.
Proof.
  intros H. unfold Bob.decode32, Bob.encode32.
  rewrite DecodeString_EncodeToString, copy_into_exact by exact H.
  reflexivity.
Qed.

(** What the initiator's derivation does when the three keys decode
    and the four exchanges succeed. *)
Lemma Alice_deriveMaster_ok alicePriv privEKa bundle ikb spkb otkb d1 d2 d3 d4 :
  Alice.decode32 (x3dh.IK bundle) = Return ikb ->
  Alice.decode32 (x3dh.SPK bundle) = Return spkb ->
  Alice.decode32 (x3dh.OTK bundle) = Return otkb ->
  x3dh.DH alicePriv spkb = (d1, None) ->
  x3dh.DH privEKa ikb = (d2, None) ->
  x3dh.DH privEKa spkb = (d3, None) ->
  x3dh.DH privEKa otkb = (d4, None) ->
  Alice.deriveMaster alicePriv privEKa bundle =
  ([CallDH spkb; CallDH ikb; CallDH spkb; CallDH otkb;
    CallKDF [d1; d2; d3; d4];
    Log "Session key derived "
      (Some (hex.EncodeToString (x3dh.KDF [d1; d2; d3; d4])))],
   Return (x3dh.KDF [d1; d2; d3; d4])).
Proof.
  intros Hik Hspk Hotk H1 H2 H3 H4. unfold Alice.deriveMaster.
  rewrite Hik, Hspk, Hotk, !bind_lift_Return.
  rewrite (Alice_callDH_ok _ _ _ _ H1), bind_Return.
  rewrite (Alice_callDH_ok _ _ _ _ H2), bind_Return.
  rewrite (Alice_callDH_ok _ _ _ _ H3), bind_Return.
  rewrite (Alice_callDH_ok _ _ _ _ H4), bind_Return.
  rewrite !bind_emit. reflexivity.
Qed.

Lemma Bob_deriveMaster_ok IKbPriv SPKbPriv OTKbPriv msg ika eka d1 d2 d3 d4 :
  Bob.decode32 (x3dh.AliceIK msg) = Return ika ->
  Bob.decode32 (x3dh.AliceEKa msg) = Return eka ->
  x3dh.DH SPKbPriv ika = (d1, None) ->
  x3dh.DH IKbPriv eka = (d2, None) ->
  x3dh.DH SPKbPriv eka = (d3, None) ->
  x3dh.DH OTKbPriv eka = (d4, None) ->
  Bob.deriveMaster IKbPriv SPKbPriv OTKbPriv msg =
  ([CallDH ika; CallDH eka; CallDH eka; CallDH eka;
    CallKDF [d1; d2; d3; d4];
    Log "Session key derived "
      (Some (hex.EncodeToString (x3dh.KDF [d1; d2; d3; d4])))],
   Return (x3dh.KDF [d1; d2; d3; d4])).
Proof.
  intros Hik Hek H1 H2 H3 H4. unfold Bob.deriveMaster.
  rewrite Hik, Hek, !bind_lift_Return.
  rewrite (Bob_callDH_ok _ _ _ _ H1), bind_Return.
  rewrite (Bob_callDH_ok _ _ _ _ H2), bind_Return.
  rewrite (Bob_callDH_ok _ _ _ _ H3), bind_Return.
  rewrite (Bob_callDH_ok _ _ _ _ H4), bind_Return.
  rewrite !bind_emit. reflexivity.
Qed.

(* ===================================================================== *)
(** * The agreement of initiator and responder *)
(* ===================================================================== *)

Section X3DH.

Variable R : list byte -> Prop.
Hypothesis laws : x25519_agrees R.

(** C1.  For every responder bundle made of generated identity, signed
    and one-time prekeys, and every generated initiator identity and
    ephemeral key pair (private keys in a set [R] on which X25519 obeys
    the laws of Diffie-Hellman): the initiator's secret
    [KDF(DH(IKa, SPKb), DH(EKa, IKb), DH(EKa, SPKb), DH(EKa, OTKb))],
    derived from its private keys and the bundle, equals the responder's
    secret [KDF(DH(SPKb, IKa), DH(IKb, EKa), DH(SPKb, EKa), DH(OTKb, EKa))],
    derived from its private keys and the public keys that the message
    carries. *)
Theorem x3dh_shared_secret
    (randIKa randEKa randIKb randSPKb randOTKb : list byte)
    IKaPriv IKaPub EKaPriv EKaPub IKbPriv IKbPub SPKbPriv SPKbPub
    OTKbPriv OTKbPub (bundle : x3dh.Bundle) (msg : x3dh.InitialMessage) :
  x3dh.GenKeyPair randIKa = (Some IKaPriv, IKaPub, None) ->
  x3dh.GenKeyPair randEKa = (Some EKaPriv, EKaPub, None) ->
  x3dh.GenKeyPair randIKb = (Some IKbPriv, IKbPub, None) ->
  x3dh.GenKeyPair randSPKb = (Some SPKbPriv, SPKbPub, None) ->
  x3dh.GenKeyPair randOTKb = (Some OTKbPriv, OTKbPub, None) ->
  R (ecdh.privateKey IKaPriv) -> R (ecdh.privateKey EKaPriv) ->
  R (ecdh.privateKey IKbPriv) -> R (ecdh.privateKey SPKbPriv) ->
  R (ecdh.privateKey OTKbPriv) ->
  x3dh.IK bundle = Bob.encode32 IKbPub ->
  x3dh.SPK bundle = Bob.encode32 SPKbPub ->
  x3dh.OTK bundle = Bob.encode32 OTKbPub ->
  x3dh.AliceIK msg = Alice.encode32 IKaPub ->
  x3dh.AliceEKa msg = Alice.encode32 EKaPub ->
  exists DH1 DH2 DH3 DH4 ta tb,
    x3dh.DH (Some IKaPriv) SPKbPub = (DH1, None) /\
    x3dh.DH (Some EKaPriv) IKbPub = (DH2, None) /\
    x3dh.DH (Some EKaPriv) SPKbPub = (DH3, None) /\
    x3dh.DH (Some EKaPriv) OTKbPub = (DH4, None) /\
    x3dh.DH (Some SPKbPriv) IKaPub = (DH1, None) /\
    x3dh.DH (Some IKbPriv) EKaPub = (DH2, None) /\
    x3dh.DH (Some SPKbPriv) EKaPub = (DH3, None) /\
    x3dh.DH (Some OTKbPriv) EKaPub = (DH4, None) /\
    Alice.deriveMaster (Some IKaPriv) (Some EKaPriv) bundle =
      (ta, Return (x3dh.KDF [DH1; DH2; DH3; DH4])) /\
    Bob.deriveMaster (Some IKbPriv) (Some SPKbPriv) (Some OTKbPriv) msg =
      (tb, Return (x3dh.KDF [DH1; DH2; DH3; DH4])).
Proof.
  intros GIKa GEKa GIKb GSPKb GOTKb RIKa REKa RIKb RSPKb ROTKb
    HIK HSPK HOTK HAIK HAEK.
  destruct (DH_generated_pair R laws _ _ _ _ _ _ GIKa GSPKb RIKa RSPKb)
    as (DH1 & A1 & B1).
  destruct (DH_generated_pair R laws _ _ _ _ _ _ GEKa GIKb REKa RIKb)
    as (DH2 & A2 & B2).
  destruct (DH_generated_pair R laws _ _ _ _ _ _ GEKa GSPKb REKa RSPKb)
    as (DH3 & A3 & B3).
  destruct (DH_generated_pair R laws _ _ _ _ _ _ GEKa GOTKb REKa ROTKb)
    as (DH4 & A4 & B4).
  assert (L : forall rand priv pub,
            x3dh.GenKeyPair rand = (Some priv, pub, None) ->
            length pub = 32%nat).
  { intros rand priv pub G. apply GenKeyPair_Some in G as (_ & _ & ->).
    apply length_x25519ScalarMult. }
  exists DH1, DH2, DH3, DH4. do 2 eexists.
  repeat (split; [eassumption|]). split.
  - apply Alice_deriveMaster_ok with (ikb := IKbPub) (spkb := SPKbPub)
      (otkb := OTKbPub); try assumption.
    + rewrite HIK. apply Alice_decode32_encode32. eapply L; eassumption.
    + rewrite HSPK. apply Alice_decode32_encode32. eapply L; eassumption.
    + rewrite HOTK. apply Alice_decode32_encode32. eapply L; eassumption.
  - apply Bob_deriveMaster_ok with (ika := IKaPub) (eka := EKaPub);
      try assumption.
    + rewrite HAIK. apply Bob_decode32_encode32. eapply L; eassumption.
    + rewrite HAEK. apply Bob_decode32_encode32. eapply L; eassumption.
Qed.

End X3DH.

Lemma x3dh_shared_secret_witness :
  exists K ta tb,
    Alice.deriveMaster (Some {| ecdh.privateKey := rfc_alice |})
      (Some {| ecdh.privateKey := test_key |}) test_bundle = (ta, Return K) /\
    Bob.deriveMaster (Some {| ecdh.privateKey := rfc_bob |})
      (Some {| ecdh.privateKey := rfc_scalar1 |})
      (Some {| ecdh.privateKey := rfc_scalar2 |}) test_message = (tb, Return K).
Proof.
  destruct (x3dh_shared_secret (fun k => In k test_keys) test_keys_agree
              rfc_alice test_key rfc_bob rfc_scalar1 rfc_scalar2
              _ _ _ _ _ _ _ _ _ _ test_bundle test_message
              (GenKeyPair_exact rfc_alice eq_refl)
              (GenKeyPair_exact test_key eq_refl)
              (GenKeyPair_exact rfc_bob eq_refl)
              (GenKeyPair_exact rfc_scalar1 eq_refl)
              (GenKeyPair_exact rfc_scalar2 eq_refl))
    as (DH1 & DH2 & DH3 & DH4 & ta & tb & H).
  - left. reflexivity.
  - do 4 right. left. reflexivity.
  - right. left. reflexivity.
  - do 2 right. left. reflexivity.
  - do 3 right. left. reflexivity.
  - reflexivity.
  - reflexivity.
  - reflexivity.
  - reflexivity.
  - reflexivity.
  - exists (x3dh.KDF [DH1; DH2; DH3; DH4]), ta, tb.
    destruct H as (_ & _ & _ & _ & _ & _ & _ & _ & HA & HB).
    split; assumption.
Defined.

(* ===================================================================== *)
(** * crypto/sha256 and KDF *)
(* ===================================================================== *)

Lemma length_round (st : list Z) (kw : Z * Z) :
  length (sha256.round st kw) = length st.
Proof.
  unfold sha256.round.
  do 9 (destruct st as [|? st]; try reflexivity).
Qed.

Lemma length_fold_round (kws : list (Z * Z)) (st : list Z) :
  length (fold_left sha256.round kws st) = length st.
Proof.
  revert st. induction kws as [|kw kws IH]; intros st; [reflexivity|].
  cbn [fold_left]. rewrite IH. apply length_round.
Qed.

Lemma length_block (h : list Z) (p : list byte) :
  length (sha256.block h p) = length h.
Proof.
  unfold sha256.block. cbv zeta.
  rewrite length_map, length_combine, length_fold_round. lia.
Qed.

Lemma length_fold_block (ps : list (list byte)) (h : list Z) :
  length (fold_left sha256.block ps h) = length h.
Proof.
  revert h. induction ps as [|p ps IH]; intros h; [reflexivity|].
  cbn [fold_left]. rewrite IH. apply length_block.
Qed.

Lemma length_concat_be_bytes (h : list Z) :
  length (concat (map (be_bytes 4) h)) = (4 * length h)%nat.
Proof.
  induction h as [|x h IH]; [reflexivity|].
  cbn [map concat length]. rewrite length_app, length_be_bytes, IH. lia.
Qed.

Lemma length_Sum256 (data : list byte) :
  length (sha256.Sum256 data) = 32%nat.
Proof.
  unfold sha256.Sum256. cbv zeta.
  rewrite length_concat_be_bytes, length_fold_block. reflexivity.
Qed.

Lemma fold_left_Write (parts : list (list byte)) (d : sha256.digest) :
  fold_left sha256.Write parts d = (d ++ concat parts)%list.
Proof.
  revert d. induction parts as [|p parts IH]; intros d; cbn [fold_left concat].
  - symmetry. apply app_nil_r.
  - rewrite IH. unfold sha256.Write. symmetry. apply app_assoc.
Qed.

(** [KDF] is the hash of the parts, one after the other. *)
Lemma KDF_Sum256 (parts : list (list byte)) :
  x3dh.KDF parts = sha256.Sum256 (concat parts).
Proof.
  unfold x3dh.KDF. cbv zeta. rewrite fold_left_Write.
  unfold sha256.New, sha256.Sum. cbn [app].
  apply copy_into_exact, length_Sum256.
Qed.

(** Sequences of 32-byte parts with the same concatenation are equal. *)
Lemma concat_parts_inj (parts parts' : list (list byte)) :
  Forall (fun p => length p = 32%nat) parts ->
  Forall (fun p => length p = 32%nat) parts' ->
  concat parts = concat parts' -> parts = parts'.
Proof.
  intros H. revert parts'.
  induction H as [|p parts Hp _ IH]; intros parts' H' Heq;
    destruct H' as [|p' parts' Hp' H']; cbn [concat] in Heq.
  - reflexivity.
  - apply (f_equal (@length byte)) in Heq.
    rewrite length_app, Hp' in Heq. cbn in Heq. lia.
  - apply (f_equal (@length byte)) in Heq.
    rewrite length_app, Hp in Heq. cbn in Heq. lia.
  - apply app_inj_1 in Heq as [-> Heq]; [|congruence].
    f_equal. apply IH; assumption.
Qed.

(** C3.  [KDF] is a function of the ordered sequence of its 32-byte
    inputs: equal sequences give the same 32-byte key, the key is the
    SHA-256 digest of the inputs written one after the other, and two
    sequences that differ (by the order of two distinct inputs, or by one
    input) give the same key only if they are a collision of SHA-256. *)
Theorem KDF_deterministic (parts parts' : list (list byte)) :
  Forall (fun p => length p = 32%nat) parts ->
  Forall (fun p => length p = 32%nat) parts' ->
  (parts = parts' -> x3dh.KDF parts = x3dh.KDF parts') /\
  length (x3dh.KDF parts) = 32%nat /\
  x3dh.KDF parts = sha256.Sum256 (concat parts) /\
  (x3dh.KDF parts = x3dh.KDF parts' ->
   parts = parts' \/ sha256_collision (concat parts) (concat parts')).
Proof.
  intros H H'. split; [intros ->; reflexivity|].
  split; [rewrite KDF_Sum256; apply length_Sum256|].
  split; [apply KDF_Sum256|].
  rewrite !KDF_Sum256. intros Heq.
  destruct (List.list_eq_dec (List.list_eq_dec Byte.byte_eq_dec) parts parts') as [E|N];
    [left; exact E|].
  right. split; [|exact Heq].
  intros Hc. apply N. apply concat_parts_inj; assumption.
Qed.

Lemma KDF_deterministic_witness :
  (([test_key; test_key2] : list (list byte)) = [test_key2; test_key] ->
   x3dh.KDF [test_key; test_key2] = x3dh.KDF [test_key2; test_key]) /\
  length (x3dh.KDF [test_key; test_key2]) = 32%nat /\
  x3dh.KDF [test_key; test_key2] =
    sha256.Sum256 (concat [test_key; test_key2]) /\
  (x3dh.KDF [test_key; test_key2] = x3dh.KDF [test_key2; test_key] ->
   ([test_key; test_key2] : list (list byte)) = [test_key2; test_key] \/
   sha256_collision (concat [test_key; test_key2])
     (concat [test_key2; test_key])).
Proof.
  apply (KDF_deterministic [test_key; test_key2] [test_key2; test_key]);
    repeat constructor.
Defined.

(** The checks of [TestKDF]: one input and two inputs give different
    keys, and so do the two orders of two inputs. *)
Example KDF_test_vectors :
  x3dh.KDF [test_key] <> x3dh.KDF [test_key; test_key2] /\
  x3dh.KDF [test_key; test_key2] <> x3dh.KDF [test_key2; test_key] /\
  hex.EncodeToString (x3dh.KDF [test_key; test_key2]) =
  "20a7ec84684f7fe124cb3727d049734ab0b7da2f52fcafbcef989ecfd91e870b".
Proof. vm_compute. repeat split; discriminate. Qed.

(* ===================================================================== *)
(** * chacha20: the key stream *)
(* ===================================================================== *)

Lemma lxor_byte_range (a b : Z) :
  0 <= a < 256 -> 0 <= b < 256 -> 0 <= Z.lxor a b < 256.
Proof.
  intros Ha Hb. split.
  - apply Z.lxor_nonneg. lia.
  - destruct (Z.eq_dec (Z.lxor a b) 0) as [->|Hne]; [lia|].
    assert (Hpos : 0 < Z.lxor a b).
    { assert (0 <= Z.lxor a b) by (apply Z.lxor_nonneg; lia). lia. }
    change 256 with (2 ^ 8). apply Z.log2_lt_pow2; [exact Hpos|].
    pose proof (Z.log2_lxor a b ltac:(lia) ltac:(lia)) as Hl.
    assert (La : Z.log2 a < 8).
    { destruct (Z.eq_dec a 0) as [->|]; [cbn; lia|].
      apply Z.log2_lt_pow2; lia. }
    assert (Lb : Z.log2 b < 8).
    { destruct (Z.eq_dec b 0) as [->|]; [cbn; lia|].
      apply Z.log2_lt_pow2; lia. }
    lia.
Qed.

Lemma byte_xor_involutive (a b : byte) : byte_xor (byte_xor a b) b = a.
Proof.
  unfold byte_xor. rewrite b2z_z2b.
  rewrite Z.mod_small by (apply lxor_byte_range; apply b2z_range).
  rewrite Z.lxor_assoc, Z.lxor_nilpotent, Z.lxor_0_r. apply z2b_b2z.
Qed.

Lemma length_xor_bytes (src ks : list byte) :
  (length src <= length ks)%nat -> length (xor_bytes src ks) = length src.
Proof.
  revert ks. induction src as [|x src IH]; intros [|k ks] H;
    cbn [xor_bytes length] in *; try reflexivity; try lia.
  rewrite IH by lia. reflexivity.
Qed.

Lemma xor_bytes_involutive (src ks : list byte) :
  (length src <= length ks)%nat -> xor_bytes (xor_bytes src ks) ks = src.
Proof.
  revert ks. induction src as [|x src IH]; intros [|k ks] H;
    cbn [xor_bytes length] in *; try reflexivity; try lia.
  rewrite byte_xor_involutive, IH by lia. reflexivity.
Qed.

Lemma length_quarterRound (a b c d : nat) (st : list Z) :
  length (chacha20.quarterRound a b c d st) = length st.
Proof. unfold chacha20.quarterRound. cbv zeta. rewrite !length_insert. reflexivity. Qed.

Lemma length_doubleRound (st : list Z) :
  length (chacha20.doubleRound st) = length st.
Proof. unfold chacha20.doubleRound. cbv zeta. rewrite !length_quarterRound. reflexivity. Qed.

Lemma length_iter_doubleRound (n : nat) (st : list Z) :
  length (Nat.iter n chacha20.doubleRound st) = length st.
Proof.
  induction n as [|n IH]; [reflexivity|].
  rewrite Nat.iter_succ, length_doubleRound. exact IH.
Qed.

Lemma length_words (n : nat) (l : list byte) :
  length (chacha20.words n l) = n.
Proof.
  revert l. induction n as [|n IH]; intros l; cbn [chacha20.words length];
    [reflexivity|]. rewrite IH. reflexivity.
Qed.

Lemma length_initial (key : list byte) (counter : Z) (nonce : list byte) :
  length (chacha20.initial key counter nonce) = 16%nat.
Proof.
  unfold chacha20.initial. rewrite !length_app, !length_words. reflexivity.
Qed.

Lemma length_concat_le_bytes (l : list (Z * Z)) :
  length (concat (map (fun xy => le_bytes 4 (chacha20.u32 (fst xy + snd xy))) l))
  = (4 * length l)%nat.
Proof.
  induction l as [|x l IH]; [reflexivity|].
  cbn [map concat length]. rewrite length_app, length_le_bytes, IH. lia.
Qed.

Lemma length_chacha20_block (key : list byte) (counter : Z) (nonce : list byte) :
  length (chacha20.block key counter nonce) = 64%nat.
Proof.
  unfold chacha20.block. cbv zeta.
  rewrite length_concat_le_bytes, length_combine, length_iter_doubleRound,
    length_initial. reflexivity.
Qed.

Lemma length_keystream (key nonce : list byte) (counter : Z) (n : nat) :
  length (chacha20.keystream key nonce counter n) = (64 * n)%nat.
Proof.
  revert counter. induction n as [|n IH]; intros counter;
    cbn [chacha20.keystream]; [reflexivity|].
  rewrite length_app, length_chacha20_block, IH. lia.
Qed.

Lemma keystream_covers (len : nat) : (len <= 64 * ((len + 63) / 64))%nat.
Proof.
  pose proof (Nat.div_mod_eq (len + 63) 64) as H.
  pose proof (Nat.mod_upper_bound (len + 63) 64 ltac:(lia)) as Hm.
  lia.
Qed.

Lemma length_XORKeyStream (key nonce : list byte) (counter : Z)
    (src : list byte) :
  length (chacha20.XORKeyStream key nonce counter src) = length src.
Proof.
  unfold chacha20.XORKeyStream. apply length_xor_bytes.
  rewrite length_keystream. apply keystream_covers.
Qed.

(** Applying the key stream twice gives the input back. *)
Lemma XORKeyStream_involutive (key nonce : list byte) (counter : Z)
    (src : list byte) :
  chacha20.XORKeyStream key nonce counter
    (chacha20.XORKeyStream key nonce counter src) = src.
Proof.
  unfold chacha20.XORKeyStream at 1. rewrite length_XORKeyStream.
  unfold chacha20.XORKeyStream. apply xor_bytes_involutive.
  rewrite length_keystream. apply keystream_covers.
Qed.

(* ===================================================================== *)
(** * chacha20poly1305: Seal and Open *)
(* ===================================================================== *)

Lemma length_poly1305_Sum (key msg : list byte) :
  length (poly1305.Sum key msg) = 16%nat.
Proof. apply length_le_bytes. Qed.

Lemma length_sealGeneric c nonce plaintext aad :
  length (chacha20poly1305.sealGeneric c nonce plaintext aad) =
  (length plaintext + 16)%nat.
Proof.
  unfold chacha20poly1305.sealGeneric. cbv zeta.
  rewrite length_app, length_XORKeyStream, length_poly1305_Sum. reflexivity.
Qed.

(** [openGeneric], by whether the tag verifies. *)
Lemma openGeneric_spec c nonce (body tag aad : list byte) :
  length tag = 16%nat ->
  chacha20poly1305.openGeneric c nonce (body ++ tag) aad =
  if bytes_eqb
       (poly1305.Sum (chacha20poly1305.polyKey c nonce)
          (chacha20poly1305.macData aad body)) tag
  then (chacha20.XORKeyStream (chacha20poly1305.key c) nonce 1 body, None)
  else ([], Some ErrOpen).
Proof.
  intros Htag. unfold chacha20poly1305.openGeneric. cbv zeta.
  rewrite length_app, Htag.
  replace (length body + 16 - 16)%nat with (length body) by lia.
  rewrite firstn_app, firstn_all, Nat.sub_diag, firstn_0, app_nil_r.
  rewrite skipn_app, skipn_all, Nat.sub_diag, skipn_0.
  unfold poly1305.Verify. cbn [app].
  destruct (bytes_eqb _ tag); reflexivity.
Qed.

Lemma openGeneric_sealGeneric c nonce plaintext aad :
  chacha20poly1305.openGeneric c nonce
    (chacha20poly1305.sealGeneric c nonce plaintext aad) aad =
  (plaintext, None).
Proof.
  unfold chacha20poly1305.sealGeneric. cbv zeta.
  rewrite openGeneric_spec by apply length_poly1305_Sum.
  assert (E : forall l, bytes_eqb l l = true) by (intros l; apply bytes_eqb_eq; reflexivity).
  rewrite E, XORKeyStream_involutive. reflexivity.
Qed.

(** C4, as amended.  For every 32-byte key, every nonce of 12 bytes and
    every non-empty plaintext of at most [2^38 - 64] bytes, [Open] of what
    [Seal] returns succeeds and returns the plaintext. *)
Theorem Open_Seal (k nonce plaintext aad : list byte) c :
  chacha20poly1305.New k = (Some c, None) ->
  length nonce = chacha20poly1305.NonceSize ->
  plaintext <> [] ->
  Z.of_nat (length plaintext) <= 2 ^ 38 - 64 ->
  exists ciphertext,
    chacha20poly1305.Seal c nonce plaintext aad = Return ciphertext /\
    chacha20poly1305.Open c nonce ciphertext aad = Return (plaintext, None).
Proof.
  intros _ Hn _ Hlen.
  exists (chacha20poly1305.sealGeneric c nonce plaintext aad).
  unfold chacha20poly1305.Seal, chacha20poly1305.Open.
  rewrite Hn, Nat.eqb_refl. cbn [negb].
  rewrite length_sealGeneric.
  destruct (2 ^ 38 - 64 <? Z.of_nat (length plaintext)) eqn:E1;
    [apply Z.ltb_lt in E1; lia|].
  destruct (length plaintext + 16 <? 16)%nat eqn:E2;
    [apply Nat.ltb_lt in E2; lia|].
  destruct (2 ^ 38 - 48 <? Z.of_nat (length plaintext + 16)) eqn:E3;
    [apply Z.ltb_lt in E3; lia|].
  rewrite openGeneric_sealGeneric. split; reflexivity.
Qed.

Lemma Open_Seal_witness :
  exists ciphertext,
    chacha20poly1305.Seal test_aead test_nonce test_plaintext [] =
      Return ciphertext /\
    chacha20poly1305.Open test_aead test_nonce ciphertext [] =
      Return (test_plaintext, None).
Proof.
  apply (Open_Seal test_key test_nonce test_plaintext [] test_aead).
  - reflexivity.
  - reflexivity.
  - discriminate.
  - vm_compute. discriminate.
Defined.

(** The run of step 7 of [cmd/alice] and step 5 of [cmd/bob] on the
    test data. *)
Example Seal_test_vector :
  chacha20poly1305.Seal test_aead test_nonce test_plaintext [] =
    Return test_sealed /\
  chacha20poly1305.Open test_aead test_nonce test_sealed [] =
    Return (test_plaintext, None).
Proof. vm_compute. split; reflexivity. Qed.

(** C4 as stated fails on a plaintext of [2^38] bytes: key and nonce
    have the right sizes, the plaintext is not empty, and [Seal] panics. *)
Lemma Seal_refuses_large_plaintext :
  chacha20poly1305.New test_key = (Some test_aead, None) /\
  length test_nonce = chacha20poly1305.NonceSize /\
  large_plaintext <> [] /\
  chacha20poly1305.Seal test_aead test_nonce large_plaintext [] =
    Panic "chacha20poly1305: plaintext too large" None.
Proof.
  assert (Hlen : Z.of_nat (length large_plaintext) = 2 ^ 38).
  { unfold large_plaintext. rewrite repeat_length, Z2Nat.id; lia. }
  split; [reflexivity|]. split; [reflexivity|]. split.
  - intros H. rewrite H in Hlen. cbn [length] in Hlen. lia.
  - unfold chacha20poly1305.Seal. rewrite Hlen. reflexivity.
Qed.

(** C5, as amended.  [Open] returns a plaintext when the ciphertext has
    at least 16 bytes and its last 16 bytes are the tag that [Open]
    computes from the key, the nonce and the bytes before them; in every
    other case it returns the authentication failure and an empty
    result. *)
Theorem Open_fails_closed (c : chacha20poly1305.aead)
    (nonce ciphertext aad : list byte) :
  length nonce = chacha20poly1305.NonceSize ->
  Z.of_nat (length ciphertext) <= 2 ^ 38 - 48 ->
  let n := (length ciphertext - 16)%nat in
  let body := firstn n ciphertext in
  let tag := skipn n ciphertext in
  let authentic :=
    (16 <= length ciphertext)%nat /\
    poly1305.Sum (chacha20poly1305.polyKey c nonce)
      (chacha20poly1305.macData aad body) = tag in
  (authentic ->
   chacha20poly1305.Open c nonce ciphertext aad =
   Return (chacha20.XORKeyStream (chacha20poly1305.key c) nonce 1 body, None)) /\
  (~ authentic ->
   chacha20poly1305.Open c nonce ciphertext aad = Return ([], Some ErrOpen)).
Proof.
  intros Hn Hlen n body tag authentic.
  unfold chacha20poly1305.Open. rewrite Hn, Nat.eqb_refl. cbn [negb].
  destruct (length ciphertext <? 16)%nat eqn:E1.
  { apply Nat.ltb_lt in E1. split.
    - intros [H _]. lia.
    - reflexivity. }
  apply Nat.ltb_ge in E1.
  destruct (2 ^ 38 - 48 <? Z.of_nat (length ciphertext)) eqn:E2;
    [apply Z.ltb_lt in E2; lia|].
  assert (Hsplit : ciphertext = (body ++ tag)%list)
    by (symmetry; apply firstn_skipn).
  assert (Htag : length tag = 16%nat)
    by (unfold tag, n; rewrite length_skipn; lia).
  assert (Hopen : chacha20poly1305.openGeneric c nonce ciphertext aad =
                  chacha20poly1305.openGeneric c nonce (body ++ tag) aad)
    by (rewrite <- Hsplit; reflexivity).
  rewrite Hopen, openGeneric_spec by exact Htag.
  destruct (bytes_eqb _ tag) eqn:E3.
  - apply bytes_eqb_eq in E3. split; [reflexivity|].
    intros H. exfalso. apply H. split; assumption.
  - split; [|reflexivity].
    intros [_ H]. apply bytes_eqb_eq in H.
    rewrite E3 in H. discriminate H.
Qed.

(** A sealed message whose last byte was changed. *)
Lemma Open_fails_closed_witness :
  chacha20poly1305.Open test_aead test_nonce
    (firstn 47 test_sealed ++ [xff]) [] = Return ([], Some ErrOpen).
Proof.
  apply (Open_fails_closed test_aead test_nonce
           (firstn 47 test_sealed ++ [xff]) []).
  - reflexivity.
  - vm_compute. discriminate.
  - intros [_ H]. vm_compute in H. discriminate.
Defined.

(** C5 as stated fails: a ciphertext that differs from the sealed one
    is opened without an error, to another plaintext. *)
Lemma Open_accepts_forged_ciphertext :
  chacha20poly1305.Seal test_aead test_nonce test_plaintext [] =
    Return test_sealed /\
  test_forged <> test_sealed /\
  chacha20poly1305.Open test_aead test_nonce test_forged [] =
    Return (test_forged_plaintext, None) /\
  test_forged_plaintext <> test_plaintext.
Proof. vm_compute. repeat split; discriminate. Qed.

(* ===================================================================== *)
(** * cmd/server: the queue of a user *)
(* ===================================================================== *)

Lemma substring_all (s : string) : String.substring 0 (String.length s) s = s.
Proof.
  induction s as [|c s IH]; [reflexivity|].
  cbn [String.length String.substring]. rewrite IH. reflexivity.
Qed.

Lemma append_cons (c : ascii) (s t : string) :
  (String c s ++ t)%string = String c (s ++ t)%string.
Proof. reflexivity. Qed.

Lemma length_append_cons (c : ascii) (s t : string) :
  String.length (String c s ++ t) = S (String.length (s ++ t)).
Proof. reflexivity. Qed.

Lemma TrimPrefix_app (pre s : string) : TrimPrefix (pre ++ s) pre = s.
Proof.
  unfold TrimPrefix.
  assert (Hp : String.prefix pre (pre ++ s) = true).
  { induction pre as [|c pre IH].
    - destruct s; reflexivity.
    - rewrite append_cons. cbn [String.prefix].
      destruct (ascii_dec c c) as [_|N]; [exact IH|congruence]. }
  rewrite Hp. clear Hp.
  induction pre as [|c pre IH].
  - change ("" ++ s)%string with s. cbn [String.length].
    rewrite Nat.sub_0_r. apply substring_all.
  - rewrite length_append_cons, append_cons.
    cbn [String.length String.substring Nat.sub]. exact IH.
Qed.

Section Mailbox.

Variable MarshalMessage : x3dh.InitialMessage -> string.
Variable UnmarshalMessage : string -> option x3dh.InitialMessage.

Lemma pending_queue_is U st l : queue_is U st l -> pending U st = l.
Proof.
  unfold queue_is, pending. intros ->. destruct l; reflexivity.
Qed.

Lemma eqb_empty_false (U : string) : U <> "" -> String.eqb U "" = false.
Proof. intros H. apply String.eqb_neq. exact H. Qed.

(** Enqueue: the message is appended at the tail. *)
Lemma sendMessageHandler_spec U msg st l :
  U <> "" ->
  UnmarshalMessage (MarshalMessage msg) = Some msg ->
  queue_is U st l ->
  exists st',
    Server.sendMessageHandler MarshalMessage UnmarshalMessage
      (sendRequest U (MarshalMessage msg)) st = (okResponse, st') /\
    queue_is U st' (l ++ [MarshalMessage msg]).
Proof.
  intros HU Hrt Hq.
  unfold Server.sendMessageHandler, sendRequest.
  cbn [http.Method http.Path http.Body].
  change (String.eqb "POST" http.MethodPost) with true. cbn [negb].
  rewrite TrimPrefix_app, (eqb_empty_false U HU), Hrt.
  unfold redis.RPush. rewrite Hq.
  destruct l as [|d l].
  - eexists. split; [reflexivity|].
    unfold queue_is, Server.with_rdb. cbn [Server.rdb app].
    apply lookup_insert_eq.
  - eexists. split; [reflexivity|].
    unfold queue_is, Server.with_rdb. cbn [Server.rdb app].
    apply lookup_insert_eq.
Qed.

(** Dequeue: the head is decoded, returned with the number of messages
    left, and removed. *)
Lemma getMessageHandler_spec U st d rest msg :
  U <> "" ->
  UnmarshalMessage d = Some msg ->
  queue_is U st (d :: rest) ->
  exists st',
    Server.getMessageHandler UnmarshalMessage (messagesRequest U) st =
      (messageResponse msg (Z.of_nat (length rest)), st') /\
    queue_is U st' rest.
Proof.
  intros HU Hd Hq.
  unfold Server.getMessageHandler, messagesRequest.
  cbn [http.Method http.Path http.Body].
  change (String.eqb "GET" http.MethodGet) with true. cbn [negb].
  rewrite TrimPrefix_app, (eqb_empty_false U HU).
  unfold redis.LPop. rewrite Hq.
  destruct rest as [|d' rest].
  - unfold redis.LLen. rewrite lookup_delete_eq. cbn [fst]. rewrite Hd.
    eexists. split; [reflexivity|].
    unfold queue_is, Server.with_rdb. cbn [Server.rdb].
    apply lookup_delete_eq.
  - unfold redis.LLen. rewrite lookup_insert_eq. cbn [fst]. rewrite Hd.
    eexists. split; [reflexivity|].
    unfold queue_is, Server.with_rdb. cbn [Server.rdb].
    apply lookup_insert_eq.
Qed.

(** Dequeue on an empty queue: the answer is [404], and nothing
    changes. *)
Lemma getMessageHandler_empty U st :
  U <> "" ->
  queue_is U st [] ->
  Server.getMessageHandler UnmarshalMessage (messagesRequest U) st =
    (emptyResponse U, st).
Proof.
  intros HU Hq.
  unfold Server.getMessageHandler, messagesRequest.
  cbn [http.Method http.Path http.Body].
  change (String.eqb "GET" http.MethodGet) with true. cbn [negb].
  rewrite TrimPrefix_app, (eqb_empty_false U HU).
  unfold redis.LPop. rewrite Hq.
  unfold emptyResponse, Server.with_rdb. destruct st; reflexivity.
Qed.

(** C6.  For every user [U], on an empty queue: after the envelopes
    [E1], [E2], [E3] were enqueued in this order, three dequeues return
    [E1], [E2], [E3] in this order, each one removed from the queue when
    it is returned, and a fourth dequeue answers that the queue is empty
    (status 404, not the status 500 of an error of the store). *)
Theorem mailbox_fifo (U : string) (E1 E2 E3 : x3dh.InitialMessage)
    (st : Server.state) :
  U <> "" ->
  Server.rdb st !! ("messages:" ++ U) = None ->
  UnmarshalMessage (MarshalMessage E1) = Some E1 ->
  UnmarshalMessage (MarshalMessage E2) = Some E2 ->
  UnmarshalMessage (MarshalMessage E3) = Some E3 ->
  let enqueue E :=
    Server.sendMessageHandler MarshalMessage UnmarshalMessage
      (sendRequest U (MarshalMessage E)) in
  let dequeue :=
    Server.getMessageHandler UnmarshalMessage (messagesRequest U) in
  exists st1 st2 st3 st4 st5 st6,
    enqueue E1 st = (okResponse, st1) /\
    enqueue E2 st1 = (okResponse, st2) /\
    enqueue E3 st2 = (okResponse, st3) /\
    pending U st3 = [MarshalMessage E1; MarshalMessage E2; MarshalMessage E3] /\
    dequeue st3 = (messageResponse E1 2, st4) /\
    pending U st4 = [MarshalMessage E2; MarshalMessage E3] /\
    dequeue st4 = (messageResponse E2 1, st5) /\
    pending U st5 = [MarshalMessage E3] /\
    dequeue st5 = (messageResponse E3 0, st6) /\
    pending U st6 = [] /\
    dequeue st6 = (emptyResponse U, st6).
Proof.
  intros HU H0 R1 R2 R3 enqueue dequeue.
  assert (Q0 : queue_is U st []) by exact H0.
  destruct (sendMessageHandler_spec U E1 st [] HU R1 Q0) as (st1 & S1 & Q1).
  destruct (sendMessageHandler_spec U E2 st1 _ HU R2 Q1) as (st2 & S2 & Q2).
  destruct (sendMessageHandler_spec U E3 st2 _ HU R3 Q2) as (st3 & S3 & Q3).
  cbn [app] in Q1, Q2, Q3.
  destruct (getMessageHandler_spec U st3 _ _ E1 HU R1 Q3) as (st4 & G1 & Q4).
  destruct (getMessageHandler_spec U st4 _ _ E2 HU R2 Q4) as (st5 & G2 & Q5).
  destruct (getMessageHandler_spec U st5 _ _ E3 HU R3 Q5) as (st6 & G3 & Q6).
  exists st1, st2, st3, st4, st5, st6.
  repeat split; try assumption;
    try (apply pending_queue_is; assumption).
  apply getMessageHandler_empty; assumption.
Qed.

End Mailbox.

Lemma mailbox_fifo_witness :
  let enqueue E :=
    Server.sendMessageHandler plainjson.MarshalMessage
      plainjson.UnmarshalMessage
      (sendRequest "bob" (plainjson.MarshalMessage E)) in
  let dequeue :=
    Server.getMessageHandler plainjson.UnmarshalMessage
      (messagesRequest "bob") in
  exists st1 st2 st3 st4 st5 st6,
    enqueue (envelope "01") freshState = (okResponse, st1) /\
    enqueue (envelope "02") st1 = (okResponse, st2) /\
    enqueue (envelope "03") st2 = (okResponse, st3) /\
    pending "bob" st3 =
      [plainjson.MarshalMessage (envelope "01");
       plainjson.MarshalMessage (envelope "02");
       plainjson.MarshalMessage (envelope "03")] /\
    dequeue st3 = (messageResponse (envelope "01") 2, st4) /\
    pending "bob" st4 =
      [plainjson.MarshalMessage (envelope "02");
       plainjson.MarshalMessage (envelope "03")] /\
    dequeue st4 = (messageResponse (envelope "02") 1, st5) /\
    pending "bob" st5 = [plainjson.MarshalMessage (envelope "03")] /\
    dequeue st5 = (messageResponse (envelope "03") 0, st6) /\
    pending "bob" st6 = [] /\
    dequeue st6 = (emptyResponse "bob", st6).
Proof.
  apply (mailbox_fifo plainjson.MarshalMessage plainjson.UnmarshalMessage
           "bob" (envelope "01") (envelope "02") (envelope "03") freshState).
  - discriminate.
  - reflexivity.
  - reflexivity.
  - reflexivity.
  - reflexivity.
Defined.

(* ===================================================================== *)
(** * cmd/alice: the signature check comes first *)
(* ===================================================================== *)

Section Initiator.

Variable ed25519_verify : list byte -> list byte -> list byte -> bool.

(** Up to the signature check [main] has only asked for the bundle. *)
Lemma main_unverified alicePriv alicePub env :
  ~ verified ed25519_verify env ->
  fst (Alice.main ed25519_verify alicePriv alicePub env) =
  [HttpGet (serverURL ++ "/bundle/bob")].
Proof.
  intros Hnv. unfold Alice.main. rewrite bind_emit. cbn [fst].
  f_equal.
  destruct (Alice.bundleResponse env) as [resp err] eqn:Hresp.
  destruct err as [err|]; [reflexivity|].
  rewrite bind_check_None.
  destruct (http.StatusCode resp =? http.StatusOK) eqn:Hst; [|reflexivity].
  cbn [negb].
  destruct (http.Payload resp) as [| | bundle | |] eqn:Hpay;
    try reflexivity.
  rewrite bind_mret.
  destruct (Alice.decode32 (x3dh.SPK bundle)) as [spkBytes| |] eqn:Hspk;
    try reflexivity.
  rewrite bind_lift_Return.
  destruct (ed25519.Verify ed25519_verify _ spkBytes _) as [ok| |] eqn:Hv;
    try reflexivity.
  rewrite bind_lift_Return.
  destruct ok; [|reflexivity].
  exfalso. apply Hnv. exists resp, bundle, spkBytes.
  apply Z.eqb_eq in Hst. auto.
Qed.

(** C7.  If the signature of the bundle does not verify over the bytes
    of the signed prekey under the bundle's verify key, [main] stops with
    the signature verification error, and it has performed no key
    generation, no Diffie-Hellman computation, no key derivation, no
    encryption and no send: the request for the bundle is all it did. *)
Theorem signature_failure_aborts alicePriv alicePub env resp bundle spkBytes :
  Alice.bundleResponse env = (resp, None) ->
  http.StatusCode resp = http.StatusOK ->
  http.Payload resp = http.JSONBundle bundle ->
  Alice.decode32 (x3dh.SPK bundle) = Return spkBytes ->
  ed25519.Verify ed25519_verify (fst (hex.DecodeString (x3dh.Ed25519 bundle)))
    spkBytes (fst (hex.DecodeString (x3dh.Sig bundle))) = Return false ->
  Alice.main ed25519_verify alicePriv alicePub env =
    ([HttpGet (serverURL ++ "/bundle/bob")],
     Fatal "SPK signature verification failed!" None) /\
  forallb (fun e => negb (protocol_step e))
    (fst (Alice.main ed25519_verify alicePriv alicePub env)) = true.
Proof.
  intros Hresp Hst Hpay Hspk Hv.
  assert (Hmain : Alice.main ed25519_verify alicePriv alicePub env =
                  ([HttpGet (serverURL ++ "/bundle/bob")],
                   Fatal "SPK signature verification failed!" None)).
  { unfold Alice.main. rewrite bind_emit, Hresp, bind_check_None.
    rewrite Hst, Hpay. change (http.StatusOK =? http.StatusOK) with true.
    cbn [negb]. rewrite bind_mret, Hspk, bind_lift_Return, Hv,
      bind_lift_Return. reflexivity. }
  rewrite Hmain. split; reflexivity.
Qed.

End Initiator.

(** X22.  Whatever the answer to the bundle request is: a run of [main] in
    which the signature was not verified contains no protocol step. *)
Lemma unverified_no_protocol_step verify alicePriv alicePub env :
  ~ verified verify env ->
  forallb (fun e => negb (protocol_step e))
    (fst (Alice.main verify alicePriv alicePub env)) = true.
Proof.
  intros Hnv. rewrite (main_unverified verify _ _ _ Hnv). reflexivity.
Qed.

Lemma signature_failure_aborts_witness :
  Alice.main reject_all (Some {| ecdh.privateKey := rfc_alice |})
    (ecdh.x25519ScalarMult rfc_alice ecdh.x25519Basepoint) unsigned_env =
    ([HttpGet (serverURL ++ "/bundle/bob")],
     Fatal "SPK signature verification failed!" None) /\
  forallb (fun e => negb (protocol_step e))
    (fst (Alice.main reject_all (Some {| ecdh.privateKey := rfc_alice |})
            (ecdh.x25519ScalarMult rfc_alice ecdh.x25519Basepoint)
            unsigned_env)) = true.
Proof.
  apply (signature_failure_aborts reject_all _ _ unsigned_env
           unsigned_response unsigned_bundle test_key2).
  - reflexivity.
  - reflexivity.
  - reflexivity.
  - apply (Alice_decode32_encode32 test_key2). reflexivity.
  - unfold unsigned_bundle, x3dh.encode32. cbn [x3dh.Ed25519 x3dh.Sig].
    rewrite !DecodeString_EncodeToString. reflexivity.
Defined.

(* ===================================================================== *)
(** * decode32: the three copies *)
(* ===================================================================== *)

(** [x3dh.decode32] returns a value only for the encoding of exactly 32
    bytes. *)
Lemma x3dh_decode32_ok (s : string) (out : list byte) :
  x3dh.decode32 s = (out, None) ->
  hex.DecodeString s = (out, None) /\ length out = 32%nat.
Proof.
  unfold x3dh.decode32.
  destruct (hex.DecodeString s) as [raw [err|]]; [discriminate|].
  destruct (length raw =? 32)%nat eqn:E; cbn [negb]; [|discriminate].
  apply Nat.eqb_eq in E. intros H. injection H as <-.
  rewrite copy_into_exact by exact E. auto.
Qed.

Lemma x3dh_decode32_wrong_length (s : string) (raw : list byte) :
  hex.DecodeString s = (raw, None) -> length raw <> 32%nat ->
  x3dh.decode32 s = (zeros 32, Some (ErrExpected32 (length raw))).
Proof.
  intros H Hlen. unfold x3dh.decode32. rewrite H.
  apply Nat.eqb_neq in Hlen. rewrite Hlen. reflexivity.
Qed.

Lemma x3dh_decode32_invalid (s : string) (raw : list byte) (err : error) :
  hex.DecodeString s = (raw, Some err) ->
  x3dh.decode32 s = (zeros 32, Some (ErrDecodeHex err)).
Proof. intros H. unfold x3dh.decode32. rewrite H. reflexivity. Qed.

(** The tests of the package on [decode32], [ValidatePublicKey] and
    [GetKeyFingerprint]. *)
Example decode32_tests :
  snd (x3dh.decode32 "nothex!!") <> None /\
  snd (x3dh.decode32 "0102") = Some (ErrExpected32 2) /\
  snd (x3dh.decode32
         "0102030405060708090a0b0c0d0e0f101112131415161718191a1b1c1d1e1f2021")
    = Some (ErrExpected32 33) /\
  x3dh.ValidatePublicKey
    "0102030405060708090a0b0c0d0e0f101112131415161718191a1b1c1d1e1f20" = None /\
  x3dh.ValidatePublicKey "invalid" <> None /\
  x3dh.ValidatePublicKey "0102030405060708090a0b0c0d0e0f10" <> None /\
  x3dh.GetKeyFingerprint test_key = "01020304".
Proof. vm_compute. repeat split; discriminate. Qed.

Lemma isZero_test_key_public :
  ecdh.isZero (ecdh.x25519ScalarMult test_key ecdh.x25519Basepoint) = false.
Proof. rewrite x25519ScalarMult_fast. vm_compute. reflexivity. Qed.

(** C8, on the code.  The [decode32] of [cmd/alice] and [cmd/bob] does
    not check the length: the one byte [09] is accepted and becomes the
    32 bytes of the base point, where [x3dh.decode32] reports an error;
    the initiator then runs all four exchanges and derives a key, the
    fourth exchange being with the base point. *)
Theorem decode32_accepts_short_key :
  x3dh.decode32 "09" = (zeros 32, Some (ErrExpected32 1)) /\
  Alice.decode32 "09" = Return ecdh.x25519Basepoint /\
  Bob.decode32 "09" = Return ecdh.x25519Basepoint /\
  exists DH1 DH2 DH3 t,
    Alice.deriveMaster (Some {| ecdh.privateKey := rfc_alice |})
      (Some {| ecdh.privateKey := test_key |}) short_key_bundle =
    (t, Return (x3dh.KDF
                  [DH1; DH2; DH3;
                   ecdh.x25519ScalarMult test_key ecdh.x25519Basepoint])) /\
    In (CallDH ecdh.x25519Basepoint) t.
Proof.
  split; [reflexivity|]. split; [reflexivity|]. split; [reflexivity|].
  pose proof test_keys_agree as laws.
  set (R := fun k => In k test_keys) in laws.
  assert (Ra : R rfc_alice) by (left; reflexivity).
  assert (Rb : R rfc_bob) by (right; left; reflexivity).
  assert (R1 : R rfc_scalar1) by (do 2 right; left; reflexivity).
  assert (Re : R test_key) by (do 4 right; left; reflexivity).
  do 4 eexists. split.
  - apply Alice_deriveMaster_ok with
      (ikb := ecdh.x25519ScalarMult rfc_bob ecdh.x25519Basepoint)
      (spkb := ecdh.x25519ScalarMult rfc_scalar1 ecdh.x25519Basepoint)
      (otkb := ecdh.x25519Basepoint).
    + apply Alice_decode32_encode32, length_x25519ScalarMult.
    + apply Alice_decode32_encode32, length_x25519ScalarMult.
    + reflexivity.
    + apply (DH_generated R laws {| ecdh.privateKey := rfc_alice |}
               {| ecdh.privateKey := rfc_scalar1 |}); assumption.
    + apply (DH_generated R laws {| ecdh.privateKey := test_key |}
               {| ecdh.privateKey := rfc_bob |}); assumption.
    + apply (DH_generated R laws {| ecdh.privateKey := test_key |}
               {| ecdh.privateKey := rfc_scalar1 |}); assumption.
    + rewrite DH_Some by reflexivity. cbn [ecdh.privateKey].
      rewrite isZero_test_key_public. reflexivity.
  - do 3 right. left. reflexivity.
Qed.

(* ===================================================================== *)
(** * The first message, end to end *)
(* ===================================================================== *)

Lemma length_bytes_of_string (s : string) :
  length (bytes_of_string s) = String.length s.
Proof.
  unfold bytes_of_string, list_byte_of_string. rewrite length_map.
  induction s as [|c s IH]; [reflexivity|].
  cbn [list_ascii_of_string length String.length]. rewrite IH. reflexivity.
Qed.

Lemma New_ok (k : list byte) :
  length k = 32%nat ->
  chacha20poly1305.New k = (Some {| chacha20poly1305.key := k |}, None).
Proof.
  intros H. unfold chacha20poly1305.New, chacha20poly1305.KeySize.
  rewrite H. reflexivity.
Qed.

Lemma length_KDF (parts : list (list byte)) : length (x3dh.KDF parts) = 32%nat.
Proof. rewrite KDF_Sum256. apply length_Sum256. Qed.

Lemma Seal_ok c nonce plaintext aad :
  length nonce = 12%nat ->
  Z.of_nat (length plaintext) <= 2 ^ 38 - 64 ->
  chacha20poly1305.Seal c nonce plaintext aad =
  Return (chacha20poly1305.sealGeneric c nonce plaintext aad).
Proof.
  intros Hn Hlen. unfold chacha20poly1305.Seal, chacha20poly1305.NonceSize.
  rewrite Hn. cbn [Nat.eqb negb].
  destruct (2 ^ 38 - 64 <? Z.of_nat (length plaintext)) eqn:E;
    [apply Z.ltb_lt in E; lia | reflexivity].
Qed.

Lemma Open_sealed c nonce plaintext aad :
  length nonce = 12%nat ->
  Z.of_nat (length plaintext) <= 2 ^ 38 - 64 ->
  chacha20poly1305.Open c nonce
    (chacha20poly1305.sealGeneric c nonce plaintext aad) aad =
  Return (plaintext, None).
Proof.
  intros Hn Hlen. unfold chacha20poly1305.Open, chacha20poly1305.NonceSize.
  rewrite Hn. cbn [Nat.eqb negb]. rewrite length_sealGeneric.
  destruct (length plaintext + 16 <? 16)%nat eqn:E2;
    [apply Nat.ltb_lt in E2; lia|].
  destruct (2 ^ 38 - 48 <? Z.of_nat (length plaintext + 16)) eqn:E3;
    [apply Z.ltb_lt in E3; lia|].
  rewrite openGeneric_sealGeneric. reflexivity.
Qed.

(** Step 7 of [cmd/alice]. *)
Lemma Alice_encrypt_ok (master nonceRand plaintext : list byte) :
  length master = 32%nat ->
  Z.of_nat (length plaintext) <= 2 ^ 38 - 64 ->
  Alice.encrypt master nonceRand plaintext =
  ([CallSeal (copy_into 12 nonceRand) plaintext],
   Return (copy_into 12 nonceRand,
           chacha20poly1305.sealGeneric {| chacha20poly1305.key := master |}
             (copy_into 12 nonceRand) plaintext [])).
Proof.
  intros Hm Hlen. unfold Alice.encrypt. rewrite (New_ok _ Hm).
  unfold chacha20poly1305.NonceSize.
  rewrite bind_emit, Seal_ok by (try apply length_copy_into; exact Hlen).
  rewrite bind_lift_Return. reflexivity.
Qed.

(** Step 5 of [cmd/bob], on what step 7 and 8 of [cmd/alice] sent. *)
Lemma Bob_decrypt_ok (master nonce plaintext : list byte)
    (msg : x3dh.InitialMessage) :
  length master = 32%nat ->
  length nonce = 12%nat ->
  Z.of_nat (length plaintext) <= 2 ^ 38 - 64 ->
  x3dh.Nonce msg = hex.EncodeToString nonce ->
  x3dh.Ciphertext msg =
    hex.EncodeToString
      (chacha20poly1305.sealGeneric {| chacha20poly1305.key := master |}
         nonce plaintext []) ->
  Bob.decrypt master msg =
  ([CallOpen nonce
      (chacha20poly1305.sealGeneric {| chacha20poly1305.key := master |}
         nonce plaintext [])],
   Return plaintext).
Proof.
  intros Hm Hn Hlen HN HC. unfold Bob.decrypt. rewrite (New_ok _ Hm).
  rewrite HN, HC, !DecodeString_EncodeToString. cbn [fst].
  rewrite bind_emit, Open_sealed by assumption.
  rewrite bind_lift_Return. cbn [snd fst].
  rewrite bind_check_None. reflexivity.
Qed.

Section FirstMessage.

Variable R : list byte -> Prop.
Hypothesis laws : x25519_agrees R.
Variable ed25519_verify : list byte -> list byte -> list byte -> bool.

(** The scenario of the specification: the responder has published a
    bundle of generated keys whose signature verifies, the initiator
    runs [main] on it with a message, and the responder runs
    [checkMessages] on what the initiator posted: both runs end well,
    and the responder logs the message. *)
Lemma first_message_delivered
    (randIKa randIKb randSPKb randOTKb : list byte)
    IKaPriv IKaPub IKbPriv IKbPub SPKbPriv SPKbPub OTKbPriv OTKbPub
    (edPriv : list byte) (bundle : x3dh.Bundle) (envA : Alice.Env) :
  x3dh.GenKeyPair randIKa = (Some IKaPriv, IKaPub, None) ->
  x3dh.GenKeyPair randIKb = (Some IKbPriv, IKbPub, None) ->
  x3dh.GenKeyPair randSPKb = (Some SPKbPriv, SPKbPub, None) ->
  x3dh.GenKeyPair randOTKb = (Some OTKbPriv, OTKbPub, None) ->
  length (Alice.ephemeralRand envA) = 32%nat ->
  R (ecdh.privateKey IKaPriv) -> R (Alice.ephemeralRand envA) ->
  R (ecdh.privateKey IKbPriv) -> R (ecdh.privateKey SPKbPriv) ->
  R (ecdh.privateKey OTKbPriv) ->
  x3dh.IK bundle = Bob.encode32 IKbPub ->
  x3dh.SPK bundle = Bob.encode32 SPKbPub ->
  x3dh.OTK bundle = Bob.encode32 OTKbPub ->
  ed25519.Verify ed25519_verify
    (fst (hex.DecodeString (x3dh.Ed25519 bundle))) SPKbPub
    (fst (hex.DecodeString (x3dh.Sig bundle))) = Return true ->
  Alice.bundleResponse envA =
    ({| http.StatusCode := http.StatusOK;
        http.Payload := http.JSONBundle bundle |}, None) ->
  Alice.sendResponse envA = (okResponse, None) ->
  Z.of_nat (String.length (Alice.input envA)) <= 2 ^ 38 - 64 ->
  exists msg ta tb,
    Alice.main ed25519_verify (Some IKaPriv) IKaPub envA = (ta, Return tt) /\
    In (HttpPostMessage (serverURL ++ "/send/bob") msg) ta /\
    Bob.checkMessages
      {| Bob.chkKeyFile :=
           Bob.Contents
             (Some {| Bob.IKbPriv := ecdh.privateKey IKbPriv;
                      Bob.SPKbPriv := ecdh.privateKey SPKbPriv;
                      Bob.EdPriv := edPriv;
                      Bob.OTKbPriv := ecdh.privateKey OTKbPriv |});
         Bob.messagesResponse := (messageResponse msg 0, None) |} =
      (tb, Return tt) /\
    In (Log "Decrypted message from Alice:" (Some (Alice.input envA))) tb.
Proof.
  intros GIKa GIKb GSPKb GOTKb Hek RIKa REKa RIKb RSPKb ROTKb
    HIK HSPK HOTK Hver Hresp Hsend Hin.
  pose proof (GenKeyPair_exact _ Hek) as GEKa.
  set (EKaPriv := {| ecdh.privateKey := Alice.ephemeralRand envA |}) in *.
  set (EKaPub := ecdh.x25519ScalarMult (Alice.ephemeralRand envA)
                   ecdh.x25519Basepoint) in *.
  assert (L : forall rand priv pub,
            x3dh.GenKeyPair rand = (Some priv, pub, None) ->
            length pub = 32%nat).
  { intros rand priv pub G. apply GenKeyPair_Some in G as (_ & _ & ->).
    apply length_x25519ScalarMult. }
  assert (P : forall rand priv pub,
            x3dh.GenKeyPair rand = (Some priv, pub, None) ->
            ecdh.NewPrivateKey (ecdh.privateKey priv) = (Some priv, None)).
  { intros rand priv pub G. apply GenKeyPair_Some in G as (Hl & Hp & _).
    unfold ecdh.NewPrivateKey, ecdh.x25519PrivateKeySize.
    rewrite Hp, length_firstn, Nat.min_l by exact Hl.
    cbn [Nat.eqb negb]. rewrite <- Hp. destruct priv; reflexivity. }
  destruct (DH_generated_pair R laws _ _ _ _ _ _ GIKa GSPKb RIKa RSPKb)
    as (DH1 & A1 & B1).
  destruct (DH_generated_pair R laws _ _ _ _ _ _ GEKa GIKb REKa RIKb)
    as (DH2 & A2 & B2).
  destruct (DH_generated_pair R laws _ _ _ _ _ _ GEKa GSPKb REKa RSPKb)
    as (DH3 & A3 & B3).
  destruct (DH_generated_pair R laws _ _ _ _ _ _ GEKa GOTKb REKa ROTKb)
    as (DH4 & A4 & B4).
  set (master := x3dh.KDF [DH1; DH2; DH3; DH4]).
  set (plaintext := bytes_of_string (Alice.input envA)).
  assert (Hpt : Z.of_nat (length plaintext) <= 2 ^ 38 - 64).
  { unfold plaintext. rewrite length_bytes_of_string. exact Hin. }
  set (nonce := copy_into 12 (Alice.nonceRand envA)).
  set (sealed := chacha20poly1305.sealGeneric
                   {| chacha20poly1305.key := master |} nonce plaintext []).
  set (msg := {| x3dh.AliceIK := Alice.encode32 IKaPub;
                 x3dh.AliceEKa := Alice.encode32 EKaPub;
                 x3dh.Nonce := hex.EncodeToString nonce;
                 x3dh.Ciphertext := hex.EncodeToString sealed;
                 x3dh.Sender := "alice" |}).
  assert (HA : Alice.deriveMaster (Some IKaPriv) (Some EKaPriv) bundle =
               ([CallDH SPKbPub; CallDH IKbPub; CallDH SPKbPub; CallDH OTKbPub;
                 CallKDF [DH1; DH2; DH3; DH4];
                 Log "Session key derived " (Some (hex.EncodeToString master))],
                Return master)).
  { apply Alice_deriveMaster_ok; try assumption.
    - rewrite HIK. apply Alice_decode32_encode32. eapply L; eassumption.
    - rewrite HSPK. apply Alice_decode32_encode32. eapply L; eassumption.
    - rewrite HOTK. apply Alice_decode32_encode32. eapply L; eassumption. }
  assert (HB : Bob.deriveMaster (Some IKbPriv) (Some SPKbPriv) (Some OTKbPriv) msg =
               ([CallDH IKaPub; CallDH EKaPub; CallDH EKaPub; CallDH EKaPub;
                 CallKDF [DH1; DH2; DH3; DH4];
                 Log "Session key derived " (Some (hex.EncodeToString master))],
                Return master)).
  { apply Bob_deriveMaster_ok; try assumption.
    - apply Bob_decode32_encode32. eapply L; eassumption.
    - apply Bob_decode32_encode32. apply length_x25519ScalarMult. }
  exists msg. do 2 eexists. split; [|split; [|split]].
  - unfold Alice.main.
    rewrite bind_emit, Hresp, bind_check_None.
    cbn [http.StatusCode http.Payload].
    change (http.StatusOK =? http.StatusOK) with true. cbn [negb].
    rewrite bind_mret.
    rewrite HSPK, Alice_decode32_encode32 by (eapply L; eassumption).
    rewrite bind_lift_Return.
    rewrite Hver, bind_lift_Return. cbn [negb].
    rewrite bind_mret, bind_emit, GEKa, bind_check_None.
    rewrite HA, bind_Return, bind_emit.
    fold plaintext.
    rewrite Alice_encrypt_ok by (try apply length_KDF; exact Hpt).
    rewrite bind_Return, bind_emit. cbn [fst snd].
    rewrite Hsend, bind_check_None.
    change (http.StatusCode okResponse =? http.StatusOK) with true.
    cbn [negb]. rewrite bind_mret. cbn [fst snd app emit].
    reflexivity.
  - cbn [In app]. do 10 right. left. reflexivity.
  - unfold Bob.checkMessages. cbn [Bob.chkKeyFile Bob.messagesResponse].
    rewrite bind_mret.
    cbn [Bob.IKbPriv Bob.SPKbPriv Bob.OTKbPriv].
    rewrite (P _ _ _ GIKb), (P _ _ _ GSPKb), (P _ _ _ GOTKb).
    cbn [fst].
    rewrite bind_emit, bind_check_None.
    change (http.StatusCode (messageResponse msg 0) =? http.StatusNotFound)
      with false.
    change (http.StatusCode (messageResponse msg 0) =? http.StatusOK)
      with true.
    cbn [negb]. rewrite bind_mret.
    cbn [http.Payload messageResponse]. rewrite bind_mret. cbn [fst snd].
    rewrite bind_emit, HB, bind_Return.
    rewrite (Bob_decrypt_ok master nonce plaintext msg)
      by (try apply length_KDF; try apply length_copy_into;
          try exact Hpt; reflexivity).
    rewrite bind_Return, bind_emit.
    change (0 <? 0) with false. cbn [fst snd app].
    reflexivity.
  - unfold plaintext, string_of_bytes, bytes_of_string.
    rewrite string_of_list_byte_of_string.
    cbn [In app]. do 9 right. left. reflexivity.
Qed.

End FirstMessage.

(* ===================================================================== *)
(** * cmd/bob: the bundle that [register] publishes *)
(* ===================================================================== *)

Section Publisher.

Variable ed25519_NewKeyFromSeed : list byte -> list byte.
Variable ed25519_Sign : list byte -> list byte -> list byte.

Lemma Bob_genKeyPair_ok (format : string) (rand : list byte) :
  (32 <= length rand)%nat ->
  Bob.genKeyPair format rand =
  ([CallGenKeyPair],
   Return (Some {| ecdh.privateKey := firstn 32 rand |},
           ecdh.x25519ScalarMult (firstn 32 rand) ecdh.x25519Basepoint)).
Proof.
  intros H. unfold Bob.genKeyPair.
  rewrite bind_emit, (GenKeyPair_ok _ H), bind_check_None. reflexivity.
Qed.

(** X14.  On first use, with enough random bytes and a server that
    accepts: [register] stores the four private keys and posts the
    bundle of the three public keys, the verify key and the signature of
    the signed prekey. *)
Lemma register_publishes (env : Bob.RegisterEnv) :
  Bob.regKeyFile env = Bob.NotExist ->
  (32 <= length (Bob.ikRand env))%nat ->
  (32 <= length (Bob.spkRand env))%nat ->
  (32 <= length (Bob.otkRand env))%nat ->
  (32 <= length (Bob.seedRand env))%nat ->
  Bob.registerResponse env = (okResponse, None) ->
  let IKb := firstn 32 (Bob.ikRand env) in
  let SPKb := firstn 32 (Bob.spkRand env) in
  let OTKb := firstn 32 (Bob.otkRand env) in
  let edPriv := ed25519_NewKeyFromSeed (firstn 32 (Bob.seedRand env)) in
  let SPKbPub := ecdh.x25519ScalarMult SPKb ecdh.x25519Basepoint in
  let bundle :=
    {| x3dh.IK := Bob.encode32 (ecdh.x25519ScalarMult IKb ecdh.x25519Basepoint);
       x3dh.SPK := Bob.encode32 SPKbPub;
       x3dh.OTK := Bob.encode32 (ecdh.x25519ScalarMult OTKb ecdh.x25519Basepoint);
       x3dh.Ed25519 := hex.EncodeToString (ed25519.Public edPriv);
       x3dh.Sig := hex.EncodeToString (ed25519_Sign edPriv SPKbPub) |} in
  Bob.register ed25519_NewKeyFromSeed ed25519_Sign env =
  ([Log "Generating keys..." None;
    CallGenKeyPair; CallGenKeyPair; CallGenKeyPair;
    Log "Saving keys..." None;
    WriteFile "bob_private_keys.json" [IKb; SPKb; edPriv; OTKb];
    Log "Registering with server..." None;
    HttpPostBundle (serverURL ++ "/register/bob") bundle;
    Log "Registration successful." None],
   Return tt).
Proof.
  intros Hfile Hik Hspk Hotk Hseed Hresp. cbv zeta.
  unfold Bob.register. rewrite Hfile, bind_emit.
  rewrite !Bob_genKeyPair_ok, !bind_Return by assumption.
  unfold ed25519.SeedSize.
  apply Nat.ltb_ge in Hseed. rewrite Hseed.
  rewrite bind_mret, !bind_emit, Hresp, bind_check_None.
  change (http.StatusCode okResponse =? http.StatusOK) with true.
  cbn [negb]. rewrite bind_mret.
  reflexivity.
Qed.

End Publisher.

(* ===================================================================== *)
(** * encoding/hex: what decodes, and to what *)
(* ===================================================================== *)

(** The digits of the table are the characters that decode, and the
    table gives back the lower-case form of a digit. *)
Lemma hex_digit_decodes (c : ascii) :
  hex_digit c = negb (15 <? hex.reverseHexTable c).
Proof. destruct c as [[] [] [] [] [] [] [] []]; vm_compute; reflexivity. Qed.

Lemma hexdigit_reverseHexTable (c : ascii) :
  (15 <? hex.reverseHexTable c) = false ->
  (0 <=? hex.reverseHexTable c) = true /\
  hex.hexdigit (hex.reverseHexTable c) = lower c.
Proof.
  destruct c as [[] [] [] [] [] [] [] []]; vm_compute; intros H;
    try discriminate H; split; reflexivity.
Qed.

(** The two nibbles of a decoded byte. *)
Lemma nibbles (a b : Z) :
  0 <= a <= 15 -> 0 <= b <= 15 ->
  Z.shiftr (b2z (z2b (Z.lor (Z.shiftl a 4) b))) 4 = a /\
  Z.land (b2z (z2b (Z.lor (Z.shiftl a 4) b))) 15 = b.
Proof.
  intros Ha Hb.
  assert (Ea : a = 0 \/ a = 1 \/ a = 2 \/ a = 3 \/ a = 4 \/ a = 5 \/ a = 6 \/
               a = 7 \/ a = 8 \/ a = 9 \/ a = 10 \/ a = 11 \/ a = 12 \/
               a = 13 \/ a = 14 \/ a = 15) by lia.
  assert (Eb : b = 0 \/ b = 1 \/ b = 2 \/ b = 3 \/ b = 4 \/ b = 5 \/ b = 6 \/
               b = 7 \/ b = 8 \/ b = 9 \/ b = 10 \/ b = 11 \/ b = 12 \/
               b = 13 \/ b = 14 \/ b = 15) by lia.
  clear Ha Hb.
  repeat (destruct Ea as [->|Ea]); try subst a;
    repeat (destruct Eb as [->|Eb]); try subst b;
    split; reflexivity.
Qed.

Lemma DecodeString_pair (p q : ascii) (rest : string) :
  hex.DecodeString (String p (String q rest)) =
  if 15 <? hex.reverseHexTable p then ([], Some (ErrHexInvalidByte p))
  else if 15 <? hex.reverseHexTable q then ([], Some (ErrHexInvalidByte q))
  else
    (z2b (Z.lor (Z.shiftl (hex.reverseHexTable p) 4) (hex.reverseHexTable q))
       :: fst (hex.DecodeString rest),
     snd (hex.DecodeString rest)).
Proof.
  cbn [hex.DecodeString].
  destruct (15 <? hex.reverseHexTable p); [reflexivity|].
  destruct (15 <? hex.reverseHexTable q); [reflexivity|].
  destruct (hex.DecodeString rest); reflexivity.
Qed.

(** Induction on a string, two characters at a time. *)
Lemma string_pair_ind (P : string -> Prop) :
  P "" ->
  (forall c, P (String c "")) ->
  (forall p q s, P s -> P (String p (String q s))) ->
  forall s, P s.
Proof.
  intros H0 H1 H2 s.
  assert (H : P s /\ forall c, P (String c s)).
  { induction s as [|c s [IH IH']]; [auto|].
    split; [apply IH'|]. intros c'. apply H2. exact IH. }
  apply H.
Qed.

(** [DecodeString] reports no error exactly on an even number of
    hexadecimal digits. *)
Lemma DecodeString_no_error (s : string) :
  snd (hex.DecodeString s) = None <->
  Nat.even (String.length s) = true /\ hex_digits s = true.
Proof.
  induction s as [| c | p q s IH] using string_pair_ind.
  - split; [intros _; split; reflexivity | reflexivity].
  - cbn [hex.DecodeString]. split.
    + destruct (15 <? hex.reverseHexTable c); discriminate.
    + intros [H _]. discriminate H.
  - rewrite DecodeString_pair.
    unfold hex_digits in *.
    cbn [list_ascii_of_string forallb String.length Nat.even].
    rewrite !hex_digit_decodes.
    destruct (15 <? hex.reverseHexTable p); cbn [negb andb snd].
    { split; [discriminate | intros [_ H]; discriminate H]. }
    destruct (15 <? hex.reverseHexTable q); cbn [negb andb snd].
    { split; [discriminate | intros [_ H]; discriminate H]. }
    exact IH.
Qed.

(** Two digits for each decoded byte. *)
Lemma DecodeString_length (s : string) :
  snd (hex.DecodeString s) = None ->
  String.length s = (2 * length (fst (hex.DecodeString s)))%nat.
Proof.
  induction s as [| c | p q s IH] using string_pair_ind.
  - reflexivity.
  - cbn [hex.DecodeString].
    destruct (15 <? hex.reverseHexTable c); discriminate.
  - rewrite DecodeString_pair.
    destruct (15 <? hex.reverseHexTable p); [discriminate|].
    destruct (15 <? hex.reverseHexTable q); [discriminate|].
    cbn [fst snd length String.length]. intros H. rewrite (IH H). lia.
Qed.

(** Encoding what was decoded gives the digits back in lower case. *)
Lemma EncodeToString_DecodeString (s : string) :
  snd (hex.DecodeString s) = None ->
  hex.EncodeToString (fst (hex.DecodeString s)) = ToLower s.
Proof.
  induction s as [| c | p q s IH] using string_pair_ind.
  - reflexivity.
  - cbn [hex.DecodeString].
    destruct (15 <? hex.reverseHexTable c); discriminate.
  - rewrite DecodeString_pair.
    destruct (15 <? hex.reverseHexTable p) eqn:Hp; [discriminate|].
    destruct (15 <? hex.reverseHexTable q) eqn:Hq; [discriminate|].
    cbn [fst snd]. intros H.
    destruct (hexdigit_reverseHexTable p Hp) as [Hp0 Hlp].
    destruct (hexdigit_reverseHexTable q Hq) as [Hq0 Hlq].
    apply Z.leb_le in Hp0, Hq0. apply Z.ltb_ge in Hp, Hq.
    destruct (nibbles (hex.reverseHexTable p) (hex.reverseHexTable q))
      as [Hhi Hlo]; [lia | lia |].
    cbn [hex.EncodeToString ToLower].
    rewrite Hhi, Hlo, Hlp, Hlq, (IH H). reflexivity.
Qed.

Lemma length_list_ascii_of_string (s : string) :
  length (list_ascii_of_string s) = String.length s.
Proof.
  induction s as [|c s IH]; [reflexivity|].
  cbn [list_ascii_of_string length String.length]. rewrite IH. reflexivity.
Qed.

(* ===================================================================== *)
(** * internal/x3dh: the format of a public key *)
(* ===================================================================== *)

(** X1.  [ValidatePublicKey] accepts a string exactly when it consists
    of 64 hexadecimal digits, of either case. *)
Theorem ValidatePublicKey_hex64 (hexKey : string) :
  x3dh.ValidatePublicKey hexKey = None <->
  String.length hexKey = 64%nat /\ hex_digits hexKey = true.
Proof.
  unfold x3dh.ValidatePublicKey, x3dh.decode32.
  pose proof (DecodeString_no_error hexKey) as Hok.
  pose proof (DecodeString_length hexKey) as Hlen.
  destruct (hex.DecodeString hexKey) as [raw [err|]]; cbn [fst snd] in *.
  - split; [discriminate|]. intros [H64 Hd].
    assert (He : Nat.even (String.length hexKey) = true)
      by (rewrite H64; reflexivity).
    destruct Hok as [_ Hok]. discriminate (Hok (conj He Hd)).
  - specialize (Hlen eq_refl). destruct Hok as [Hok _].
    destruct (Hok eq_refl) as [_ Hd].
    destruct (length raw =? 32)%nat eqn:E; cbn [negb].
    + apply Nat.eqb_eq in E. split; [|reflexivity].
      intros _. split; [lia | exact Hd].
    + apply Nat.eqb_neq in E. split; [discriminate|].
      intros [H64 _]. lia.
Qed.

(** X2.  Decoding and encoding again puts a key into lower case: what
    [decode32] accepts, [encode32] gives back up to the case of the
    digits. *)
Theorem encode32_decode32 (s : string) (out : list byte) :
  x3dh.decode32 s = (out, None) ->
  x3dh.encode32 out = ToLower s /\ length out = 32%nat.
Proof.
  intros H. apply x3dh_decode32_ok in H as [H Hlen].
  split; [|exact Hlen].
  unfold x3dh.encode32.
  pose proof (EncodeToString_DecodeString s) as E.
  rewrite H in E. apply E. reflexivity.
Qed.

Lemma encode32_decode32_witness :
  x3dh.encode32 test_key =
    ToLower "0102030405060708090A0B0C0D0E0F101112131415161718191A1b1c1d1e1f20" /\
  length test_key = 32%nat.
Proof.
  apply (encode32_decode32
           "0102030405060708090A0B0C0D0E0F101112131415161718191A1b1c1d1e1f20"
           test_key).
  reflexivity.
Defined.

Lemma EncodeToString_firstn (n : nat) (x : list byte) :
  hex.EncodeToString (firstn n x) =
  String.substring 0 (2 * n) (hex.EncodeToString x).
Proof.
  revert x. induction n as [|n IH]; intros x.
  - cbn [firstn hex.EncodeToString Nat.mul].
    destruct (hex.EncodeToString x); reflexivity.
  - destruct x as [|v x]; [reflexivity|].
    cbn [firstn hex.EncodeToString].
    replace (2 * S n)%nat with (S (S (2 * n))) by lia.
    cbn [String.substring]. rewrite IH. reflexivity.
Qed.

(** X3.  The fingerprint of a key is the first eight characters of its
    encoding. *)
Theorem GetKeyFingerprint_prefix (pk : list byte) :
  length pk = 32%nat ->
  x3dh.GetKeyFingerprint pk = String.substring 0 8 (x3dh.encode32 pk) /\
  String.length (x3dh.GetKeyFingerprint pk) = 8%nat.
Proof.
  intros Hlen. unfold x3dh.GetKeyFingerprint, x3dh.encode32. split.
  - apply (EncodeToString_firstn 4).
  - rewrite length_EncodeToString, length_firstn, Hlen. reflexivity.
Qed.

Lemma GetKeyFingerprint_prefix_witness :
  x3dh.GetKeyFingerprint test_key =
    String.substring 0 8 (x3dh.encode32 test_key) /\
  String.length (x3dh.GetKeyFingerprint test_key) = 8%nat.
Proof. apply (GetKeyFingerprint_prefix test_key). reflexivity. Defined.

(* ===================================================================== *)
(** * internal/x3dh: what [DH] returns, and on which public keys *)
(* ===================================================================== *)

(** X4.  [DH] returns a secret exactly when the private key is there,
    the public key has 32 bytes and the scalar multiple is not the zero
    array; the secret is that multiple. *)
Theorem DH_secret (priv : option ecdh.PrivateKey) (pub32 out : list byte) :
  x3dh.DH priv pub32 = (out, None) <->
  exists k,
    priv = Some k /\ length pub32 = 32%nat /\
    out = ecdh.x25519ScalarMult (ecdh.privateKey k) pub32 /\
    ecdh.isZero out = false /\ length out = 32%nat.
Proof.
  split.
  - destruct priv as [k|]; [|discriminate].
    destruct (Nat.eq_dec (length pub32) 32%nat) as [Hlen|Hlen].
    + rewrite DH_Some by exact Hlen.
      destruct (ecdh.isZero _) eqn:Hz; [discriminate|].
      intros H. injection H as <-. exists k.
      split; [reflexivity|]. split; [exact Hlen|]. split; [reflexivity|].
      split; [exact Hz | apply length_x25519ScalarMult].
    + rewrite DH_bad_length by exact Hlen. discriminate.
  - intros (k & -> & Hlen & -> & Hz & _).
    rewrite DH_Some by exact Hlen. rewrite Hz. reflexivity.
Qed.

Lemma le_value_app (l r : list byte) :
  le_value (l ++ r) = le_value l + 256 ^ Z.of_nat (length l) * le_value r.
Proof.
  induction l as [|b l IH].
  - cbn [app le_value length]. change (256 ^ Z.of_nat 0) with 1. lia.
  - cbn [app le_value length]. rewrite IH, Nat2Z.inj_succ, Z.pow_succ_r by lia.
    ring.
Qed.

Lemma lor_128 (b : byte) :
  b2z (z2b (Z.lor (b2z b) 128)) = b2z b \/
  b2z (z2b (Z.lor (b2z b) 128)) = b2z b + 128.
Proof. destruct b; vm_compute; auto. Qed.

(** [SetBytes] does not read the top bit of the last byte. *)
Lemma SetBytes_set_top_bit (pub32 : list byte) :
  length pub32 = 32%nat ->
  ecdh.SetBytes (set_top_bit pub32) = ecdh.SetBytes pub32.
Proof.
  intros Hlen. unfold set_top_bit, ecdh.SetBytes. f_equal.
  rewrite <- (firstn_skipn 31 pub32) at 2.
  rewrite <- (firstn_skipn 31 pub32) at 1.
  assert (Hl : length (firstn 31 pub32) = 31%nat)
    by (rewrite length_firstn; lia).
  assert (Hr : length (skipn 31 pub32) = 1%nat)
    by (rewrite length_skipn; lia).
  destruct (skipn 31 pub32) as [|b [|? ?]]; try discriminate Hr.
  replace (alter _ 31%nat (firstn 31 pub32 ++ [b])%list)
    with (firstn 31 pub32 ++ [z2b (Z.lor (b2z b) 128)])%list.
  2:{ rewrite alter_app_r_alt by (rewrite Hl; apply Nat.le_refl).
      rewrite Hl. reflexivity. }
  rewrite !le_value_app, Hl. cbn [le_value].
  destruct (lor_128 b) as [-> | ->]; [reflexivity|].
  replace (256 ^ Z.of_nat 31 * (b2z b + 128 + 256 * 0))
    with (256 ^ Z.of_nat 31 * (b2z b + 256 * 0) + 1 * 2 ^ 255).
  - rewrite Z.add_assoc, Z_mod_plus_full. reflexivity.
  - change (256 ^ Z.of_nat 31) with (2 ^ 248).
    change (2 ^ 255) with (2 ^ 248 * 128). ring.
Qed.

Lemma length_set_top_bit (pub32 : list byte) :
  length (set_top_bit pub32) = length pub32.
Proof. unfold set_top_bit. apply length_alter. Qed.

(** X5.  Setting the top bit of the last byte of a public key changes
    nothing for [DH]: the two keys give the same secret, or the same
    error, with every private key. *)
Theorem DH_ignores_top_bit (priv : option ecdh.PrivateKey)
    (pub32 : list byte) :
  length pub32 = 32%nat ->
  x3dh.DH priv (set_top_bit pub32) = x3dh.DH priv pub32.
Proof.
  intros Hlen. destruct priv as [k|]; [|reflexivity].
  rewrite !DH_Some by (rewrite ?length_set_top_bit; exact Hlen).
  unfold ecdh.x25519ScalarMult. cbv zeta.
  rewrite (SetBytes_set_top_bit _ Hlen). reflexivity.
Qed.

Lemma DH_ignores_top_bit_witness :
  x3dh.DH (Some {| ecdh.privateKey := rfc_alice |}) (set_top_bit test_key) =
  x3dh.DH (Some {| ecdh.privateKey := rfc_alice |}) test_key.
Proof. apply (DH_ignores_top_bit _ test_key). reflexivity. Defined.

(** The scalar multiple of a point that [SetBytes] reads as zero is the
    zero array. *)
Lemma x25519ScalarMult_reads_zero (scalar point : list byte) :
  ecdh.SetBytes point = 0 ->
  ecdh.x25519ScalarMult scalar point = zeros 32.
Proof.
  intros H0. unfold ecdh.x25519ScalarMult. cbv zeta. rewrite H0.
  set (s0 := ecdh.Build_ladder_state _ _ _ _ _).
  assert (Hd : degenerate s0) by (split; [right|left]; reflexivity).
  destruct (ladder_zero (ecdh.clamp scalar) 255 s0 Hd ltac:(lia)) as [Hz2 Hz3].
  set (sf := ecdh.ladder _ _ _ s0) in *. clearbody sf.
  assert (Hz : ecdh.z2 (ecdh.cswap (ecdh.swap sf) sf) = 0).
  { unfold ecdh.cswap. destruct (ecdh.swap sf =? 1); assumption. }
  rewrite Hz. unfold ecdh.finvert. rewrite fpow_0, fmul_0_r.
  apply Bytes_0.
Qed.

(** X6.  [ValidatePublicKey] checks the format only: every 32-byte
    encoding of the field element zero passes it, and [DH] refuses it as
    a low order point with every private key. *)
Theorem DH_rejects_encodings_of_zero (priv : ecdh.PrivateKey)
    (pub32 : list byte) :
  length pub32 = 32%nat ->
  ecdh.SetBytes pub32 = 0 ->
  x3dh.ValidatePublicKey (x3dh.encode32 pub32) = None /\
  x3dh.DH (Some priv) pub32 =
    (zeros 32, Some (ErrSharedSecret ErrEcdhLowOrder)).
Proof.
  intros Hlen H0. split.
  - unfold x3dh.ValidatePublicKey, x3dh.decode32, x3dh.encode32.
    rewrite DecodeString_EncodeToString, Hlen. reflexivity.
  - rewrite DH_Some by exact Hlen.
    rewrite (x25519ScalarMult_reads_zero _ _ H0). reflexivity.
Qed.

Lemma DH_rejects_encodings_of_zero_witness :
  x3dh.ValidatePublicKey (x3dh.encode32 noncanonical_zero) = None /\
  x3dh.DH (Some {| ecdh.privateKey := rfc_alice |}) noncanonical_zero =
    (zeros 32, Some (ErrSharedSecret ErrEcdhLowOrder)).
Proof.
  apply (DH_rejects_encodings_of_zero _ noncanonical_zero).
  - reflexivity.
  - vm_compute. reflexivity.
Defined.

(* ===================================================================== *)
(** * cmd/server: the handlers against a directory of bundles and queues *)
(* ===================================================================== *)

Lemma append_inj (pre s t : string) :
  (pre ++ s)%string = (pre ++ t)%string -> s = t.
Proof.
  induction pre as [|c pre IH].
  - change ("" ++ s)%string with s. change ("" ++ t)%string with t. auto.
  - rewrite !append_cons. intros H. injection H as H. auto.
Qed.

Lemma bundle_key_ne (U V : string) :
  V <> U -> ("bundle:" ++ V)%string <> ("bundle:" ++ U)%string.
Proof. intros H E. apply H. exact (append_inj _ _ _ E). Qed.

Lemma messages_key_ne (U V : string) :
  V <> U -> ("messages:" ++ V)%string <> ("messages:" ++ U)%string.
Proof. intros H E. apply H. exact (append_inj _ _ _ E). Qed.

(** A bundle and a queue never share a key. *)
Lemma keys_apart (U V : string) :
  ("bundle:" ++ U)%string <> ("messages:" ++ V)%string.
Proof. rewrite !append_cons. discriminate. Qed.

Lemma TrimPrefix_prefix (pre : string) : TrimPrefix pre pre = "".
Proof.
  pose proof (TrimPrefix_app pre "") as H.
  replace (pre ++ "")%string with pre in H; [exact H|].
  clear H. induction pre as [|c pre IH]; [reflexivity|].
  rewrite append_cons, <- IH. reflexivity.
Qed.

Lemma append_empty_r (s : string) : (s ++ "")%string = s.
Proof.
  induction s as [|c s IH]; [reflexivity|].
  rewrite append_cons, IH. reflexivity.
Qed.

Lemma with_rdb_same (st : Server.state) : Server.with_rdb (Server.rdb st) st = st.
Proof. destruct st; reflexivity. Qed.

Section Refinement.

Variable MarshalBundle : x3dh.Bundle -> string.
Variable UnmarshalBundle : string -> option x3dh.Bundle.
Variable MarshalMessage : x3dh.InitialMessage -> string.
Variable UnmarshalMessage : string -> option x3dh.InitialMessage.

Local Abbreviation handle := (handle MarshalBundle UnmarshalBundle MarshalMessage UnmarshalMessage).
Local Abbreviation serve := (serve MarshalBundle UnmarshalBundle MarshalMessage UnmarshalMessage).
Local Abbreviation request_of := (request_of MarshalBundle MarshalMessage).
Local Abbreviation decodable := (decodable MarshalBundle MarshalMessage UnmarshalBundle UnmarshalMessage).
Local Abbreviation represents := (represents MarshalBundle MarshalMessage).
Local Abbreviation readable := (readable MarshalBundle MarshalMessage UnmarshalBundle UnmarshalMessage).

(** The items of a queue whose messages come back from their text. *)
Lemma decodeAll_map (q : list x3dh.InitialMessage) :
  (forall m, In m q -> UnmarshalMessage (MarshalMessage m) = Some m) ->
  Server.decodeAll UnmarshalMessage (map MarshalMessage q) = q.
Proof.
  induction q as [|m q IH]; intros H; [reflexivity|].
  cbn [map Server.decodeAll]. rewrite (H m (or_introl eq_refl)).
  rewrite IH; [reflexivity|]. intros m' Hm'. apply H. right. exact Hm'.
Qed.

(** A call without a user is answered with [400] by every handler. *)
Lemma handle_no_user (c : call) (st : Server.state) :
  user_of c = "" ->
  handle (fst (request_of c)) (snd (request_of c)) st = (noUserResponse, st).
Proof.
  intros HU.
  destruct c as [U b | U | U m | U | U]; cbn [user_of] in HU; subst U;
    cbn [request_of fst snd handle];
    unfold Server.registerHandler, Server.bundleHandler,
      Server.sendMessageHandler, Server.getMessageHandler,
      Server.historyHandler, registerRequest, bundleRequest, sendRequest,
      messagesRequest, historyRequest;
    cbn [http.Method http.Path http.Body];
    rewrite append_empty_r, TrimPrefix_prefix; reflexivity.
Qed.

(** One call: the handler answers as the directory does, and the
    database holds the directory after the call. *)
Lemma handle_answer (c : call) (st : Server.state) (d : directory) :
  decodable c -> represents st d -> readable d ->
  exists st',
    handle (fst (request_of c)) (snd (request_of c)) st =
      (fst (answer c d), st') /\
    represents st' (snd (answer c d)) /\
    readable (snd (answer c d)).
Proof.
  intros Hc Hrep Hread. unfold answer.
  destruct (String.eqb (user_of c) "") eqn:HU.
  { apply String.eqb_eq in HU. exists st. cbn [fst snd].
    split; [apply handle_no_user; exact HU | split; assumption]. }
  apply String.eqb_neq in HU.
  pose proof Hread as [Hrb Hrm].
  destruct c as [U b | U | U m | U | U]; cbn [user_of] in HU;
    cbn [request_of fst snd handle decodable] in *.
  - (* Publish *)
    unfold Server.registerHandler, registerRequest.
    cbn [http.Method http.Path http.Body].
    change (String.eqb "POST" http.MethodPost) with true. cbn [negb].
    rewrite TrimPrefix_app, (eqb_empty_false U HU), Hc.
    unfold Server.RegisterBundle, redis.Set_.
    eexists. split; [reflexivity|]. split; [|split].
    + intros V. unfold queue_is. cbn [Server.rdb set_bundle bundle_of queue_of].
      destruct (Hrep V) as [Hb Hq]. split.
      * destruct (String.eqb V U) eqn:E.
        -- apply String.eqb_eq in E. subst V. apply lookup_insert_eq.
        -- apply String.eqb_neq in E.
           rewrite lookup_insert_ne by (apply not_eq_sym, bundle_key_ne; exact E).
           exact Hb.
      * rewrite lookup_insert_ne by apply keys_apart. exact Hq.
    + intros V b'. cbn [set_bundle bundle_of].
      destruct (String.eqb V U); [|apply Hrb].
      intros H. injection H as <-. exact Hc.
    + exact Hrm.
  - (* Fetch *)
    unfold Server.bundleHandler, bundleRequest.
    cbn [http.Method http.Path http.Body].
    change (String.eqb "GET" http.MethodGet) with true. cbn [negb].
    rewrite TrimPrefix_app, (eqb_empty_false U HU).
    unfold Server.GetBundle, redis.Get.
    destruct (Hrep U) as [Hb _]. rewrite Hb.
    exists st. destruct (bundle_of d U) as [b|] eqn:E; cbn [option_map fst snd].
    + rewrite (Hrb U b E). split; [reflexivity | split; assumption].
    + split; [reflexivity | split; assumption].
  - (* Post *)
    unfold Server.sendMessageHandler, sendRequest.
    cbn [http.Method http.Path http.Body].
    change (String.eqb "POST" http.MethodPost) with true. cbn [negb].
    rewrite TrimPrefix_app, (eqb_empty_false U HU), Hc.
    unfold redis.RPush.
    destruct (Hrep U) as [_ HqU]. unfold queue_is in HqU. rewrite HqU.
    assert (Hstep :
      exists db,
        (match map MarshalMessage (queue_of d U) with
         | [] => @None redis.value
         | _ :: _ => Some (redis.VList (map MarshalMessage (queue_of d U)))
         end = None /\
         db = <[("messages:" ++ U)%string :=
                  redis.VList [MarshalMessage m]]> (Server.rdb st) \/
         match map MarshalMessage (queue_of d U) with
         | [] => @None redis.value
         | _ :: _ => Some (redis.VList (map MarshalMessage (queue_of d U)))
         end = Some (redis.VList (map MarshalMessage (queue_of d U))) /\
         db = <[("messages:" ++ U)%string :=
                  redis.VList (map MarshalMessage (queue_of d U)
                               ++ [MarshalMessage m])]> (Server.rdb st)) /\
        db = <[("messages:" ++ U)%string :=
                 redis.VList (map MarshalMessage (queue_of d U ++ [m]))]>
               (Server.rdb st)).
    { rewrite map_app. cbn [map].
      destruct (map MarshalMessage (queue_of d U)) as [|x l].
      - eexists. split; [left; split; reflexivity | reflexivity].
      - eexists. split; [right; split; reflexivity | reflexivity]. }
    destruct Hstep as (db & Hcase & Hdb).
    exists (Server.with_rdb db st).
    split; [|split; [|split]].
    + destruct Hcase as [[-> ->] | [-> ->]]; reflexivity.
    + intros V. unfold queue_is.
      cbn [Server.with_rdb Server.rdb set_queue bundle_of queue_of].
      destruct (Hrep V) as [Hb Hq]. subst db. split.
      * rewrite lookup_insert_ne by (apply not_eq_sym, keys_apart). exact Hb.
      * destruct (String.eqb V U) eqn:E.
        -- apply String.eqb_eq in E. subst V. rewrite lookup_insert_eq.
           rewrite map_app. cbn [map].
           destruct (map MarshalMessage (queue_of d U)); reflexivity.
        -- apply String.eqb_neq in E.
           rewrite lookup_insert_ne
             by (apply not_eq_sym, messages_key_ne; exact E).
           exact Hq.
    + exact Hrb.
    + intros V m'. cbn [set_queue queue_of].
      destruct (String.eqb V U) eqn:E; [|apply Hrm].
      intros Hin. apply in_app_or in Hin as [Hin | [<- | []]].
      * exact (Hrm U m' Hin).
      * exact Hc.
  - (* Poll *)
    unfold Server.getMessageHandler, messagesRequest.
    cbn [http.Method http.Path http.Body].
    change (String.eqb "GET" http.MethodGet) with true. cbn [negb].
    rewrite TrimPrefix_app, (eqb_empty_false U HU).
    unfold redis.LPop.
    destruct (Hrep U) as [_ HqU]. unfold queue_is in HqU. rewrite HqU.
    destruct (queue_of d U) as [|m rest] eqn:EQ; cbn [map fst snd].
    + exists st. rewrite with_rdb_same.
      split; [reflexivity|]. split; [exact Hrep | split; assumption].
    + assert (Hm : UnmarshalMessage (MarshalMessage m) = Some m).
      { apply (Hrm U). rewrite EQ. left. reflexivity. }
      assert (Hafter : forall db,
                db !! ("messages:" ++ U)%string =
                  match map MarshalMessage rest with
                  | [] => None
                  | _ :: _ => Some (redis.VList (map MarshalMessage rest))
                  end ->
                (forall k, k <> ("messages:" ++ U)%string ->
                           db !! k = Server.rdb st !! k) ->
                fst (redis.LLen ("messages:" ++ U) db) =
                  Z.of_nat (length rest) /\
                represents (Server.with_rdb db st) (set_queue U rest d)).
      { intros db HdbU Hdb. split.
        - unfold redis.LLen. rewrite HdbU.
          destruct rest; cbn [map length fst]; [reflexivity|].
          rewrite length_map. reflexivity.
        - intros V. unfold queue_is.
          cbn [Server.with_rdb Server.rdb set_queue bundle_of queue_of].
          destruct (Hrep V) as [Hb Hq]. split.
          + rewrite Hdb by apply keys_apart. exact Hb.
          + destruct (String.eqb V U) eqn:E.
            * apply String.eqb_eq in E. subst V. exact HdbU.
            * apply String.eqb_neq in E.
              rewrite Hdb by (apply messages_key_ne; exact E). exact Hq. }
      assert (Hread' : readable (set_queue U rest d)).
      { split; [exact Hrb|]. intros V m'. cbn [set_queue queue_of].
        destruct (String.eqb V U) eqn:E; [|apply Hrm].
        intros Hin. apply (Hrm U). rewrite EQ. right. exact Hin. }
      destruct rest as [|m2 rest]; cbn [map].
      * destruct (Hafter (delete ("messages:" ++ U)%string (Server.rdb st)))
          as [Hlen Hrep'].
        { apply lookup_delete_eq. }
        { intros k Hk. apply lookup_delete_ne. apply not_eq_sym. exact Hk. }
        rewrite Hlen, Hm. eexists. split; [reflexivity|]. split; assumption.
      * destruct (Hafter (<[("messages:" ++ U)%string :=
                              redis.VList (MarshalMessage m2
                                           :: map MarshalMessage rest)]>
                            (Server.rdb st)))
          as [Hlen Hrep'].
        { apply lookup_insert_eq. }
        { intros k Hk. apply lookup_insert_ne. apply not_eq_sym. exact Hk. }
        rewrite Hlen, Hm. eexists. split; [reflexivity|]. split; assumption.
  - (* Review *)
    unfold Server.historyHandler, historyRequest.
    cbn [http.Method http.Path http.Body].
    change (String.eqb "GET" http.MethodGet) with true. cbn [negb].
    rewrite TrimPrefix_app, (eqb_empty_false U HU).
    unfold redis.LRange.
    destruct (Hrep U) as [_ HqU]. unfold queue_is in HqU. rewrite HqU.
    exists st. split; [|split; [exact Hrep | split; assumption]].
    pose proof (decodeAll_map (queue_of d U) (Hrm U)) as Hall.
    destruct (queue_of d U) as [|m rest]; cbn [map fst snd] in *.
    + reflexivity.
    + rewrite Hall. reflexivity.
Qed.

Lemma serve_answers (calls : list call) (st : Server.state) (d : directory) :
  Forall decodable calls -> represents st d -> readable d ->
  fst (serve (map request_of calls) st) = answers calls d.
Proof.
  revert st d. induction calls as [|c calls IH]; intros st d Hc Hrep Hread;
    [reflexivity|].
  inversion Hc as [|? ? Hc1 Hc2]; subst.
  destruct (handle_answer c st d Hc1 Hrep Hread) as (st' & Hh & Hrep' & Hread').
  cbn [map serve answers].
  destruct (request_of c) as [e r]. cbn [fst snd] in Hh. rewrite Hh.
  specialize (IH st' _ Hc2 Hrep' Hread').
  destruct (serve (map request_of calls) st') as [resps st''].
  cbn [fst] in *. rewrite IH. reflexivity.
Qed.

(** X7.  On a database without bundles and queues, the handlers answer
    every sequence of calls, of any users and in any order, as the
    directory does: a bundle is what was last published for the user,
    the queue of a user is first in, first out and is not touched by
    calls for other users or by the history, and a call without a user
    is refused. *)
Theorem server_refines_directory (calls : list call) (st : Server.state) :
  Forall decodable calls ->
  (forall U, Server.rdb st !! ("bundle:" ++ U)%string = None /\
             Server.rdb st !! ("messages:" ++ U)%string = None) ->
  fst (serve (map request_of calls) st) = answers calls nobody.
Proof.
  intros Hc H0. apply serve_answers; [exact Hc | |].
  - intros U. destruct (H0 U) as [Hb Hq]. split; [exact Hb | exact Hq].
  - split; [discriminate | intros U m []].
Qed.

End Refinement.

Lemma server_refines_directory_witness :
  fst (serve plainjson.MarshalBundle plainjson.UnmarshalBundle
         plainjson.MarshalMessage plainjson.DecodeMessage
         (map (request_of plainjson.MarshalBundle plainjson.MarshalMessage)
            sample_calls)
         freshState) =
  answers sample_calls nobody.
Proof.
  apply (server_refines_directory plainjson.MarshalBundle
           plainjson.UnmarshalBundle plainjson.MarshalMessage
           plainjson.DecodeMessage sample_calls freshState).
  - unfold sample_calls. repeat constructor.
  - intros U. split; reflexivity.
Defined.

(* ===================================================================== *)
(** * cmd/server: the statistics *)
(* ===================================================================== *)

Section Counters.

Variable MarshalBundle : x3dh.Bundle -> string.
Variable UnmarshalBundle : string -> option x3dh.Bundle.
Variable MarshalMessage : x3dh.InitialMessage -> string.
Variable UnmarshalMessage : string -> option x3dh.InitialMessage.
Variable StartTime : Server.Time.

Local Abbreviation handle' :=
  (handle MarshalBundle UnmarshalBundle MarshalMessage UnmarshalMessage).
Local Abbreviation serve' :=
  (serve MarshalBundle UnmarshalBundle MarshalMessage UnmarshalMessage).

(** One request: only a registration that is answered with [200]
    changes a counter. *)
Lemma handle_counters (e : endpoint) (r : http.Request) (st : Server.state) :
  Server.TotalMessagesReceived (Server.stats (snd (handle' e r st))) =
    Server.TotalMessagesReceived (Server.stats st) /\
  Server.TotalMessagesDelivered (Server.stats (snd (handle' e r st))) =
    Server.TotalMessagesDelivered (Server.stats st) /\
  Server.TotalBundlesRegistered (Server.stats (snd (handle' e r st))) =
    Server.TotalBundlesRegistered (Server.stats st)
    + registrations [(e, r)] [fst (handle' e r st)].
Proof.
  destruct e; cbn [handle registrations].
  - unfold Server.registerHandler.
    destruct (negb (String.eqb (http.Method r) http.MethodPost));
      [cbn; lia|].
    destruct (String.eqb (TrimPrefix (http.Path r) "/register/") "");
      [cbn; lia|].
    destruct (UnmarshalBundle (http.Body r)); [|cbn; lia].
    cbn. lia.
  - unfold Server.bundleHandler.
    destruct (negb (String.eqb (http.Method r) http.MethodGet));
      [cbn; lia|].
    destruct (String.eqb (TrimPrefix (http.Path r) "/bundle/") "");
      [cbn; lia|].
    destruct (Server.GetBundle _ _ _) as [[b|] []]; cbn; lia.
  - unfold Server.sendMessageHandler.
    destruct (negb (String.eqb (http.Method r) http.MethodPost));
      [cbn; lia|].
    destruct (String.eqb (TrimPrefix (http.Path r) "/send/") "");
      [cbn; lia|].
    destruct (UnmarshalMessage (http.Body r)); [|cbn; lia].
    destruct (redis.RPush _ _ _) as [db [err|]]; cbn; lia.
  - unfold Server.getMessageHandler.
    destruct (negb (String.eqb (http.Method r) http.MethodGet));
      [cbn; lia|].
    destruct (String.eqb (TrimPrefix (http.Path r) "/messages/") "");
      [cbn; lia|].
    destruct (redis.LPop _ _) as [[data [err|]] db].
    + destruct err; cbn; lia.
    + destruct (UnmarshalMessage data); cbn; lia.
  - unfold Server.historyHandler.
    destruct (negb (String.eqb (http.Method r) http.MethodGet));
      [cbn; lia|].
    destruct (String.eqb (TrimPrefix (http.Path r) "/history/") "");
      [cbn; lia|].
    destruct (redis.LRange _ _) as [data [err|]]; cbn; lia.
Qed.

Lemma registrations_cons (e : endpoint) (r : http.Request)
    (reqs : list (endpoint * http.Request)) (resp : http.Response)
    (resps : list http.Response) :
  registrations ((e, r) :: reqs) (resp :: resps) =
  registrations [(e, r)] [resp] + registrations reqs resps.
Proof. destruct e; cbn [registrations]; lia. Qed.

Lemma serve_counters (reqs : list (endpoint * http.Request))
    (st : Server.state) :
  Server.TotalMessagesReceived (Server.stats (snd (serve' reqs st))) =
    Server.TotalMessagesReceived (Server.stats st) /\
  Server.TotalMessagesDelivered (Server.stats (snd (serve' reqs st))) =
    Server.TotalMessagesDelivered (Server.stats st) /\
  Server.TotalBundlesRegistered (Server.stats (snd (serve' reqs st))) =
    Server.TotalBundlesRegistered (Server.stats st)
    + registrations reqs (fst (serve' reqs st)).
Proof.
  revert st. induction reqs as [|[e r] reqs IH]; intros st.
  - cbn [serve registrations fst snd]. lia.
  - cbn [serve].
    pose proof (handle_counters e r st) as (H1 & H2 & H3).
    destruct (handle' e r st) as [resp st']. cbn [fst snd] in H1, H2, H3.
    specialize (IH st') as (I1 & I2 & I3).
    destruct (serve' reqs st') as [resps st'']. cbn [fst snd] in *.
    rewrite registrations_cons. lia.
Qed.

(** X8.  Whatever requests the five handlers have served, [/stats]
    reports the counters of received and delivered messages as they were
    before (the handlers of [/send/] and [/messages/] do not count), the
    counter of bundles raised by the number of registrations that were
    answered with [200], and no active bundle and no pending message. *)
Theorem stats_count_registrations_only
    (reqs : list (endpoint * http.Request)) (st : Server.state)
    (now : Server.Time) :
  Server.statsHandler StartTime statsRequest now (snd (serve' reqs st)) =
  Server.Stats
    {| Server.total_bundles_registered :=
         Server.int64
           (Server.TotalBundlesRegistered (Server.stats st)
            + registrations reqs (fst (serve' reqs st)));
       Server.total_messages_received :=
         Server.int64 (Server.TotalMessagesReceived (Server.stats st));
       Server.total_messages_delivered :=
         Server.int64 (Server.TotalMessagesDelivered (Server.stats st));
       Server.active_bundles := 0;
       Server.pending_messages := 0;
       Server.uptime := Server.Since now StartTime;
       Server.start_time := StartTime |}.
Proof.
  destruct (serve_counters reqs st) as (H1 & H2 & H3).
  unfold Server.statsHandler, statsRequest, Server.GetStats.
  cbn [http.Method]. change (String.eqb "GET" http.MethodGet) with true.
  cbn [negb]. rewrite H1, H2, H3. reflexivity.
Qed.

(** X9.  The handlers of [/bundle/] and [/history/] change nothing,
    whatever the request: a bundle that was fetched, its one-time prekey
    included, is still there for the next request, and so are the
    messages that the history returned. *)
Theorem fetch_consumes_nothing (r : http.Request) (st : Server.state) :
  snd (Server.bundleHandler UnmarshalBundle r st) = st /\
  snd (Server.historyHandler UnmarshalMessage r st) = st.
Proof.
  split.
  - unfold Server.bundleHandler.
    destruct (negb (String.eqb (http.Method r) http.MethodGet));
      [reflexivity|].
    destruct (String.eqb (TrimPrefix (http.Path r) "/bundle/") "");
      [reflexivity|].
    destruct (Server.GetBundle _ _ _) as [[b|] []]; reflexivity.
  - unfold Server.historyHandler.
    destruct (negb (String.eqb (http.Method r) http.MethodGet));
      [reflexivity|].
    destruct (String.eqb (TrimPrefix (http.Path r) "/history/") "");
      [reflexivity|].
    destruct (redis.LRange _ _) as [data [err|]]; reflexivity.
Qed.

End Counters.

(** The uptime is the time since the start when the clock has not gone
    back and the difference fits. *)
Lemma Since_elapsed (t u : Server.Time) :
  - 2 ^ 63 <= Server.mono u <= Server.mono t ->
  Server.mono t < 2 ^ 63 ->
  Server.mono t - Server.mono u <= Server.maxDuration ->
  Server.Since t u = Server.mono t - Server.mono u.
Proof.
  intros H1 H2 H3. unfold Server.Since, Server.int64, Server.maxDuration in *.
  cbv zeta.
  rewrite Z.mod_small by lia.
  replace (Server.mono t - Server.mono u + 2 ^ 63 - 2 ^ 63)
    with (Server.mono t - Server.mono u) by lia.
  destruct (Server.mono t - Server.mono u <? 0) eqn:E1;
    [apply Z.ltb_lt in E1; lia|].
  cbn [andb].
  destruct (0 <? Server.mono t - Server.mono u) eqn:E2; [|reflexivity].
  destruct (Server.mono t <? Server.mono u) eqn:E3;
    [apply Z.ltb_lt in E3; lia | reflexivity].
Qed.

(* ===================================================================== *)
(** * cmd/server: a stored item that is not a message *)
(* ===================================================================== *)

Section Damaged.

Variable UnmarshalMessage : string -> option x3dh.InitialMessage.

(** X10.  When the head of a queue does not decode, the history leaves
    it out and says nothing, while a dequeue answers [500] and has
    removed it: the next dequeue returns the item after it. *)
Theorem undecodable_item_is_dropped (U : string) (st : Server.state)
    (d : string) (rest : list string) :
  U <> "" ->
  UnmarshalMessage d = None ->
  queue_is U st (d :: rest) ->
  Server.historyHandler UnmarshalMessage (historyRequest U) st =
    (historyResponse (Server.decodeAll UnmarshalMessage rest), st) /\
  exists st',
    Server.getMessageHandler UnmarshalMessage (messagesRequest U) st =
      (undecodableResponse, st') /\
    queue_is U st' rest.
Proof.
  intros HU Hd Hq. split.
  - unfold Server.historyHandler, historyRequest.
    cbn [http.Method http.Path http.Body].
    change (String.eqb "GET" http.MethodGet) with true. cbn [negb].
    rewrite TrimPrefix_app, (eqb_empty_false U HU).
    unfold redis.LRange. rewrite Hq. cbn [Server.decodeAll].
    rewrite Hd. reflexivity.
  - unfold Server.getMessageHandler, messagesRequest.
    cbn [http.Method http.Path http.Body].
    change (String.eqb "GET" http.MethodGet) with true. cbn [negb].
    rewrite TrimPrefix_app, (eqb_empty_false U HU).
    unfold redis.LPop. rewrite Hq.
    destruct rest as [|d' rest]; rewrite Hd.
    + eexists. split; [reflexivity|].
      unfold queue_is, Server.with_rdb. cbn [Server.rdb].
      apply lookup_delete_eq.
    + eexists. split; [reflexivity|].
      unfold queue_is, Server.with_rdb. cbn [Server.rdb].
      apply lookup_insert_eq.
Qed.

End Damaged.

Lemma undecodable_item_is_dropped_witness :
  Server.historyHandler plainjson.DecodeMessage (historyRequest "bob")
    damaged_state =
    (historyResponse
       (Server.decodeAll plainjson.DecodeMessage
          [plainjson.MarshalMessage (envelope "01")]),
     damaged_state) /\
  exists st',
    Server.getMessageHandler plainjson.DecodeMessage (messagesRequest "bob")
      damaged_state = (undecodableResponse, st') /\
    queue_is "bob" st' [plainjson.MarshalMessage (envelope "01")].
Proof.
  apply (undecodable_item_is_dropped plainjson.DecodeMessage "bob"
           damaged_state "not a message").
  - discriminate.
  - reflexivity.
  - reflexivity.
Defined.

(* ===================================================================== *)
(** * cmd/server: [StoreMessage] and [GetAndDeleteMessage] *)
(* ===================================================================== *)

Section Methods.

Variable MarshalMessage : x3dh.InitialMessage -> string.
Variable UnmarshalMessage : string -> option x3dh.InitialMessage.

(** X11.  The two methods work on the queue of the handlers and do
    count: a message stored for a user with an empty queue is what
    [GetAndDeleteMessage] returns next, with the count [0]; the queue is
    empty again, and each of the two counters has gone up by one. *)
Theorem StoreMessage_GetAndDeleteMessage (U : string)
    (m : x3dh.InitialMessage) (st : Server.state) :
  UnmarshalMessage (MarshalMessage m) = Some m ->
  queue_is U st [] ->
  exists st1 st2,
    Server.StoreMessage MarshalMessage U m st = (None, st1) /\
    pending U st1 = [MarshalMessage m] /\
    Server.GetAndDeleteMessage UnmarshalMessage U st1 = (Some m, 0, true, st2) /\
    queue_is U st2 [] /\
    Server.stats st2 =
      {| Server.TotalBundlesRegistered :=
           Server.TotalBundlesRegistered (Server.stats st);
         Server.TotalMessagesReceived :=
           Server.TotalMessagesReceived (Server.stats st) + 1;
         Server.TotalMessagesDelivered :=
           Server.TotalMessagesDelivered (Server.stats st) + 1 |}.
Proof.
  intros Hrt Hq.
  unfold Server.StoreMessage, redis.RPush. rewrite Hq.
  eexists. eexists. split; [reflexivity|]. split.
  - unfold pending. cbn [Server.rdb]. rewrite lookup_insert_eq. reflexivity.
  - unfold Server.GetAndDeleteMessage, redis.LPop. cbn [Server.rdb].
    rewrite lookup_insert_eq, Hrt. split; [reflexivity|]. split.
    + unfold queue_is. cbn [Server.rdb]. apply lookup_delete_eq.
    + reflexivity.
Qed.

End Methods.

Lemma StoreMessage_GetAndDeleteMessage_witness :
  exists st1 st2,
    Server.StoreMessage plainjson.MarshalMessage "bob" (envelope "01")
      freshState = (None, st1) /\
    pending "bob" st1 = [plainjson.MarshalMessage (envelope "01")] /\
    Server.GetAndDeleteMessage plainjson.UnmarshalMessage "bob" st1 =
      (Some (envelope "01"), 0, true, st2) /\
    queue_is "bob" st2 [] /\
    Server.stats st2 =
      {| Server.TotalBundlesRegistered :=
           Server.TotalBundlesRegistered (Server.stats freshState);
         Server.TotalMessagesReceived :=
           Server.TotalMessagesReceived (Server.stats freshState) + 1;
         Server.TotalMessagesDelivered :=
           Server.TotalMessagesDelivered (Server.stats freshState) + 1 |}.
Proof.
  apply (StoreMessage_GetAndDeleteMessage plainjson.MarshalMessage
           plainjson.UnmarshalMessage "bob" (envelope "01") freshState).
  - reflexivity.
  - reflexivity.
Defined.

(* ===================================================================== *)
(** * The JSON layout of the examples: decoding undoes encoding *)
(* ===================================================================== *)

Lemma append_assoc (a b c : string) :
  ((a ++ b) ++ c)%string = (a ++ (b ++ c))%string.
Proof.
  induction a as [|x a IH]; [reflexivity|].
  rewrite !append_cons, IH. reflexivity.
Qed.

Lemma length_append (a b : string) :
  String.length (a ++ b) = (String.length a + String.length b)%nat.
Proof.
  induction a as [|x a IH]; [reflexivity|].
  rewrite append_cons. cbn [String.length]. rewrite IH. reflexivity.
Qed.

Lemma prefix_app (pre s : string) : String.prefix pre (pre ++ s) = true.
Proof.
  induction pre as [|c pre IH].
  - destruct s; reflexivity.
  - rewrite append_cons. cbn [String.prefix].
    destruct (ascii_dec c c) as [_|N]; [exact IH|congruence].
Qed.

Lemma expect_app (lit s : string) :
  plainjson.expect lit (lit ++ s) = Some s.
Proof.
  unfold plainjson.expect. rewrite prefix_app. f_equal.
  pose proof (TrimPrefix_app lit s) as H. unfold TrimPrefix in H.
  rewrite prefix_app in H. exact H.
Qed.

Lemma untilQuote_app (v rest : string) :
  plain v = true ->
  plainjson.untilQuote (v ++ plainjson.quote ++ rest) = Some (v, rest).
Proof.
  unfold plain. induction v as [|c v IH]; intros Hv.
  - change ("" ++ plainjson.quote ++ rest)%string
      with (String (ascii_of_nat 34) rest).
    cbn [plainjson.untilQuote]. rewrite Ascii.eqb_refl. reflexivity.
  - cbn [list_ascii_of_string forallb] in Hv.
    apply andb_true_iff in Hv as [Hc Hv].
    apply andb_true_iff in Hc as [Hq Hb].
    apply negb_true_iff in Hq, Hb.
    rewrite append_cons. cbn [plainjson.untilQuote].
    rewrite Hq, Hb, (IH Hv). reflexivity.
Qed.

Lemma field_app (name value rest : string) :
  (plainjson.field name value ++ rest)%string =
  (plainjson.quote ++ name ++ plainjson.quote ++ ":" ++ plainjson.quote
     ++ value ++ plainjson.quote ++ rest)%string.
Proof. unfold plainjson.field. rewrite !append_assoc. reflexivity. Qed.

Lemma readField_field (name value rest : string) :
  plain value = true ->
  plainjson.readField name (plainjson.field name value ++ rest) =
  Some (value, rest).
Proof.
  intros Hv. unfold plainjson.readField.
  assert (E : (plainjson.field name value ++ rest)%string =
              ((plainjson.quote ++ name ++ plainjson.quote ++ ":"
                  ++ plainjson.quote)
               ++ value ++ plainjson.quote ++ rest)%string).
  { rewrite field_app, !append_assoc. reflexivity. }
  rewrite E, expect_app. cbn [mbind option_bind].
  apply untilQuote_app. exact Hv.
Qed.

(** The digits that [EncodeToString] writes are plain. *)
Lemma plain_EncodeToString (x : list byte) :
  plain (hex.EncodeToString x) = true.
Proof.
  unfold plain. induction x as [|v x IH]; [reflexivity|].
  cbn [hex.EncodeToString list_ascii_of_string forallb]. rewrite IH.
  destruct v; reflexivity.
Qed.

Lemma plainjson_message (m : x3dh.InitialMessage) :
  plain (x3dh.AliceIK m) = true -> plain (x3dh.AliceEKa m) = true ->
  plain (x3dh.Nonce m) = true -> plain (x3dh.Ciphertext m) = true ->
  plain (x3dh.Sender m) = true ->
  plainjson.UnmarshalMessage (plainjson.MarshalMessage m) = Some m.
Proof.
  intros H1 H2 H3 H4 H5.
  unfold plainjson.UnmarshalMessage, plainjson.MarshalMessage.
  rewrite expect_app. cbn [mbind option_bind].
  rewrite (readField_field _ _ _ H1). cbn [mbind option_bind].
  rewrite expect_app. cbn [mbind option_bind].
  rewrite (readField_field _ _ _ H2). cbn [mbind option_bind].
  rewrite expect_app. cbn [mbind option_bind].
  rewrite (readField_field _ _ _ H3). cbn [mbind option_bind].
  rewrite expect_app. cbn [mbind option_bind].
  rewrite (readField_field _ _ _ H4). cbn [mbind option_bind].
  rewrite expect_app. cbn [mbind option_bind].
  rewrite (readField_field _ _ _ H5). cbn [mbind option_bind].
  change (String.eqb "}" "}") with true. destruct m; reflexivity.
Qed.

Lemma members_field (fuel : nat) (name value rest : string) :
  plain name = true -> plain value = true ->
  plainjson.members (S fuel) (plainjson.field name value ++ rest) =
  if String.eqb rest "}" then Some [(name, value)]
  else
    s ← plainjson.expect "," rest;
    l ← plainjson.members fuel s;
    Some ((name, value) :: l).
Proof.
  intros Hn Hv. cbn [plainjson.members]. rewrite field_app.
  rewrite expect_app. cbn [mbind option_bind].
  rewrite (untilQuote_app _ _ Hn). cbn [mbind option_bind].
  rewrite <- (append_assoc ":" plainjson.quote).
  rewrite expect_app. cbn [mbind option_bind].
  rewrite (untilQuote_app _ _ Hv). cbn [mbind option_bind].
  reflexivity.
Qed.

Lemma length_field (name value : string) :
  (5 <= String.length (plainjson.field name value))%nat.
Proof.
  unfold plainjson.field. rewrite !length_append.
  change (String.length plainjson.quote) with 1%nat.
  change (String.length ":") with 1%nat. lia.
Qed.

Lemma plainjson_bundle (b : x3dh.Bundle) :
  plain (x3dh.IK b) = true -> plain (x3dh.SPK b) = true ->
  plain (x3dh.OTK b) = true -> plain (x3dh.Ed25519 b) = true ->
  plain (x3dh.Sig b) = true ->
  plainjson.UnmarshalBundle (plainjson.MarshalBundle b) = Some b.
Proof.
  intros H1 H2 H3 H4 H5.
  unfold plainjson.UnmarshalBundle, plainjson.object, plainjson.MarshalBundle.
  rewrite expect_app. cbn [mbind option_bind].
  set (rest := (plainjson.field "ik" _ ++ _)%string).
  assert (Hfuel : (5 <= String.length rest)%nat).
  { unfold rest. rewrite length_append.
    pose proof (length_field "ik" (x3dh.IK b)). lia. }
  destruct (String.length rest) as [|[|[|[|[|fuel]]]]]; try lia.
  unfold rest.
  rewrite (members_field _ "ik" _ _ eq_refl H1).
  change (String.eqb ("," ++ _) "}") with false.
  rewrite expect_app. cbn [mbind option_bind].
  rewrite (members_field _ "spk" _ _ eq_refl H2).
  change (String.eqb ("," ++ _) "}") with false.
  rewrite expect_app. cbn [mbind option_bind].
  rewrite (members_field _ "otk" _ _ eq_refl H3).
  change (String.eqb ("," ++ _) "}") with false.
  rewrite expect_app. cbn [mbind option_bind].
  rewrite (members_field _ "ed25519" _ _ eq_refl H4).
  change (String.eqb ("," ++ _) "}") with false.
  rewrite expect_app. cbn [mbind option_bind].
  rewrite (members_field _ "sig" _ _ eq_refl H5).
  change (String.eqb "}" "}") with true. cbn [mbind option_bind].
  destruct b; reflexivity.
Qed.

(* ===================================================================== *)
(** * cmd/alice: the identity key *)
(* ===================================================================== *)

Lemma NewPrivateKey_ok (key : list byte) :
  length key = 32%nat ->
  ecdh.NewPrivateKey key = (Some {| ecdh.privateKey := key |}, None).
Proof.
  intros H. unfold ecdh.NewPrivateKey, ecdh.x25519PrivateKeySize.
  rewrite H. reflexivity.
Qed.

Lemma identity_key_generated (ika : list byte) :
  length ika = 32%nat ->
  Alice.identityKey
    {| Alice.idKeyFile := Alice.NotExist;
       Alice.identityRand := ika;
       Alice.writeResult := None |} =
    ([Log "Generating Alice's identity key..." None;
      CallGenKeyPair;
      WriteFile "alice_private_keys.json" [ika];
      Log "Alice's identity key saved to %s" None],
     Return (Some {| ecdh.privateKey := ika |}, public ika)).
Proof.
  intros Hlen.
  unfold Alice.identityKey. cbn [Alice.idKeyFile Alice.identityRand
    Alice.writeResult].
  rewrite !bind_emit, (GenKeyPair_exact _ Hlen), bind_check_None.
  rewrite bind_emit, bind_check_None, bind_emit. reflexivity.
Qed.

(** X12.  The identity key outlives the run that made it. On first use,
    with enough random bytes and a file that can be written, step 1
    generates a key pair and saves the private key; on a later run that
    finds the saved key, it returns the same key pair, and neither
    generates nor writes anything. *)
Theorem identity_key_persists (rand : list byte) :
  (32 <= length rand)%nat ->
  let priv := firstn 32 rand in
  Alice.identityKey
    {| Alice.idKeyFile := Alice.NotExist;
       Alice.identityRand := rand;
       Alice.writeResult := None |} =
    ([Log "Generating Alice's identity key..." None;
      CallGenKeyPair;
      WriteFile "alice_private_keys.json" [priv];
      Log "Alice's identity key saved to %s" None],
     Return (Some {| ecdh.privateKey := priv |}, public priv)) /\
  forall rand' w,
    Alice.identityKey
      {| Alice.idKeyFile :=
           Alice.Contents (Some {| Alice.IKaPriv := priv |});
         Alice.identityRand := rand';
         Alice.writeResult := w |} =
      ([Log "Loaded Alice's identity key." None],
       Return (Some {| ecdh.privateKey := priv |}, public priv)).
Proof.
  intros Hlen priv. split.
  - unfold Alice.identityKey. cbn [Alice.idKeyFile Alice.identityRand
      Alice.writeResult].
    rewrite !bind_emit, (GenKeyPair_ok _ Hlen), bind_check_None.
    rewrite bind_emit, bind_check_None, bind_emit. reflexivity.
  - intros rand' w. unfold Alice.identityKey.
    cbn [Alice.idKeyFile Alice.IKaPriv].
    rewrite NewPrivateKey_ok
      by (unfold priv; rewrite length_firstn; lia).
    rewrite bind_check_None, bind_emit.
    cbn [ecdh.PublicKeyOf ecdh.publicKey ecdh.privateKey].
    rewrite copy_into_exact by apply length_x25519ScalarMult.
    reflexivity.
Qed.

Lemma identity_key_persists_witness :
  let priv := firstn 32 rfc_alice in
  Alice.identityKey
    {| Alice.idKeyFile := Alice.NotExist;
       Alice.identityRand := rfc_alice;
       Alice.writeResult := None |} =
    ([Log "Generating Alice's identity key..." None;
      CallGenKeyPair;
      WriteFile "alice_private_keys.json" [priv];
      Log "Alice's identity key saved to %s" None],
     Return (Some {| ecdh.privateKey := priv |}, public priv)) /\
  forall rand' w,
    Alice.identityKey
      {| Alice.idKeyFile :=
           Alice.Contents (Some {| Alice.IKaPriv := priv |});
         Alice.identityRand := rand';
         Alice.writeResult := w |} =
      ([Log "Loaded Alice's identity key." None],
       Return (Some {| ecdh.privateKey := priv |}, public priv)).
Proof. apply (identity_key_persists rfc_alice). vm_compute. lia. Defined.

(* ===================================================================== *)
(** * A session: register, fetch, send, poll *)
(* ===================================================================== *)

Section Session.

Variable R : list byte -> Prop.
Hypothesis laws : x25519_agrees R.

Variable ed25519_verify : list byte -> list byte -> list byte -> bool.

(** The run of the initiator on a bundle of the public keys of [ikb],
    [spkb] and [otkb] whose signature verifies. *)
Lemma Alice_main_ok (ika eka ikb spkb otkb : list byte)
    (bundle : x3dh.Bundle) (env : Alice.Env) :
  length eka = 32%nat ->
  R ika -> R eka -> R ikb -> R spkb -> R otkb ->
  x3dh.IK bundle = Bob.encode32 (public ikb) ->
  x3dh.SPK bundle = Bob.encode32 (public spkb) ->
  x3dh.OTK bundle = Bob.encode32 (public otkb) ->
  ed25519.Verify ed25519_verify
    (fst (hex.DecodeString (x3dh.Ed25519 bundle))) (public spkb)
    (fst (hex.DecodeString (x3dh.Sig bundle))) = Return true ->
  Alice.bundleResponse env = (bundleResponse bundle, None) ->
  Alice.ephemeralRand env = eka ->
  Alice.sendResponse env = (okResponse, None) ->
  Z.of_nat (String.length (Alice.input env)) <= 2 ^ 38 - 64 ->
  let master := session_key ika eka ikb spkb otkb in
  Alice.main ed25519_verify (Some {| ecdh.privateKey := ika |}) (public ika)
    env =
  ([HttpGet (serverURL ++ "/bundle/bob");
    CallGenKeyPair;
    CallDH (public spkb); CallDH (public ikb); CallDH (public spkb);
    CallDH (public otkb);
    CallKDF [ecdh.x25519ScalarMult ika (public spkb);
             ecdh.x25519ScalarMult eka (public ikb);
             ecdh.x25519ScalarMult eka (public spkb);
             ecdh.x25519ScalarMult eka (public otkb)];
    Log "Session key derived " (Some (hex.EncodeToString master));
    Log "Enter a message to send to Bob: " None;
    CallSeal (copy_into 12 (Alice.nonceRand env))
      (bytes_of_string (Alice.input env));
    HttpPostMessage (serverURL ++ "/send/bob")
      (first_message ika eka ikb spkb otkb (Alice.nonceRand env)
         (Alice.input env));
    Log "Encrypted message was sent" None],
   Return tt).
Proof.
  intros Hek Ra Re Rib Rsb Rob HIK HSPK HOTK Hver Hresp Heka Hsend Hin master.
  assert (Lp : forall k, length (public k) = 32%nat)
    by (intros k; unfold public; apply length_x25519ScalarMult).
  assert (HA : Alice.deriveMaster (Some {| ecdh.privateKey := ika |})
                 (Some {| ecdh.privateKey := eka |}) bundle =
               ([CallDH (public spkb); CallDH (public ikb);
                 CallDH (public spkb); CallDH (public otkb);
                 CallKDF [ecdh.x25519ScalarMult ika (public spkb);
                          ecdh.x25519ScalarMult eka (public ikb);
                          ecdh.x25519ScalarMult eka (public spkb);
                          ecdh.x25519ScalarMult eka (public otkb)];
                 Log "Session key derived " (Some (hex.EncodeToString master))],
                Return master)).
  { apply Alice_deriveMaster_ok.
    - rewrite HIK. apply Alice_decode32_encode32, Lp.
    - rewrite HSPK. apply Alice_decode32_encode32, Lp.
    - rewrite HOTK. apply Alice_decode32_encode32, Lp.
    - apply (DH_generated R laws {| ecdh.privateKey := ika |}
               {| ecdh.privateKey := spkb |}); assumption.
    - apply (DH_generated R laws {| ecdh.privateKey := eka |}
               {| ecdh.privateKey := ikb |}); assumption.
    - apply (DH_generated R laws {| ecdh.privateKey := eka |}
               {| ecdh.privateKey := spkb |}); assumption.
    - apply (DH_generated R laws {| ecdh.privateKey := eka |}
               {| ecdh.privateKey := otkb |}); assumption. }
  unfold Alice.main.
  rewrite bind_emit, Hresp, bind_check_None.
  cbn [http.StatusCode http.Payload bundleResponse].
  change (http.StatusOK =? http.StatusOK) with true. cbn [negb].
  rewrite bind_mret.
  rewrite HSPK, Alice_decode32_encode32 by apply Lp.
  rewrite bind_lift_Return.
  rewrite Hver, bind_lift_Return. cbn [negb].
  rewrite bind_mret, bind_emit, Heka, (GenKeyPair_exact _ Hek), bind_check_None.
  rewrite HA, bind_Return, bind_emit.
  rewrite Alice_encrypt_ok
    by (try apply length_KDF; rewrite length_bytes_of_string; exact Hin).
  rewrite bind_Return, bind_emit. cbn [fst snd].
  rewrite Hsend, bind_check_None.
  change (http.StatusCode okResponse =? http.StatusOK) with true.
  cbn [negb]. rewrite bind_mret. cbn [fst snd app emit].
  reflexivity.
Qed.

(** The run of the responder on that message, with the private keys of
    the bundle. *)
Lemma Bob_checkMessages_ok (ika eka ikb spkb otkb nonceRand edPriv : list byte)
    (text : string) (left : Z) :
  length ikb = 32%nat -> length spkb = 32%nat -> length otkb = 32%nat ->
  R ika -> R eka -> R ikb -> R spkb -> R otkb ->
  Z.of_nat (String.length text) <= 2 ^ 38 - 64 ->
  let master := session_key ika eka ikb spkb otkb in
  let msg := first_message ika eka ikb spkb otkb nonceRand text in
  Bob.checkMessages
    {| Bob.chkKeyFile :=
         Bob.Contents
           (Some {| Bob.IKbPriv := ikb; Bob.SPKbPriv := spkb;
                    Bob.EdPriv := edPriv; Bob.OTKbPriv := otkb |});
       Bob.messagesResponse := (messageResponse msg left, None) |} =
  (([HttpGet (serverURL ++ "/messages/bob");
    Log "Received an initial message from Alice." None;
    CallDH (public ika); CallDH (public eka); CallDH (public eka);
    CallDH (public eka);
    CallKDF [ecdh.x25519ScalarMult ika (public spkb);
             ecdh.x25519ScalarMult eka (public ikb);
             ecdh.x25519ScalarMult eka (public spkb);
             ecdh.x25519ScalarMult eka (public otkb)];
    Log "Session key derived " (Some (hex.EncodeToString master));
    CallOpen (copy_into 12 nonceRand)
      (chacha20poly1305.sealGeneric {| chacha20poly1305.key := master |}
         (copy_into 12 nonceRand) (bytes_of_string text) []);
    Log "Decrypted message from Alice:" (Some text)]
   ++ (if 0 <? left then [Log "You still have %d messages left." None]
       else []))%list,
   Return tt).
Proof.
  intros Hib Hsb Hob Ra Re Rib Rsb Rob Hin master msg.
  assert (Lp : forall k, length (public k) = 32%nat)
    by (intros k; unfold public; apply length_x25519ScalarMult).
  assert (Hflip : forall a b, R a -> R b ->
            x3dh.DH (Some {| ecdh.privateKey := b |}) (public a) =
            (ecdh.x25519ScalarMult a (public b), None)).
  { intros a b Ha Hb. unfold public.
    pose proof (DH_generated R laws {| ecdh.privateKey := b |}
                  {| ecdh.privateKey := a |} Hb Ha) as H.
    cbn [ecdh.privateKey] in H. rewrite H.
    destruct (laws _ _ Ha Hb) as [-> _]. reflexivity. }
  assert (HB : Bob.deriveMaster (Some {| ecdh.privateKey := ikb |})
                 (Some {| ecdh.privateKey := spkb |})
                 (Some {| ecdh.privateKey := otkb |}) msg =
               ([CallDH (public ika); CallDH (public eka);
                 CallDH (public eka); CallDH (public eka);
                 CallKDF [ecdh.x25519ScalarMult ika (public spkb);
                          ecdh.x25519ScalarMult eka (public ikb);
                          ecdh.x25519ScalarMult eka (public spkb);
                          ecdh.x25519ScalarMult eka (public otkb)];
                 Log "Session key derived " (Some (hex.EncodeToString master))],
                Return master)).
  { apply Bob_deriveMaster_ok.
    - apply Bob_decode32_encode32, Lp.
    - apply Bob_decode32_encode32, Lp.
    - apply Hflip; assumption.
    - apply Hflip; assumption.
    - apply Hflip; assumption.
    - apply Hflip; assumption. }
  unfold Bob.checkMessages. cbn [Bob.chkKeyFile Bob.messagesResponse].
  rewrite bind_mret.
  cbn [Bob.IKbPriv Bob.SPKbPriv Bob.OTKbPriv].
  rewrite !NewPrivateKey_ok by assumption.
  cbn [fst].
  rewrite bind_emit, bind_check_None.
  change (http.StatusCode (messageResponse msg left) =? http.StatusNotFound)
    with false.
  change (http.StatusCode (messageResponse msg left) =? http.StatusOK)
    with true.
  cbn [negb]. rewrite bind_mret.
  cbn [http.Payload messageResponse]. rewrite bind_mret. cbn [fst snd].
  rewrite bind_emit, HB, bind_Return.
  rewrite (Bob_decrypt_ok master (copy_into 12 nonceRand)
             (bytes_of_string text) msg)
    by (try apply length_KDF; try apply length_copy_into;
        try (rewrite length_bytes_of_string; exact Hin); reflexivity).
  rewrite bind_Return, bind_emit.
  unfold string_of_bytes, bytes_of_string.
  rewrite string_of_list_byte_of_string.
  cbn [fst snd app].
  destruct (0 <? left); reflexivity.
Qed.

Variable ed25519_NewKeyFromSeed : list byte -> list byte.
Variable ed25519_Sign : list byte -> list byte -> list byte.

(** The signature scheme is correct: a signature made with the key of a
    seed verifies under the public half of that key. *)
Hypothesis signature_verifies : forall seed message,
  length seed = 32%nat ->
  ed25519.Verify ed25519_verify
    (ed25519.Public (ed25519_NewKeyFromSeed seed)) message
    (ed25519_Sign (ed25519_NewKeyFromSeed seed) message) = Return true.

Variable MarshalBundle : x3dh.Bundle -> string.
Variable UnmarshalBundle : string -> option x3dh.Bundle.
Variable MarshalMessage : x3dh.InitialMessage -> string.
Variable UnmarshalMessage : string -> option x3dh.InitialMessage.

(** The run of [register] on first use. *)
Lemma Bob_register_ok (ikb spkb otkb seed : list byte) :
  length ikb = 32%nat -> length spkb = 32%nat -> length otkb = 32%nat ->
  length seed = 32%nat ->
  Bob.register ed25519_NewKeyFromSeed ed25519_Sign
    {| Bob.regKeyFile := Bob.NotExist;
       Bob.ikRand := ikb; Bob.spkRand := spkb; Bob.otkRand := otkb;
       Bob.seedRand := seed;
       Bob.registerResponse := (okResponse, None) |} =
  ([Log "Generating keys..." None;
    CallGenKeyPair; CallGenKeyPair; CallGenKeyPair;
    Log "Saving keys..." None;
    WriteFile "bob_private_keys.json"
      [ikb; spkb; ed25519_NewKeyFromSeed seed; otkb];
    Log "Registering with server..." None;
    HttpPostBundle (serverURL ++ "/register/bob")
      (published_bundle ed25519_NewKeyFromSeed ed25519_Sign ikb spkb otkb seed);
    Log "Registration successful." None],
   Return tt).
Proof.
  intros Hib Hsb Hob Hseed.
  unfold Bob.register. cbn [Bob.regKeyFile Bob.ikRand Bob.spkRand Bob.otkRand
    Bob.seedRand Bob.registerResponse].
  rewrite bind_emit.
  rewrite !Bob_genKeyPair_ok, !bind_Return by lia.
  unfold ed25519.SeedSize. rewrite Hseed.
  change (32 <? 32)%nat with false. cbv iota.
  rewrite bind_mret, !bind_emit, bind_check_None.
  change (http.StatusCode okResponse =? http.StatusOK) with true.
  cbn [negb]. rewrite bind_mret.
  cbn [fst snd app Bob.privBytes ecdh.privateKey].
  rewrite !firstn_all2 by lia.
  reflexivity.
Qed.

Lemma registerHandler_spec (U : string) (b : x3dh.Bundle) (st : Server.state) :
  U <> "" ->
  UnmarshalBundle (MarshalBundle b) = Some b ->
  exists st',
    Server.registerHandler MarshalBundle UnmarshalBundle
      (registerRequest U (MarshalBundle b)) st = (okResponse, st') /\
    Server.rdb st' =
      <[("bundle:" ++ U)%string := redis.VString (MarshalBundle b)]>
        (Server.rdb st).
Proof.
  intros HU Hrt. unfold Server.registerHandler, registerRequest.
  cbn [http.Method http.Path http.Body].
  change (String.eqb "POST" http.MethodPost) with true. cbn [negb].
  rewrite TrimPrefix_app, (eqb_empty_false U HU), Hrt.
  eexists. split; reflexivity.
Qed.

Lemma bundleHandler_spec (U : string) (b : x3dh.Bundle) (st : Server.state) :
  U <> "" ->
  UnmarshalBundle (MarshalBundle b) = Some b ->
  Server.rdb st !! ("bundle:" ++ U)%string =
    Some (redis.VString (MarshalBundle b)) ->
  Server.bundleHandler UnmarshalBundle (bundleRequest U) st =
    (bundleResponse b, st).
Proof.
  intros HU Hrt Hb. unfold Server.bundleHandler, bundleRequest.
  cbn [http.Method http.Path http.Body].
  change (String.eqb "GET" http.MethodGet) with true. cbn [negb].
  rewrite TrimPrefix_app, (eqb_empty_false U HU).
  unfold Server.GetBundle, redis.Get. rewrite Hb, Hrt. reflexivity.
Qed.

(** X13.  The whole exchange. The responder registers on first use, the
    server stores its bundle, the initiator fetches the bundle, verifies
    it and posts a sealed message, the server queues the message, the
    responder polls, derives the same key and logs the text that the
    initiator typed. Each program gets as the answer to its request what
    the handler of the server returned. *)
Theorem session_delivers_message
    (ika eka ikb spkb otkb seed nonceRand : list byte) (text : string)
    (st0 : Server.state) :
  length ika = 32%nat -> length eka = 32%nat -> length ikb = 32%nat ->
  length spkb = 32%nat -> length otkb = 32%nat -> length seed = 32%nat ->
  R ika -> R eka -> R ikb -> R spkb -> R otkb ->
  Z.of_nat (String.length text) <= 2 ^ 38 - 64 ->
  let bundle :=
    published_bundle ed25519_NewKeyFromSeed ed25519_Sign ikb spkb otkb seed in
  let msg := first_message ika eka ikb spkb otkb nonceRand text in
  UnmarshalBundle (MarshalBundle bundle) = Some bundle ->
  UnmarshalMessage (MarshalMessage msg) = Some msg ->
  queue_is "bob" st0 [] ->
  exists st1 st2 st3 tR tA tB,
    Bob.register ed25519_NewKeyFromSeed ed25519_Sign
      {| Bob.regKeyFile := Bob.NotExist;
         Bob.ikRand := ikb; Bob.spkRand := spkb; Bob.otkRand := otkb;
         Bob.seedRand := seed;
         Bob.registerResponse := (okResponse, None) |} = (tR, Return tt) /\
    In (WriteFile "bob_private_keys.json"
          [ikb; spkb; ed25519_NewKeyFromSeed seed; otkb]) tR /\
    In (HttpPostBundle (serverURL ++ "/register/bob") bundle) tR /\
    Server.registerHandler MarshalBundle UnmarshalBundle
      (registerRequest "bob" (MarshalBundle bundle)) st0 = (okResponse, st1) /\
    Server.bundleHandler UnmarshalBundle (bundleRequest "bob") st1 =
      (bundleResponse bundle, st1) /\
    Alice.run ed25519_verify
      {| Alice.idKeyFile := Alice.NotExist;
         Alice.identityRand := ika;
         Alice.writeResult := None |}
      {| Alice.bundleResponse := (bundleResponse bundle, None);
         Alice.ephemeralRand := eka;
         Alice.input := text;
         Alice.nonceRand := nonceRand;
         Alice.sendResponse := (okResponse, None) |} = (tA, Return tt) /\
    In (HttpPostMessage (serverURL ++ "/send/bob") msg) tA /\
    Server.sendMessageHandler MarshalMessage UnmarshalMessage
      (sendRequest "bob" (MarshalMessage msg)) st1 = (okResponse, st2) /\
    Server.getMessageHandler UnmarshalMessage (messagesRequest "bob") st2 =
      (messageResponse msg 0, st3) /\
    Bob.checkMessages
      {| Bob.chkKeyFile :=
           Bob.Contents
             (Some (stored_keys ed25519_NewKeyFromSeed ikb spkb otkb seed));
         Bob.messagesResponse := (messageResponse msg 0, None) |} =
      (tB, Return tt) /\
    In (Log "Decrypted message from Alice:" (Some text)) tB /\
    pending "bob" st3 = [].
Proof.
  intros Hia Hea Hib Hsb Hob Hseed Ra Re Rib Rsb Rob Hin bundle msg
    Hrtb Hrtm Hq0.
  assert (Hbob : "bob" <> "") by discriminate.
  destruct (registerHandler_spec "bob" bundle st0 Hbob Hrtb) as (st1 & Hreg & Hdb1).
  assert (Hq1 : queue_is "bob" st1 []).
  { unfold queue_is in *. rewrite Hdb1.
    rewrite lookup_insert_ne by apply keys_apart. exact Hq0. }
  destruct (sendMessageHandler_spec MarshalMessage UnmarshalMessage
              "bob" msg st1 [] Hbob Hrtm Hq1) as (st2 & Hsend & Hq2).
  cbn [app] in Hq2.
  destruct (getMessageHandler_spec UnmarshalMessage "bob" st2 _ [] msg
              Hbob Hrtm Hq2) as (st3 & Hget & Hq3).
  exists st1, st2, st3. do 3 eexists.
  split; [apply Bob_register_ok; assumption|].
  split; [do 5 right; left; reflexivity|].
  split; [do 7 right; left; reflexivity|].
  split; [exact Hreg|].
  split.
  { apply bundleHandler_spec; [exact Hbob | exact Hrtb |].
    rewrite Hdb1. apply lookup_insert_eq. }
  split.
  { unfold Alice.run.
    rewrite (identity_key_generated ika Hia), bind_Return. cbn [fst snd].
    assert (Hver : ed25519.Verify ed25519_verify
                     (fst (hex.DecodeString (x3dh.Ed25519 bundle)))
                     (public spkb)
                     (fst (hex.DecodeString (x3dh.Sig bundle))) = Return true).
    { unfold bundle, published_bundle. cbn [x3dh.Ed25519 x3dh.Sig].
      rewrite !DecodeString_EncodeToString. cbn [fst].
      apply signature_verifies. exact Hseed. }
    match goal with
    | |- context [Alice.main _ _ _ ?e] => set (envA := e)
    end.
    rewrite (Alice_main_ok ika eka ikb spkb otkb bundle envA Hea Ra Re Rib Rsb
               Rob eq_refl eq_refl eq_refl Hver eq_refl eq_refl eq_refl Hin).
    cbn [fst snd app]. reflexivity. }
  split; [do 14 right; left; reflexivity|].
  split; [exact Hsend|].
  split; [exact Hget|].
  split.
  { unfold stored_keys.
    apply (Bob_checkMessages_ok ika eka ikb spkb otkb nonceRand
             (ed25519_NewKeyFromSeed seed) text 0); assumption. }
  split; [cbn [app]; do 9 right; left; reflexivity|].
  apply pending_queue_is. exact Hq3.
Qed.

End Session.

(** The stand-in scheme is correct. *)
Lemma bytes_eqb_refl (x : list byte) : bytes_eqb x x = true.
Proof. apply bytes_eqb_eq. reflexivity. Qed.

Lemma sample_scheme_verifies (seed message : list byte) :
  length seed = 32%nat ->
  ed25519.Verify sample_verify
    (ed25519.Public (sample_NewKeyFromSeed seed)) message
    (sample_Sign (sample_NewKeyFromSeed seed) message) = Return true.
Proof.
  intros Hlen.
  unfold ed25519.Verify, ed25519.Public, sample_NewKeyFromSeed, sample_Sign,
    sample_verify, ed25519.PublicKeySize.
  rewrite <- Hlen at 1. rewrite skipn_app, skipn_all, Nat.sub_diag, skipn_0.
  cbn [app]. rewrite Hlen. cbn [Nat.eqb negb].
  rewrite bytes_eqb_refl. reflexivity.
Qed.

Lemma session_delivers_message_witness :
  let bundle :=
    published_bundle sample_NewKeyFromSeed sample_Sign rfc_bob rfc_scalar1
      rfc_scalar2 sample_seed in
  let msg :=
    first_message rfc_alice test_key rfc_bob rfc_scalar1 rfc_scalar2
      (zeros 12) sample_text in
  exists st1 st2 st3 tR tA tB,
    Bob.register sample_NewKeyFromSeed sample_Sign
      {| Bob.regKeyFile := Bob.NotExist;
         Bob.ikRand := rfc_bob; Bob.spkRand := rfc_scalar1;
         Bob.otkRand := rfc_scalar2;
         Bob.seedRand := sample_seed;
         Bob.registerResponse := (okResponse, None) |} = (tR, Return tt) /\
    In (WriteFile "bob_private_keys.json"
          [rfc_bob; rfc_scalar1; sample_NewKeyFromSeed sample_seed;
           rfc_scalar2]) tR /\
    In (HttpPostBundle (serverURL ++ "/register/bob") bundle) tR /\
    Server.registerHandler plainjson.MarshalBundle plainjson.UnmarshalBundle
      (registerRequest "bob" (plainjson.MarshalBundle bundle)) freshState =
      (okResponse, st1) /\
    Server.bundleHandler plainjson.UnmarshalBundle (bundleRequest "bob") st1 =
      (bundleResponse bundle, st1) /\
    Alice.run sample_verify
      {| Alice.idKeyFile := Alice.NotExist;
         Alice.identityRand := rfc_alice;
         Alice.writeResult := None |}
      {| Alice.bundleResponse := (bundleResponse bundle, None);
         Alice.ephemeralRand := test_key;
         Alice.input := sample_text;
         Alice.nonceRand := zeros 12;
         Alice.sendResponse := (okResponse, None) |} = (tA, Return tt) /\
    In (HttpPostMessage (serverURL ++ "/send/bob") msg) tA /\
    Server.sendMessageHandler plainjson.MarshalMessage
      plainjson.UnmarshalMessage
      (sendRequest "bob" (plainjson.MarshalMessage msg)) st1 =
      (okResponse, st2) /\
    Server.getMessageHandler plainjson.UnmarshalMessage
      (messagesRequest "bob") st2 = (messageResponse msg 0, st3) /\
    Bob.checkMessages
      {| Bob.chkKeyFile :=
           Bob.Contents
             (Some (stored_keys sample_NewKeyFromSeed rfc_bob rfc_scalar1
                      rfc_scalar2 sample_seed));
         Bob.messagesResponse := (messageResponse msg 0, None) |} =
      (tB, Return tt) /\
    In (Log "Decrypted message from Alice:" (Some sample_text)) tB /\
    pending "bob" st3 = [].
Proof.
  apply (session_delivers_message (fun k => In k test_keys) test_keys_agree
           sample_verify sample_NewKeyFromSeed sample_Sign
           sample_scheme_verifies
           plainjson.MarshalBundle plainjson.UnmarshalBundle
           plainjson.MarshalMessage plainjson.UnmarshalMessage
           rfc_alice test_key rfc_bob rfc_scalar1 rfc_scalar2 sample_seed
           (zeros 12) sample_text freshState).
  - reflexivity.
  - reflexivity.
  - reflexivity.
  - reflexivity.
  - reflexivity.
  - reflexivity.
  - left. reflexivity.
  - do 4 right. left. reflexivity.
  - right. left. reflexivity.
  - do 2 right. left. reflexivity.
  - do 3 right. left. reflexivity.
  - vm_compute. discriminate.
  - apply plainjson_bundle; apply plain_EncodeToString.
  - apply plainjson_message;
      try apply plain_EncodeToString; reflexivity.
  - reflexivity.
Defined.

Lemma register_publishes_witness :
  let env :=
    {| Bob.regKeyFile := Bob.NotExist;
       Bob.ikRand := rfc_bob; Bob.spkRand := rfc_scalar1;
       Bob.otkRand := rfc_scalar2;
       Bob.seedRand := sample_seed;
       Bob.registerResponse := (okResponse, None) |} in
  let IKb := firstn 32 (Bob.ikRand env) in
  let SPKb := firstn 32 (Bob.spkRand env) in
  let OTKb := firstn 32 (Bob.otkRand env) in
  let edPriv := sample_NewKeyFromSeed (firstn 32 (Bob.seedRand env)) in
  let SPKbPub := ecdh.x25519ScalarMult SPKb ecdh.x25519Basepoint in
  let bundle :=
    {| x3dh.IK := Bob.encode32 (ecdh.x25519ScalarMult IKb ecdh.x25519Basepoint);
       x3dh.SPK := Bob.encode32 SPKbPub;
       x3dh.OTK := Bob.encode32 (ecdh.x25519ScalarMult OTKb ecdh.x25519Basepoint);
       x3dh.Ed25519 := hex.EncodeToString (ed25519.Public edPriv);
       x3dh.Sig := hex.EncodeToString (sample_Sign edPriv SPKbPub) |} in
  Bob.register sample_NewKeyFromSeed sample_Sign env =
  ([Log "Generating keys..." None;
    CallGenKeyPair; CallGenKeyPair; CallGenKeyPair;
    Log "Saving keys..." None;
    WriteFile "bob_private_keys.json" [IKb; SPKb; edPriv; OTKb];
    Log "Registering with server..." None;
    HttpPostBundle (serverURL ++ "/register/bob") bundle;
    Log "Registration successful." None],
   Return tt).
Proof.
  intros env.
  apply (register_publishes sample_NewKeyFromSeed sample_Sign env).
  - reflexivity.
  - vm_compute. lia.
  - vm_compute. lia.
  - vm_compute. lia.
  - vm_compute. lia.
  - reflexivity.
Defined.

(* ===================================================================== *)
(** * cmd/bob: what [checkMessages] does with a bad key or a bad message *)
(* ===================================================================== *)

(** X15.  Step 5 decrypts nothing that is not authentic. With a session
    key and a ciphertext of at most [2^38 - 48] bytes: a nonce field
    that does not decode to 12 bytes makes [Open] panic; otherwise the
    text is returned when the last 16 bytes of the ciphertext are the
    Poly1305 tag of the bytes before them, and in every other case the
    program stops with the decryption error. *)
Theorem decrypt_authenticates (master : list byte)
    (msg : x3dh.InitialMessage) :
  length master = 32%nat ->
  let nonce := fst (hex.DecodeString (x3dh.Nonce msg)) in
  let ciphertext := fst (hex.DecodeString (x3dh.Ciphertext msg)) in
  let n := (length ciphertext - 16)%nat in
  let body := firstn n ciphertext in
  let tag := skipn n ciphertext in
  let c := {| chacha20poly1305.key := master |} in
  let authentic :=
    (16 <= length ciphertext)%nat /\
    poly1305.Sum (chacha20poly1305.polyKey c nonce)
      (chacha20poly1305.macData [] body) = tag in
  Z.of_nat (length ciphertext) <= 2 ^ 38 - 48 ->
  (length nonce <> 12%nat ->
   Bob.decrypt master msg =
   ([CallOpen nonce ciphertext],
    Panic "chacha20poly1305: bad nonce length passed to Open" None)) /\
  (length nonce = 12%nat -> authentic ->
   Bob.decrypt master msg =
   ([CallOpen nonce ciphertext],
    Return (chacha20.XORKeyStream master nonce 1 body))) /\
  (length nonce = 12%nat -> ~ authentic ->
   Bob.decrypt master msg =
   ([CallOpen nonce ciphertext],
    Fatal "DECRYPTION FAILED: %v" (Some ErrOpen))).
Proof.
  intros Hm nonce ciphertext n body tag c authentic Hlen.
  unfold Bob.decrypt. rewrite (New_ok _ Hm).
  fold nonce ciphertext c. rewrite bind_emit.
  unfold chacha20poly1305.Open, chacha20poly1305.NonceSize.
  split; [|split].
  - intros Hn. apply Nat.eqb_neq in Hn. rewrite Hn. reflexivity.
  - intros Hn [H16 Htag]. rewrite Hn. cbn [Nat.eqb negb].
    destruct (length ciphertext <? 16)%nat eqn:E1;
      [apply Nat.ltb_lt in E1; lia|].
    destruct (2 ^ 38 - 48 <? Z.of_nat (length ciphertext)) eqn:E2;
      [apply Z.ltb_lt in E2; lia|].
    assert (Hopen : chacha20poly1305.openGeneric c nonce ciphertext [] =
                    chacha20poly1305.openGeneric c nonce (body ++ tag) [])
      by (unfold body, tag; rewrite firstn_skipn; reflexivity).
    rewrite Hopen, openGeneric_spec
      by (unfold tag, n; rewrite length_skipn; lia).
    rewrite Htag, bytes_eqb_refl, bind_lift_Return. cbn [fst snd].
    rewrite bind_check_None. reflexivity.
  - intros Hn Hna. rewrite Hn. cbn [Nat.eqb negb].
    destruct (length ciphertext <? 16)%nat eqn:E1.
    { rewrite bind_lift_Return. reflexivity. }
    apply Nat.ltb_ge in E1.
    destruct (2 ^ 38 - 48 <? Z.of_nat (length ciphertext)) eqn:E2;
      [apply Z.ltb_lt in E2; lia|].
    assert (Hopen : chacha20poly1305.openGeneric c nonce ciphertext [] =
                    chacha20poly1305.openGeneric c nonce (body ++ tag) [])
      by (unfold body, tag; rewrite firstn_skipn; reflexivity).
    rewrite Hopen, openGeneric_spec
      by (unfold tag, n; rewrite length_skipn; lia).
    destruct (bytes_eqb _ tag) eqn:E3.
    + exfalso. apply Hna. split; [exact E1|].
      apply bytes_eqb_eq. exact E3.
    + rewrite bind_lift_Return. reflexivity.
Qed.

Lemma decrypt_authenticates_witness :
  let master := test_key in
  let msg := sealed_message in
  let nonce := fst (hex.DecodeString (x3dh.Nonce msg)) in
  let ciphertext := fst (hex.DecodeString (x3dh.Ciphertext msg)) in
  let n := (length ciphertext - 16)%nat in
  let body := firstn n ciphertext in
  let tag := skipn n ciphertext in
  let c := {| chacha20poly1305.key := master |} in
  let authentic :=
    (16 <= length ciphertext)%nat /\
    poly1305.Sum (chacha20poly1305.polyKey c nonce)
      (chacha20poly1305.macData [] body) = tag in
  (length nonce <> 12%nat ->
   Bob.decrypt master msg =
   ([CallOpen nonce ciphertext],
    Panic "chacha20poly1305: bad nonce length passed to Open" None)) /\
  (length nonce = 12%nat -> authentic ->
   Bob.decrypt master msg =
   ([CallOpen nonce ciphertext],
    Return (chacha20.XORKeyStream master nonce 1 body))) /\
  (length nonce = 12%nat -> ~ authentic ->
   Bob.decrypt master msg =
   ([CallOpen nonce ciphertext],
    Fatal "DECRYPTION FAILED: %v" (Some ErrOpen))).
Proof.
  apply (decrypt_authenticates test_key sealed_message).
  - reflexivity.
  - vm_compute. discriminate.
Defined.

(** X16.  [checkMessages] drops the errors of [NewPrivateKey]. With a
    stored signed prekey that has not 32 bytes it still asks the server
    for a message, and stops at the first exchange because the key is
    nil. *)
Theorem stored_key_of_wrong_size (keys : Bob.BobPrivateKeys)
    (msg : x3dh.InitialMessage) (left : Z) (ika eka : list byte) :
  length (Bob.SPKbPriv keys) <> 32%nat ->
  Bob.decode32 (x3dh.AliceIK msg) = Return ika ->
  Bob.decode32 (x3dh.AliceEKa msg) = Return eka ->
  Bob.checkMessages
    {| Bob.chkKeyFile := Bob.Contents (Some keys);
       Bob.messagesResponse := (messageResponse msg left, None) |} =
  ([HttpGet (serverURL ++ "/messages/bob");
    Log "Received an initial message from Alice." None;
    CallDH ika],
   Fatal "DH1 failed: %v" (Some ErrPrivNil)).
Proof.
  intros Hlen Hika Heka.
  unfold Bob.checkMessages. cbn [Bob.chkKeyFile Bob.messagesResponse].
  rewrite bind_mret.
  assert (Hnil : fst (ecdh.NewPrivateKey (Bob.SPKbPriv keys)) = None).
  { unfold ecdh.NewPrivateKey, ecdh.x25519PrivateKeySize.
    apply Nat.eqb_neq in Hlen. rewrite Hlen. reflexivity. }
  rewrite Hnil.
  rewrite bind_emit, bind_check_None.
  change (http.StatusCode (messageResponse msg left) =? http.StatusNotFound)
    with false.
  change (http.StatusCode (messageResponse msg left) =? http.StatusOK)
    with true.
  cbn [negb]. rewrite bind_mret.
  cbn [http.Payload messageResponse]. rewrite bind_mret. cbn [fst snd].
  rewrite bind_emit.
  unfold Bob.deriveMaster. rewrite Hika, Heka, !bind_lift_Return.
  unfold Bob.callDH. rewrite bind_emit.
  cbn [x3dh.DH check]. reflexivity.
Qed.

Lemma stored_key_of_wrong_size_witness :
  Bob.checkMessages
    {| Bob.chkKeyFile := Bob.Contents (Some short_keys);
       Bob.messagesResponse := (messageResponse test_message 0, None) |} =
  ([HttpGet (serverURL ++ "/messages/bob");
    Log "Received an initial message from Alice." None;
    CallDH (public rfc_alice)],
   Fatal "DH1 failed: %v" (Some ErrPrivNil)).
Proof.
  apply (stored_key_of_wrong_size short_keys test_message 0
           (public rfc_alice) (public test_key)).
  - vm_compute. discriminate.
  - exact (Bob_decode32_encode32 (ecdh.x25519ScalarMult rfc_alice
             ecdh.x25519Basepoint) (length_x25519ScalarMult _ _)).
  - exact (Bob_decode32_encode32 (ecdh.x25519ScalarMult test_key
             ecdh.x25519Basepoint) (length_x25519ScalarMult _ _)).
Defined.

(* ===================================================================== *)
(** * cmd/alice: a bundle with a verify key of the wrong size *)
(* ===================================================================== *)

(** X17.  [main] drops the error of decoding the verify key. When the
    field does not decode to 32 bytes, [ed25519.Verify] panics: the
    program ends there, after the request for the bundle, and not with
    the signature error. *)
Theorem verify_key_of_wrong_size
    (verify : list byte -> list byte -> list byte -> bool)
    (alicePriv : option ecdh.PrivateKey) (alicePub : list byte)
    (env : Alice.Env) (bundle : x3dh.Bundle) (spkBytes : list byte) :
  Alice.bundleResponse env = (bundleResponse bundle, None) ->
  Alice.decode32 (x3dh.SPK bundle) = Return spkBytes ->
  length (fst (hex.DecodeString (x3dh.Ed25519 bundle))) <> 32%nat ->
  Alice.main verify alicePriv alicePub env =
  ([HttpGet (serverURL ++ "/bundle/bob")],
   Panic "ed25519: bad public key length: " None).
Proof.
  intros Hresp Hspk Hlen.
  unfold Alice.main. rewrite bind_emit, Hresp, bind_check_None.
  cbn [http.StatusCode http.Payload bundleResponse].
  change (http.StatusOK =? http.StatusOK) with true. cbn [negb].
  rewrite bind_mret, Hspk, bind_lift_Return.
  unfold ed25519.Verify, ed25519.PublicKeySize.
  apply Nat.eqb_neq in Hlen. rewrite Hlen. reflexivity.
Qed.

Lemma verify_key_of_wrong_size_witness :
  Alice.main reject_all (Some {| ecdh.privateKey := rfc_alice |})
    (public rfc_alice)
    {| Alice.bundleResponse := (bundleResponse test_bundle, None);
       Alice.ephemeralRand := test_key;
       Alice.input := sample_text;
       Alice.nonceRand := zeros 12;
       Alice.sendResponse := (okResponse, None) |} =
  ([HttpGet (serverURL ++ "/bundle/bob")],
   Panic "ed25519: bad public key length: " None).
Proof.
  apply (verify_key_of_wrong_size reject_all _ _ _ test_bundle
           (public rfc_scalar1)).
  - reflexivity.
  - exact (Alice_decode32_encode32 (ecdh.x25519ScalarMult rfc_scalar1
             ecdh.x25519Basepoint) (length_x25519ScalarMult _ _)).
  - unfold test_bundle. cbn [x3dh.Ed25519 hex.DecodeString fst length].
    discriminate.
Defined.

(* ===================================================================== *)
(** * chat.go: through the server, to the chat client and to cmd/bob *)
(* ===================================================================== *)

Section ChatClient.

Variable MarshalMessage : x3dh.InitialMessage -> string.
Variable UnmarshalMessage : string -> option x3dh.InitialMessage.

(** [json.Marshal] on the message type of the chat client. *)
Variable MarshalChatMessage : Chat.InitialMessage -> string.

(** Enqueue, for any text that decodes to a message: what is stored is
    the text of the decoded message. *)
Lemma sendMessageHandler_body (U body : string) (msg : x3dh.InitialMessage)
    (st : Server.state) (l : list string) :
  U <> "" ->
  UnmarshalMessage body = Some msg ->
  queue_is U st l ->
  exists st',
    Server.sendMessageHandler MarshalMessage UnmarshalMessage
      (sendRequest U body) st = (okResponse, st') /\
    queue_is U st' (l ++ [MarshalMessage msg]).
Proof.
  intros HU Hrt Hq.
  unfold Server.sendMessageHandler, sendRequest.
  cbn [http.Method http.Path http.Body].
  change (String.eqb "POST" http.MethodPost) with true. cbn [negb].
  rewrite TrimPrefix_app, (eqb_empty_false U HU), Hrt.
  unfold redis.RPush. rewrite Hq.
  destruct l as [|d l].
  - eexists. split; [reflexivity|].
    unfold queue_is, Server.with_rdb. cbn [Server.rdb app].
    apply lookup_insert_eq.
  - eexists. split; [reflexivity|].
    unfold queue_is, Server.with_rdb. cbn [Server.rdb app].
    apply lookup_insert_eq.
Qed.

(** The names that the login form accepts. *)
Lemma startChat_accepts (username recipient : string) :
  Chat.startChat username recipient = None ->
  (username = "alice" /\ recipient = "bob") \/
  (username = "bob" /\ recipient = "alice").
Proof.
  unfold Chat.startChat.
  destruct (String.eqb username recipient); [discriminate|].
  destruct (String.eqb username "alice") eqn:Ea;
    destruct (String.eqb recipient "bob") eqn:Eb;
    destruct (String.eqb username "bob") eqn:Ec;
    destruct (String.eqb recipient "alice") eqn:Ed;
    cbn [andb orb negb]; try discriminate; intros _;
    repeat match goal with
           | H : String.eqb _ _ = true |- _ => apply String.eqb_eq in H
           end;
    auto.
Qed.

(** X18.  A line typed in the chat reaches the other side. For names
    that the login form accepts and a text that is not empty: the client
    posts the text in the clear in the ciphertext field, the server
    queues it for the recipient, and the next poll of the recipient's
    client gets the sender and the text and writes the same line to the
    chat view as the sender's client did; the poll after that finds
    nothing. *)
Theorem chat_line_is_delivered (username recipient text : string)
    (st : Server.state) :
  Chat.startChat username recipient = None ->
  text <> "" ->
  let m := snd (Chat.sendMessage username recipient text) in
  UnmarshalMessage (MarshalChatMessage m) = Some (received m) ->
  UnmarshalMessage (MarshalMessage (received m)) = Some (received m) ->
  queue_is recipient st [] ->
  let line := (username ++ ": " ++ text ++ Chat.newline)%string in
  exists st1 st2 resp,
    Chat.onEnter username recipient text =
      Some (serverURL ++ http.Path (sendRequest recipient ""), m, line) /\
    Chat.Ciphertext m = text /\
    Server.sendMessageHandler MarshalMessage UnmarshalMessage
      (sendRequest recipient (MarshalChatMessage m)) st = (okResponse, st1) /\
    Chat.messagesURL recipient =
      (serverURL ++ http.Path (messagesRequest recipient))%string /\
    Server.getMessageHandler UnmarshalMessage (messagesRequest recipient) st1 =
      (resp, st2) /\
    Chat.checkMessages (resp, None) = (username, text, None) /\
    Chat.poll (resp, None) = Some line /\
    Chat.poll
      (fst (Server.getMessageHandler UnmarshalMessage
              (messagesRequest recipient) st2), None) = None.
Proof.
  intros Hstart Htext m Hchat Hrt Hq line.
  assert (HU : recipient <> "").
  { destruct (startChat_accepts _ _ Hstart) as [[_ ->] | [_ ->]];
      discriminate. }
  destruct (sendMessageHandler_body recipient _ _ st [] HU Hchat Hq)
    as (st1 & Hsend & Hq1).
  cbn [app] in Hq1.
  destruct (getMessageHandler_spec UnmarshalMessage recipient st1 _ [] _
              HU Hrt Hq1) as (st2 & Hget & Hq2).
  exists st1, st2. eexists.
  split.
  { unfold Chat.onEnter. rewrite (eqb_empty_false text Htext).
    reflexivity. }
  split; [reflexivity|].
  split; [exact Hsend|].
  split; [reflexivity|].
  split; [exact Hget|].
  split; [reflexivity|].
  split.
  { unfold Chat.poll, Chat.checkMessages, messageResponse.
    cbn [http.StatusCode http.Payload received m Chat.sendMessage snd
         x3dh.Sender x3dh.Ciphertext Chat.Sender Chat.Ciphertext].
    change (http.StatusOK =? http.StatusOK) with true. cbn [negb].
    rewrite (eqb_empty_false text Htext). reflexivity. }
  rewrite (getMessageHandler_empty UnmarshalMessage recipient st2 HU Hq2).
  reflexivity.
Qed.

(** X19.  The two clients do not understand each other. A line of the
    chat that is queued for [bob] and polled by [cmd/bob] has an empty
    key field, which the [decode32] of [cmd/bob] takes for the zero
    array: the first exchange fails on a low order point and the program
    stops, the message being gone from the queue. *)
Theorem chat_line_stops_responder (sender text : string)
    (keys : Bob.BobPrivateKeys) (st : Server.state) :
  length (Bob.SPKbPriv keys) = 32%nat ->
  let m := snd (Chat.sendMessage sender "bob" text) in
  UnmarshalMessage (MarshalChatMessage m) = Some (received m) ->
  UnmarshalMessage (MarshalMessage (received m)) = Some (received m) ->
  queue_is "bob" st [] ->
  exists st1 st2 resp,
    Server.sendMessageHandler MarshalMessage UnmarshalMessage
      (sendRequest "bob" (MarshalChatMessage m)) st = (okResponse, st1) /\
    Server.getMessageHandler UnmarshalMessage (messagesRequest "bob") st1 =
      (resp, st2) /\
    queue_is "bob" st2 [] /\
    Bob.checkMessages
      {| Bob.chkKeyFile := Bob.Contents (Some keys);
         Bob.messagesResponse := (resp, None) |} =
    ([HttpGet (serverURL ++ "/messages/bob");
      Log "Received an initial message from Alice." None;
      CallDH (zeros 32)],
     Fatal "DH1 failed: %v" (Some (ErrSharedSecret ErrEcdhLowOrder))).
Proof.
  intros Hlen m Hchat Hrt Hq.
  assert (HU : "bob" <> "") by discriminate.
  destruct (sendMessageHandler_body "bob" _ _ st [] HU Hchat Hq)
    as (st1 & Hsend & Hq1).
  cbn [app] in Hq1.
  destruct (getMessageHandler_spec UnmarshalMessage "bob" st1 _ [] _
              HU Hrt Hq1) as (st2 & Hget & Hq2).
  exists st1, st2. eexists.
  split; [exact Hsend|]. split; [exact Hget|]. split; [exact Hq2|].
  unfold Bob.checkMessages. cbn [Bob.chkKeyFile Bob.messagesResponse].
  rewrite bind_mret, (NewPrivateKey_ok _ Hlen).
  cbn [fst].
  rewrite bind_emit, bind_check_None.
  change (http.StatusCode (messageResponse _ _) =? http.StatusNotFound)
    with false.
  change (http.StatusCode (messageResponse _ _) =? http.StatusOK) with true.
  cbn [negb]. rewrite bind_mret.
  cbn [http.Payload messageResponse]. rewrite bind_mret. cbn [fst snd].
  rewrite bind_emit.
  unfold Bob.deriveMaster.
  change (Bob.decode32 (x3dh.AliceIK (received m))) with (Return (zeros 32)).
  change (Bob.decode32 (x3dh.AliceEKa (received m))) with (Return (zeros 32)).
  rewrite !bind_lift_Return.
  unfold Bob.callDH. rewrite bind_emit.
  rewrite DH_Some by apply length_zeros.
  rewrite x25519ScalarMult_zero. reflexivity.
Qed.

End ChatClient.

Lemma chat_line_is_delivered_witness :
  let m := snd (Chat.sendMessage "alice" "bob" sample_text) in
  let line := ("alice" ++ ": " ++ sample_text ++ Chat.newline)%string in
  exists st1 st2 resp,
    Chat.onEnter "alice" "bob" sample_text =
      Some (serverURL ++ http.Path (sendRequest "bob" ""), m, line) /\
    Chat.Ciphertext m = sample_text /\
    Server.sendMessageHandler plainjson.MarshalMessage plainjson.DecodeMessage
      (sendRequest "bob" (plainjson.MarshalChatMessage m)) freshState =
      (okResponse, st1) /\
    Chat.messagesURL "bob" =
      (serverURL ++ http.Path (messagesRequest "bob"))%string /\
    Server.getMessageHandler plainjson.DecodeMessage (messagesRequest "bob")
      st1 = (resp, st2) /\
    Chat.checkMessages (resp, None) = ("alice", sample_text, None) /\
    Chat.poll (resp, None) = Some line /\
    Chat.poll
      (fst (Server.getMessageHandler plainjson.DecodeMessage
              (messagesRequest "bob") st2), None) = None.
Proof.
  apply (chat_line_is_delivered plainjson.MarshalMessage
           plainjson.DecodeMessage plainjson.MarshalChatMessage
           "alice" "bob" sample_text freshState).
  - reflexivity.
  - discriminate.
  - reflexivity.
  - reflexivity.
  - reflexivity.
Defined.

Lemma chat_line_stops_responder_witness :
  let m := snd (Chat.sendMessage "alice" "bob" sample_text) in
  exists st1 st2 resp,
    Server.sendMessageHandler plainjson.MarshalMessage plainjson.DecodeMessage
      (sendRequest "bob" (plainjson.MarshalChatMessage m)) freshState =
      (okResponse, st1) /\
    Server.getMessageHandler plainjson.DecodeMessage (messagesRequest "bob")
      st1 = (resp, st2) /\
    queue_is "bob" st2 [] /\
    Bob.checkMessages
      {| Bob.chkKeyFile := Bob.Contents (Some sample_keys);
         Bob.messagesResponse := (resp, None) |} =
    ([HttpGet (serverURL ++ "/messages/bob");
      Log "Received an initial message from Alice." None;
      CallDH (zeros 32)],
     Fatal "DH1 failed: %v" (Some (ErrSharedSecret ErrEcdhLowOrder))).
Proof.
  apply (chat_line_stops_responder plainjson.MarshalMessage
           plainjson.DecodeMessage plainjson.MarshalChatMessage
           "alice" sample_text sample_keys freshState).
  - reflexivity.
  - reflexivity.
  - reflexivity.
  - reflexivity.
Defined.

(* ===================================================================== *)
(** * decode32: where the three copies agree *)
(* ===================================================================== *)

(** X20.  The [decode32] of the package and its copies in [cmd/alice]
    and [cmd/bob], on every string.  What the package accepts, the
    copies return unchanged; where the package reports a string that is
    not hexadecimal, the copies panic with the error of the decoder;
    and where the package reports a wrong length, the copies return 32
    bytes all the same: what was decoded, cut or filled with zeros. *)
Theorem decode32_copies_agree (s : string) :
  (forall out, x3dh.decode32 s = (out, None) ->
     Alice.decode32 s = Return out /\ Bob.decode32 s = Return out) /\
  (forall out e, x3dh.decode32 s = (out, Some (ErrDecodeHex e)) ->
     Alice.decode32 s = Panic "" (Some e) /\
     Bob.decode32 s = Panic "" (Some e)) /\
  (forall out n, x3dh.decode32 s = (out, Some (ErrExpected32 n)) ->
     let raw := fst (hex.DecodeString s) in
     length raw = n /\ n <> 32%nat /\
     Alice.decode32 s = Return (copy_into 32 raw) /\
     Bob.decode32 s = Return (copy_into 32 raw) /\
     length (copy_into 32 raw) = 32%nat).
Proof.
  unfold x3dh.decode32, Alice.decode32, Bob.decode32.
  destruct (hex.DecodeString s) as [raw [err|]]; cbn [fst].
  - split; [discriminate|]. split; [|discriminate].
    intros out e H. injection H as _ <-. split; reflexivity.
  - destruct (length raw =? 32)%nat eqn:E; cbn [negb].
    + split; [|split; discriminate].
      intros out H. injection H as <-.
      apply Nat.eqb_eq in E. rewrite copy_into_exact by exact E.
      split; reflexivity.
    + apply Nat.eqb_neq in E.
      split; [discriminate|]. split; [discriminate|].
      intros out n H. injection H as _ <-.
      split; [reflexivity|]. split; [exact E|].
      split; [reflexivity|]. split; [reflexivity|].
      apply length_copy_into.
Qed.

(* ===================================================================== *)
(** * cmd/alice: what [main] posts *)
(* ===================================================================== *)

(** [GenKeyPair] returns a key or an error. *)
Lemma GenKeyPair_key_or_error (rand : list byte) priv pub :
  x3dh.GenKeyPair rand = (priv, pub, None) -> exists k, priv = Some k.
Proof.
  unfold x3dh.GenKeyPair, ecdh.GenerateKey, ecdh.NewPrivateKey.
  destruct (length rand <? ecdh.x25519PrivateKeySize)%nat; [discriminate|].
  destruct (negb (length (firstn ecdh.x25519PrivateKeySize rand)
                  =? ecdh.x25519PrivateKeySize)%nat); [discriminate|].
  intros H. injection H as <- _. eexists. reflexivity.
Qed.

Lemma quiet_not_posted (t : list event) (url : string)
    (msg : x3dh.InitialMessage) :
  Forall quiet t -> In (HttpPostMessage url msg) t -> False.
Proof.
  induction 1 as [|e t He _ IH]; intros Hin; [exact Hin|].
  destruct Hin as [-> | Hin]; [exact He | exact (IH Hin)].
Qed.

Lemma callDH_quiet (f : string) priv pub32 :
  Forall quiet (fst (Alice.callDH f priv pub32)).
Proof.
  unfold Alice.callDH. rewrite bind_emit. cbn [fst].
  constructor; [exact I|].
  destruct (x3dh.DH priv pub32) as [out [e|]].
  - constructor.
  - rewrite bind_check_None. constructor.
Qed.

(** A run that stopped in a quiet step. *)
Ltac stopped :=
  rewrite ?bind_Fatal, ?bind_Panic; cbn [fst snd];
  split;
  [ repeat (apply Forall_app; split; [assumption|]); assumption
  | discriminate ].

(** The derivation posts nothing, and when it returns a key it has
    logged the key. *)
Lemma deriveMaster_trace alicePriv privEKa bundle :
  Forall quiet (fst (Alice.deriveMaster alicePriv privEKa bundle)) /\
  forall master,
    snd (Alice.deriveMaster alicePriv privEKa bundle) = Return master ->
    length master = 32%nat /\
    In (Log "Session key derived " (Some (hex.EncodeToString master)))
      (fst (Alice.deriveMaster alicePriv privEKa bundle)).
Proof.
  unfold Alice.deriveMaster.
  destruct (Alice.decode32 (x3dh.IK bundle)) as [ik| |];
    [rewrite bind_lift_Return | split; [constructor | discriminate] ..].
  destruct (Alice.decode32 (x3dh.SPK bundle)) as [spk| |];
    [rewrite bind_lift_Return | split; [constructor | discriminate] ..].
  destruct (Alice.decode32 (x3dh.OTK bundle)) as [otk| |];
    [rewrite bind_lift_Return | split; [constructor | discriminate] ..].
  pose proof (callDH_quiet "DH1 failed: %v" alicePriv spk) as Q1.
  destruct (Alice.callDH "DH1 failed: %v" alicePriv spk) as [t1 [d1| |]];
    cbn [fst] in Q1; [rewrite bind_Return | stopped ..].
  pose proof (callDH_quiet "DH2 failed: %v" privEKa ik) as Q2.
  destruct (Alice.callDH "DH2 failed: %v" privEKa ik) as [t2 [d2| |]];
    cbn [fst] in Q2; [rewrite bind_Return | stopped ..].
  pose proof (callDH_quiet "DH3 failed: %v" privEKa spk) as Q3.
  destruct (Alice.callDH "DH3 failed: %v" privEKa spk) as [t3 [d3| |]];
    cbn [fst] in Q3; [rewrite bind_Return | stopped ..].
  pose proof (callDH_quiet "DH4 failed: %v" privEKa otk) as Q4.
  destruct (Alice.callDH "DH4 failed: %v" privEKa otk) as [t4 [d4| |]];
    cbn [fst] in Q4; [rewrite bind_Return | stopped ..].
  rewrite !bind_emit. cbn [fst snd].
  split.
  - repeat (apply Forall_app; split; [assumption|]).
    repeat constructor.
  - intros master H. injection H as <-. split; [apply length_KDF|].
    apply in_or_app. right. apply in_or_app. right.
    apply in_or_app. right. apply in_or_app. right.
    right. left. reflexivity.
Qed.

(** The encryption posts nothing, and what it returns is the nonce and
    the sealed text. *)
Lemma encrypt_trace (master nonceRand plaintext : list byte) :
  length master = 32%nat ->
  Forall quiet (fst (Alice.encrypt master nonceRand plaintext)) /\
  forall nc,
    snd (Alice.encrypt master nonceRand plaintext) = Return nc ->
    nc = (copy_into 12 nonceRand,
          chacha20poly1305.sealGeneric {| chacha20poly1305.key := master |}
            (copy_into 12 nonceRand) plaintext []).
Proof.
  intros Hm.
  destruct (2 ^ 38 - 64 <? Z.of_nat (length plaintext)) eqn:E.
  - unfold Alice.encrypt. rewrite (New_ok _ Hm).
    unfold chacha20poly1305.NonceSize. rewrite bind_emit.
    unfold chacha20poly1305.Seal, chacha20poly1305.NonceSize.
    rewrite length_copy_into, E. cbn [Nat.eqb negb].
    unfold lift. rewrite bind_Panic. cbn [fst snd].
    split; [repeat constructor | discriminate].
  - apply Z.ltb_ge in E.
    rewrite (Alice_encrypt_ok _ _ _ Hm E). cbn [fst snd].
    split; [repeat constructor|].
    intros nc H. injection H as <-. reflexivity.
Qed.

Section Posting.

Variable ed25519_verify : list byte -> list byte -> list byte -> bool.

(** X21.  Every message that [main] posts, in every run: it goes to
    [/send/bob]; it carries the identity key that [main] was given and
    an ephemeral key that [ValidatePublicKey] accepts, under the sender
    name [alice]; its nonce has 12 bytes; its ciphertext is the typed
    text sealed with that nonce under a key of 32 bytes; and the run
    has written this key to the log. *)
Theorem posted_message_is_sealed (alicePriv : option ecdh.PrivateKey)
    (alicePub : list byte) (env : Alice.Env) (url : string)
    (msg : x3dh.InitialMessage) :
  In (HttpPostMessage url msg)
    (fst (Alice.main ed25519_verify alicePriv alicePub env)) ->
  url = (serverURL ++ "/send/bob")%string /\
  x3dh.Sender msg = "alice" /\
  x3dh.AliceIK msg = Alice.encode32 alicePub /\
  x3dh.ValidatePublicKey (x3dh.AliceEKa msg) = None /\
  exists master nonce,
    length master = 32%nat /\ length nonce = 12%nat /\
    x3dh.Nonce msg = hex.EncodeToString nonce /\
    x3dh.Ciphertext msg =
      hex.EncodeToString
        (chacha20poly1305.sealGeneric {| chacha20poly1305.key := master |}
           nonce (bytes_of_string (Alice.input env)) []) /\
    In (Log "Session key derived " (Some (hex.EncodeToString master)))
      (fst (Alice.main ed25519_verify alicePriv alicePub env)).
Proof.
  unfold Alice.main. rewrite bind_emit. cbn [fst].
  intros [H|H]; [discriminate H|]. revert H.
  destruct (Alice.bundleResponse env) as [resp err].
  destruct err as [err|]; [intros []|].
  rewrite bind_check_None.
  destruct (negb (http.StatusCode resp =? http.StatusOK)); [intros []|].
  destruct (http.Payload resp) as [| | bundle | |]; try (intros []).
  rewrite bind_mret.
  destruct (Alice.decode32 (x3dh.SPK bundle)) as [spkBytes| |];
    try (intros []).
  rewrite bind_lift_Return.
  destruct (ed25519.Verify ed25519_verify _ spkBytes _) as [ok| |];
    try (intros []).
  rewrite bind_lift_Return.
  destruct ok; cbn [negb]; [|intros []].
  rewrite bind_mret, bind_emit. cbn [fst].
  intros [H|H]; [discriminate H|]. revert H.
  pose proof (GenKeyPair_Some (Alice.ephemeralRand env)) as Hgen.
  pose proof (GenKeyPair_key_or_error (Alice.ephemeralRand env)) as Hkey.
  destruct (x3dh.GenKeyPair (Alice.ephemeralRand env))
    as [[privEKa pubEKa] [err|]]; [intros []|].
  destruct (Hkey _ _ eq_refl) as [k ->].
  destruct (Hgen k pubEKa eq_refl) as (_ & _ & Hpub).
  clear Hgen Hkey.
  rewrite bind_check_None.
  destruct (deriveMaster_trace alicePriv (Some k) bundle) as [Hq Hlog].
  destruct (Alice.deriveMaster alicePriv (Some k) bundle)
    as [td [master| |]]; cbn [fst snd] in Hq, Hlog.
  2,3: (rewrite ?bind_Fatal, ?bind_Panic; cbn [fst]; intros H; exfalso;
        exact (quiet_not_posted _ _ _ Hq H)).
  destruct (Hlog master eq_refl) as [Hm Hin].
  rewrite bind_Return. cbn [fst].
  intros H. apply in_app_or in H as [H|H].
  { exfalso. exact (quiet_not_posted _ _ _ Hq H). }
  revert H. rewrite bind_emit. cbn [fst].
  intros [H|H]; [discriminate H|]. revert H.
  destruct (encrypt_trace master (Alice.nonceRand env)
              (bytes_of_string (Alice.input env)) Hm) as [Hqe Hnc].
  destruct (Alice.encrypt master (Alice.nonceRand env)
              (bytes_of_string (Alice.input env))) as [te [nc| |]];
    cbn [fst snd] in Hqe, Hnc.
  2,3: (rewrite ?bind_Fatal, ?bind_Panic; cbn [fst]; intros H; exfalso;
        exact (quiet_not_posted _ _ _ Hqe H)).
  rewrite (Hnc nc eq_refl). clear Hnc.
  rewrite bind_Return. cbn [fst snd].
  intros H. apply in_app_or in H as [H|H].
  { exfalso. exact (quiet_not_posted _ _ _ Hqe H). }
  revert H. rewrite bind_emit. cbn [fst].
  intros [H|H].
  - injection H as <- <-.
    cbn [x3dh.Sender x3dh.AliceIK x3dh.AliceEKa x3dh.Nonce x3dh.Ciphertext].
    split; [reflexivity|]. split; [reflexivity|]. split; [reflexivity|].
    split.
    + rewrite Hpub.
      unfold x3dh.ValidatePublicKey, x3dh.decode32, Alice.encode32.
      rewrite DecodeString_EncodeToString, length_x25519ScalarMult.
      reflexivity.
    + exists master, (copy_into 12 (Alice.nonceRand env)).
      split; [exact Hm|]. split; [apply length_copy_into|].
      split; [reflexivity|]. split; [reflexivity|].
      right. right. apply in_or_app. left. exact Hin.
  - exfalso. revert H.
    destruct (Alice.sendResponse env) as [resp' err'].
    destruct err' as [err'|]; [intros []|].
    rewrite bind_check_None.
    destruct (negb (http.StatusCode resp' =? http.StatusOK)); [intros []|].
    rewrite bind_mret. intros [H|[]]. discriminate H.
Qed.

End Posting.

Lemma posted_message_is_sealed_witness :
  let bundle :=
    published_bundle sample_NewKeyFromSeed sample_Sign rfc_bob rfc_scalar1
      rfc_scalar2 sample_seed in
  let env :=
    {| Alice.bundleResponse := (bundleResponse bundle, None);
       Alice.ephemeralRand := test_key;
       Alice.input := sample_text;
       Alice.nonceRand := zeros 12;
       Alice.sendResponse := (okResponse, None) |} in
  let url := (serverURL ++ "/send/bob")%string in
  let msg :=
    first_message rfc_alice test_key rfc_bob rfc_scalar1 rfc_scalar2
      (zeros 12) sample_text in
  let t :=
    fst (Alice.main sample_verify (Some {| ecdh.privateKey := rfc_alice |})
           (public rfc_alice) env) in
  In (HttpPostMessage url msg) t /\
  url = (serverURL ++ "/send/bob")%string /\
  x3dh.Sender msg = "alice" /\
  x3dh.AliceIK msg = Alice.encode32 (public rfc_alice) /\
  x3dh.ValidatePublicKey (x3dh.AliceEKa msg) = None /\
  exists master nonce,
    length master = 32%nat /\ length nonce = 12%nat /\
    x3dh.Nonce msg = hex.EncodeToString nonce /\
    x3dh.Ciphertext msg =
      hex.EncodeToString
        (chacha20poly1305.sealGeneric {| chacha20poly1305.key := master |}
           nonce (bytes_of_string (Alice.input env)) []) /\
    In (Log "Session key derived " (Some (hex.EncodeToString master))) t.
Proof.
  intros bundle env url msg t.
  assert (Hver : ed25519.Verify sample_verify
                   (fst (hex.DecodeString (x3dh.Ed25519 bundle)))
                   (public rfc_scalar1)
                   (fst (hex.DecodeString (x3dh.Sig bundle))) = Return true).
  { unfold bundle, published_bundle. cbn [x3dh.Ed25519 x3dh.Sig].
    rewrite !DecodeString_EncodeToString. cbn [fst].
    apply sample_scheme_verifies. reflexivity. }
  assert (Hin : Z.of_nat (String.length (Alice.input env)) <= 2 ^ 38 - 64)
    by (unfold env; cbn [Alice.input]; vm_compute; discriminate).
  assert (HIK : x3dh.IK bundle = Bob.encode32 (public rfc_bob))
    by (unfold bundle, published_bundle; cbn [x3dh.IK]; reflexivity).
  assert (HSPK : x3dh.SPK bundle = Bob.encode32 (public rfc_scalar1))
    by (unfold bundle, published_bundle; cbn [x3dh.SPK]; reflexivity).
  assert (HOTK : x3dh.OTK bundle = Bob.encode32 (public rfc_scalar2))
    by (unfold bundle, published_bundle; cbn [x3dh.OTK]; reflexivity).
  assert (Hresp : Alice.bundleResponse env = (bundleResponse bundle, None))
    by (unfold env; cbn [Alice.bundleResponse]; reflexivity).
  assert (Heka : Alice.ephemeralRand env = test_key)
    by (unfold env; cbn [Alice.ephemeralRand]; reflexivity).
  assert (Hsend : Alice.sendResponse env = (okResponse, None))
    by (unfold env; cbn [Alice.sendResponse]; reflexivity).
  assert (Hlen : length test_key = 32%nat) by reflexivity.
  pose proof (Alice_main_ok (fun k => In k test_keys) test_keys_agree
                sample_verify rfc_alice test_key rfc_bob rfc_scalar1
                rfc_scalar2 bundle env Hlen
                (or_introl eq_refl)
                (or_intror (or_intror (or_intror (or_intror
                   (or_introl eq_refl)))))
                (or_intror (or_introl eq_refl))
                (or_intror (or_intror (or_introl eq_refl)))
                (or_intror (or_intror (or_intror (or_introl eq_refl))))
                HIK HSPK HOTK Hver Hresp Heka Hsend Hin) as Hrun.
  cbv zeta in Hrun.
  assert (Hposted : In (HttpPostMessage url msg) t).
  { unfold t. rewrite Hrun. cbn [fst].
    do 10 right. left.
    unfold url, msg, env. cbn [Alice.nonceRand Alice.input]. reflexivity. }
  split; [exact Hposted|].
  exact (posted_message_is_sealed sample_verify
           (Some {| ecdh.privateKey := rfc_alice |}) (public rfc_alice) env
           url msg Hposted).
Defined.

Lemma unverified_no_protocol_step_witness :
  forallb (fun e => negb (protocol_step e))
    (fst (Alice.main reject_all (Some {| ecdh.privateKey := rfc_alice |})
            (public rfc_alice)
            {| Alice.bundleResponse := (okResponse, Some ErrTransport);
               Alice.ephemeralRand := test_key;
               Alice.input := sample_text;
               Alice.nonceRand := zeros 12;
               Alice.sendResponse := (okResponse, None) |})) = true.
Proof.
  apply (unverified_no_protocol_step reject_all).
  intros (resp & bundle & spkBytes & H & _). discriminate H.
Defined.

(* ===================================================================== *)
(** * The models on the test vectors of their standards *)
(* ===================================================================== *)

(** FIPS 180-4: the digests of "abc" and of the empty message. *)
Example sha256_test_vectors :
  hex.EncodeToString (sha256.Sum256 (bytes_of_string "abc")) =
    "ba7816bf8f01cfea414140de5dae2223b00361a396177a9cb410ff61f20015ad" /\
  hex.EncodeToString (sha256.Sum256 []) =
    "e3b0c44298fc1c149afbf4c8996fb92427ae41e4649b934ca495991b7852b855".
Proof. vm_compute. split; reflexivity. Qed.

(** RFC 7748, section 6.1: the public keys of Alice and Bob and their
    shared secret. *)
Example x25519_test_vectors :
  hex.EncodeToString (ecdh.x25519ScalarMult rfc_alice ecdh.x25519Basepoint) =
    "8520f0098930a754748b7ddcb43ef75a0dbf3a0d26381af4eba4a98eaa9b4e6a" /\
  hex.EncodeToString (ecdh.x25519ScalarMult rfc_bob ecdh.x25519Basepoint) =
    "de9edb7d7b7dc1b4d35b61c2ece435373f8343c85b78674dadfc7e146f882b4f" /\
  hex.EncodeToString
    (ecdh.x25519ScalarMult rfc_alice
       (ecdh.x25519ScalarMult rfc_bob ecdh.x25519Basepoint)) =
    "4a5d9d5ba4ce2de1728e3bf480350f25e07e21c947d19e3376f09b3c1e161742".
Proof. rewrite !x25519ScalarMult_fast. vm_compute. repeat split. Qed.

(** RFC 7748, section 5.2: the first scalar multiplication. *)
Example x25519_scalar_test_vector :
  hex.EncodeToString
    (ecdh.x25519ScalarMult rfc_scalar1
       (unhex "e6db6867583030db3594c1a424b15f7c726624ec26b3353b10a903a6d0ab1c4c")) =
    "c3da55379de9c6908e94ea4df28d084f32eccf03491c71f754b4075577a28552".
Proof. rewrite x25519ScalarMult_fast. vm_compute. reflexivity. Qed.

(** RFC 8439, sections 2.3.2, 2.5.2 and 2.8.2: a block of key stream, a
    tag, and the tag of the sealed message with additional data. *)
Example chacha20poly1305_test_vectors :
  hex.EncodeToString
    (chacha20.block
       (unhex "000102030405060708090a0b0c0d0e0f101112131415161718191a1b1c1d1e1f")
       1 (unhex "000000090000004a00000000")) =
    "10f1e7e4d13b5915500fdd1fa32071c4c7d1f4c733c068030422aa9ac3d46c4ed2826446079faa0914c2d705d98b02a2b5129cd1de164eb9cbd083e8a2503c4e" /\
  hex.EncodeToString
    (poly1305.Sum
       (unhex "85d6be7857556d337f4452fe42d506a80103808afb0db2fd4abff6af4149f51b")
       (bytes_of_string "Cryptographic Forum Research Group")) =
    "a8061dc1305136c6c22b8baf0c0127a9" /\
  hex.EncodeToString
    (skipn 114
       (chacha20poly1305.sealGeneric
          {| chacha20poly1305.key :=
               unhex "808182838485868788898a8b8c8d8e8f909192939495969798999a9b9c9d9e9f" |}
          (unhex "070000004041424344454647")
          (bytes_of_string "Ladies and Gentlemen of the class of '99: If I could offer you only one tip for the future, sunscreen would be it.")
          (unhex "50515253c0c1c2c3c4c5c6c7"))) =
    "1ae10b594f09e26a7e902ecbd0600691".
Proof. vm_compute. repeat split. Qed.

(** The tests of the package on [GenKeyPair], [DH] and [KDF], on fixed
    random bytes. *)
Example package_tests :
  x3dh.GenKeyPair rfc_alice =
    (Some {| ecdh.privateKey := rfc_alice |},
     ecdh.x25519ScalarMult rfc_alice ecdh.x25519Basepoint, None) /\
  snd (x3dh.DH None (ecdh.x25519ScalarMult rfc_alice ecdh.x25519Basepoint))
    <> None /\
  snd (x3dh.DH (Some {| ecdh.privateKey := rfc_alice |}) (zeros 32)) <> None /\
  x3dh.KDF [] <> zeros 32 /\
  x3dh.KDF [test_key] <> zeros 32.
Proof.
  split; [apply GenKeyPair_exact; reflexivity|].
  split; [discriminate|].
  split.
  - rewrite DH_Some by reflexivity. rewrite x25519ScalarMult_zero.
    discriminate.
  - vm_compute. split; discriminate.
Qed.
